(** * Curriculum schema, manager and Excel codec: a shallow embedding

    The development follows [apps/curriculum/schema.py] and
    [apps/curriculum/excel.py].

    - Python values that travel through the [Dict] payloads are modelled by
      [value]: [None], hashable scalars ([atom]: integers, text and the
      pandas missing-value marker), lists and insertion-ordered dictionaries.
    - The dataclasses are records. The fields the code computes with (the
      semester number, the credits and the five hour buckets) have their
      annotated type [int], which is [Z] here: [from_dict] raises
      [TypeError] when a payload holds something else under such a key.
      The other fields keep the payload's value.
    - Exceptions are values of [exn]; every [raise] site of the source has
      its own constructor of [message], carrying the interpolated values of
      the f-string instead of the rendered text.
    - [CurriculumManager] mutates [self.data]; its methods are written in a
      small state-and-exception monad over the mapping. *)

From Stdlib Require Import ZArith Ascii String.
From stdpp Require Import gmap strings list.

Set Warnings "-register-all,-clear-no-such-hyp".
Open Scope string_scope.
Open Scope list_scope.

(** ** Python values *)

(** Hashable scalars: dictionary keys, set members and spreadsheet cells. *)
Inductive atom :=
| PInt (z : Z)
| PStr (s : string)
| PNaN.

Inductive value :=
| VNone
| Atom (a : atom)
| VList (l : list value)
| VDict (d : list (atom * value)).

#[global] Instance atom_eq_dec : EqDecision atom.
Proof. solve_decision. Defined.

Definition atom_to_sum (a : atom) : Z + string + unit :=
  match a with
  | PInt z => inl (inl z)
  | PStr s => inl (inr s)
  | PNaN => inr tt
  end.

Definition atom_of_sum (x : Z + string + unit) : atom :=
  match x with
  | inl (inl z) => PInt z
  | inl (inr s) => PStr s
  | inr _ => PNaN
  end.

#[global] Instance atom_countable : Countable atom.
Proof.
  refine (inj_countable' atom_to_sum atom_of_sum _).
  intros []; reflexivity.
Defined.

(** ** Exceptions *)

Inductive exn :=
| KeyError (key : value)
| ValueError (v : value)
| TypeError
| AttributeError
| ValidationError (msg : message)
with message :=
(* SemesterData.validate *)
| CreditsMustBePositive
| TotalHoursMismatch (total_hours expected_hours : Z)
| IndividualHoursMustBePresent
| InstructionalHoursMustBePresent
(* CourseData.validate *)
| CodeAndNameRequired
| InvalidCourseType
| SemesterRequired
| DuplicateSemesterNumber (semester : Z)
(* CurriculumSchema *)
| InvalidCourseDataStructure (cause : exn)
| CourseValidationFailed (cause : message)
| CurriculumMustBeDict
| CourseCodeMismatch (course_code : atom) (code : value)
| InvalidPrerequisites (code : value) (invalid_prereqs : gset atom)
(* CurriculumManager *)
| CourseAlreadyExists (code : value)
| CourseDoesNotExist (code : value)
| CannotRemove (course_code : string) (dependent : value)
(* ExcelProcessor *)
| MissingRequiredColumns (missing_cols : gset string)
| ErrorProcessingExcel (cause : exn)
| ValidationErrorDuringPreview (cause : message)
| ErrorDuringPreview (cause : exn).

Inductive result (A : Type) :=
| Ok (a : A)
| Raise (e : exn).
Arguments Ok {A} a.
Arguments Raise {A} e.

#[global] Instance result_ret : MRet result := fun _ a => Ok a.
#[global] Instance result_bind : MBind result := fun _ _ f r =>
  match r with
  | Ok a => f a
  | Raise e => Raise e
  end.

(** ** Insertion-ordered dictionaries *)

Module Dict.

Definition t (V : Type) := list (atom * V).

Section ops.
Context {V : Type}.

(** [d.get(k)] *)
Fixpoint get (d : t V) (k : atom) : option V :=
  match d with
  | [] => None
  | (k', v) :: d' => if decide (k' = k) then Some v else get d' k
  end.

(** [k in d] *)
Definition mem (d : t V) (k : atom) : bool :=
  match get d k with Some _ => true | None => false end.

(** [d[k]] *)
Definition getitem (d : t V) (k : atom) : result V :=
  match get d k with
  | Some v => Ok v
  | None => Raise (KeyError (Atom k))
  end.

(** [d[k] = v]: an existing key keeps its position, a new key goes last. *)
Fixpoint setitem (d : t V) (k : atom) (v : V) : t V :=
  match d with
  | [] => [(k, v)]
  | (k', v') :: d' =>
      if decide (k' = k) then (k', v) :: d' else (k', v') :: setitem d' k v
  end.

(** [del d[k]] *)
Fixpoint delitem (d : t V) (k : atom) : t V :=
  match d with
  | [] => []
  | (k', v') :: d' =>
      if decide (k' = k) then d' else (k', v') :: delitem d' k
  end.

Definition keys (d : t V) : list atom := d.*1.
Definition values (d : t V) : list V := d.*2.

End ops.
End Dict.

(** ** Dynamic operations on values *)

(** [v[k]] for a string key: only dictionaries can be indexed by text. *)
Definition subscript (v : value) (k : string) : result value :=
  match v with
  | VDict d => Dict.getitem d (PStr k)
  | _ => Raise TypeError
  end.

(** [v.get(k, dflt)]: only dictionaries have [get]. *)
Definition dict_get (v : value) (k : string) (dflt : value) : result value :=
  match v with
  | VDict d => Ok (default dflt (Dict.get d (PStr k)))
  | _ => Raise AttributeError
  end.

(** Truth value of a scalar: zero and the empty text are false, the
    missing-value marker (a float) is true. *)
Definition atom_truthy (a : atom) : bool :=
  match a with
  | PInt z => negb (Z.eqb z 0)
  | PStr s => negb (String.eqb s "")
  | PNaN => true
  end.

(** Truth value of a value: [None] and empty containers are false. *)
Definition truthy (v : value) : bool :=
  match v with
  | VNone => false
  | Atom a => atom_truthy a
  | VList l => negb (bool_decide (l = []))
  | VDict d => negb (bool_decide (d = []))
  end.

(** Coercions to the annotated field types. *)
Definition as_int (v : value) : result Z :=
  match v with
  | Atom (PInt z) => Ok z
  | _ => Raise TypeError
  end.

Definition as_str (v : value) : result string :=
  match v with
  | Atom (PStr s) => Ok s
  | _ => Raise TypeError
  end.

(** [for x in v]: a list yields its items, a dictionary its keys; text
    yields its characters, one-character strings. *)
Fixpoint chars (s : string) : list value :=
  match s with
  | EmptyString => []
  | String c s' => Atom (PStr (String c EmptyString)) :: chars s'
  end.

Definition py_iter (v : value) : result (list value) :=
  match v with
  | VList l => Ok l
  | VDict d => Ok (Atom <$> Dict.keys d)
  | Atom (PStr s) => Ok (chars s)
  | _ => Raise TypeError
  end.

(** [hash(v)]: lists and dictionaries are unhashable. *)
Definition hashable (v : value) : result atom :=
  match v with
  | Atom a => Ok a
  | _ => Raise TypeError
  end.

(** Sequential [for] loop whose body may raise. *)
Fixpoint for_each {A} (body : A -> result unit) (l : list A) : result unit :=
  match l with
  | [] => Ok tt
  | x :: l' => body x ≫= fun _ => for_each body l'
  end.

(** List comprehension whose element expression may raise. *)
Fixpoint comprehension {A B} (f : A -> result B) (l : list A) : result (list B) :=
  match l with
  | [] => Ok []
  | x :: l' => y ← f x; ys ← comprehension f l'; Ok (y :: ys)
  end.

(** ** schema.py: the dataclasses *)

Inductive CourseType := MANDATORY | SELECTIVE.

Module HourDistribution.

Record t := mk {
  lecture : Z;
  lab : Z;
  practice : Z;
  seminar : Z;
  individual : Z
}.

Definition total_hours (self : t) : Z :=
  (lecture self + lab self + practice self + seminar self + individual self)%Z.

Definition instructional_hours (self : t) : Z :=
  (lecture self + lab self + practice self + seminar self)%Z.

Definition to_dict (self : t) : value :=
  VDict [(PStr "lecture", Atom (PInt (lecture self)));
         (PStr "lab", Atom (PInt (lab self)));
         (PStr "practice", Atom (PInt (practice self)));
         (PStr "seminar", Atom (PInt (seminar self)));
         (PStr "individual", Atom (PInt (individual self)))].

Definition from_dict (data : value) : result t :=
  lecture ← dict_get data "lecture" (Atom (PInt 0));
  lab ← dict_get data "lab" (Atom (PInt 0));
  practice ← dict_get data "practice" (Atom (PInt 0));
  seminar ← dict_get data "seminar" (Atom (PInt 0));
  individual ← dict_get data "individual" (Atom (PInt 0));
  lecture ← as_int lecture;
  lab ← as_int lab;
  practice ← as_int practice;
  seminar ← as_int seminar;
  individual ← as_int individual;
  Ok (mk lecture lab practice seminar individual).

End HourDistribution.

Module SemesterData.

Record t := mk {
  semester : Z;
  credits : Z;
  hours : HourDistribution.t
}.

Definition validate (self : t) : result unit :=
  if (credits self <=? 0)%Z then
    Raise (ValidationError CreditsMustBePositive)
  else
    let expected_hours := (credits self * 30)%Z in
    let total_hours := HourDistribution.total_hours (hours self) in
    if negb (total_hours =? expected_hours)%Z then
      Raise (ValidationError (TotalHoursMismatch total_hours expected_hours))
    else if (HourDistribution.individual (hours self) <=? 0)%Z then
      Raise (ValidationError IndividualHoursMustBePresent)
    else if (HourDistribution.instructional_hours (hours self) <=? 0)%Z then
      Raise (ValidationError InstructionalHoursMustBePresent)
    else Ok tt.

Definition to_dict (self : t) : value :=
  VDict [(PStr "semester", Atom (PInt (semester self)));
         (PStr "credits", Atom (PInt (credits self)));
         (PStr "hours", HourDistribution.to_dict (hours self))].

Definition from_dict (data : value) : result t :=
  semester ← subscript data "semester";
  credits ← subscript data "credits";
  hours ← subscript data "hours" ≫= HourDistribution.from_dict;
  semester ← as_int semester;
  credits ← as_int credits;
  Ok (mk semester credits hours).

End SemesterData.

Module CourseData.

(** The [type] field: [validate] tests [isinstance(self.type, CourseType)],
    so the field may hold something that is not a member of the enum. *)
Inductive type_field :=
| IsCourseType (t : CourseType)
| NotCourseType (v : value).

(** [code], [name] and [prerequisites] are kept as the payload gave them:
    the dataclass only tests the first two for emptiness and never looks
    into the third. *)
Record t := mk {
  code : value;
  name : value;
  type : type_field;
  semesters : list SemesterData.t;
  prerequisites : value
}.

(** The loop of [validate]: [semester_numbers] is the running set. *)
Fixpoint validate_semesters (semester_numbers : gset Z)
    (semesters : list SemesterData.t) : result unit :=
  match semesters with
  | [] => Ok tt
  | semester_data :: rest =>
      if decide (SemesterData.semester semester_data ∈ semester_numbers) then
        Raise (ValidationError
                 (DuplicateSemesterNumber (SemesterData.semester semester_data)))
      else
        SemesterData.validate semester_data ≫= fun _ =>
        validate_semesters
          (semester_numbers ∪ {[SemesterData.semester semester_data]}) rest
  end.

Definition validate (self : t) : result unit :=
  if negb (truthy (code self)) || negb (truthy (name self)) then
    Raise (ValidationError CodeAndNameRequired)
  else
    match type self with
    | NotCourseType _ => Raise (ValidationError InvalidCourseType)
    | IsCourseType _ =>
        match semesters self with
        | [] => Raise (ValidationError SemesterRequired)
        | _ => validate_semesters ∅ (semesters self)
        end
    end.

(** [CourseType(v)]: lookup of an enum member by value. *)
Definition CourseType_of_value (v : value) : result CourseType :=
  match v with
  | Atom (PStr "mandatory") => Ok MANDATORY
  | Atom (PStr "selective") => Ok SELECTIVE
  | _ => Raise (ValueError v)
  end.

Definition from_dict (data : value) : result t :=
  code ← subscript data "code";
  name ← subscript data "name";
  type ← subscript data "type" ≫= CourseType_of_value;
  semesters ← subscript data "semesters" ≫= py_iter;
  semesters ← comprehension SemesterData.from_dict semesters;
  prerequisites ← dict_get data "prerequisites" (VList []);
  Ok (mk code name (IsCourseType type) semesters prerequisites).

Definition CourseType_value (t : CourseType) : string :=
  match t with
  | MANDATORY => "mandatory"
  | SELECTIVE => "selective"
  end.

(** [to_dict]: [self.type.value] needs a member of the enum, and
    [self.prerequisites or []] replaces a falsy value by the empty list. *)
Definition to_dict (self : t) : result value :=
  type ← match type self with
         | IsCourseType t => Ok (Atom (PStr (CourseType_value t)))
         | NotCourseType _ => Raise AttributeError
         end;
  Ok (VDict [(PStr "code", code self);
             (PStr "name", name self);
             (PStr "type", type);
             (PStr "semesters", VList (SemesterData.to_dict <$> semesters self));
             (PStr "prerequisites",
              if truthy (prerequisites self) then prerequisites self
              else VList [])]).

End CourseData.

(** ** schema.py: CurriculumSchema *)

Module CurriculumSchema.

(** [try: ... except (KeyError, ValueError) ... except ValidationError ...];
    any other exception propagates unchanged. *)
Definition validate_course (course_data : value) : result unit :=
  match CourseData.from_dict course_data ≫= CourseData.validate with
  | Ok _ => Ok tt
  | Raise (KeyError k) =>
      Raise (ValidationError (InvalidCourseDataStructure (KeyError k)))
  | Raise (ValueError v) =>
      Raise (ValidationError (InvalidCourseDataStructure (ValueError v)))
  | Raise (ValidationError e) =>
      Raise (ValidationError (CourseValidationFailed e))
  | Raise e => Raise e
  end.

(** [course_code != v] for a dictionary key [course_code]: the missing-value
    marker differs from everything, itself included. *)
Definition key_ne (course_code : atom) (v : value) : bool :=
  match course_code, v with
  | PNaN, _ => true
  | _, Atom a => negb (bool_decide (a = course_code))
  | _, _ => true
  end.

(** Body of the first loop of [validate_curriculum]. *)
Definition check_course (item : atom * value) : result unit :=
  let '(course_code, course_data) := item in
  code ← dict_get course_data "code" VNone;
  if key_ne course_code code then
    Raise (ValidationError (CourseCodeMismatch course_code code))
  else validate_course course_data.

(** [set(v)] *)
Definition py_set (v : value) : result (gset atom) :=
  items ← py_iter v;
  atoms ← comprehension hashable items;
  Ok (list_to_set atoms).

(** Body of the second loop of [validate_curriculum]. *)
Definition check_prerequisites (all_codes : gset atom) (course_data : value)
    : result unit :=
  prerequisites ← dict_get course_data "prerequisites" (VList []);
  prerequisites ← py_set prerequisites;
  let invalid_prereqs := prerequisites ∖ all_codes in
  if decide (invalid_prereqs = ∅) then Ok tt
  else
    code ← subscript course_data "code";
    Raise (ValidationError (InvalidPrerequisites code invalid_prereqs)).

Definition validate_curriculum (curriculum_data : value) : result unit :=
  match curriculum_data with
  | VDict d =>
      for_each check_course d ≫= fun _ =>
      let all_codes : gset atom := list_to_set (Dict.keys d) in
      for_each (check_prerequisites all_codes) (Dict.values d)
  | _ => Raise (ValidationError CurriculumMustBeDict)
  end.

Definition hours_dict (lecture lab practice seminar individual : Z) : value :=
  VDict [(PStr "lecture", Atom (PInt lecture));
         (PStr "lab", Atom (PInt lab));
         (PStr "practice", Atom (PInt practice));
         (PStr "seminar", Atom (PInt seminar));
         (PStr "individual", Atom (PInt individual))].

Definition semester_dict (semester credits : Z) (hours : value) : value :=
  VDict [(PStr "semester", Atom (PInt semester));
         (PStr "credits", Atom (PInt credits));
         (PStr "hours", hours)].

Definition course_dict (code name type : string) (semesters : list value)
    (prerequisites : list string) : value :=
  VDict [(PStr "code", Atom (PStr code));
         (PStr "name", Atom (PStr name));
         (PStr "type", Atom (PStr type));
         (PStr "semesters", VList semesters);
         (PStr "prerequisites", VList ((fun p => Atom (PStr p)) <$> prerequisites))].

Definition example_single_semester_course : value :=
  course_dict "CS101" "Introduction to Programming" "mandatory"
    [semester_dict 1 3 (hours_dict 30 30 0 0 30)] [].

Definition example_multi_semester_course : value :=
  course_dict "CS201" "Advanced Programming" "mandatory"
    [semester_dict 2 2 (hours_dict 15 15 15 0 15);
     semester_dict 3 3 (hours_dict 30 30 15 0 15)]
    ["CS101"].

Definition example_complete_curriculum : value :=
  VDict [(PStr "CS101", example_single_semester_course);
         (PStr "CS201", example_multi_semester_course)].

End CurriculumSchema.

(** ** schema.py: CurriculumManager *)

(** [x in v] for a text [x]: equality with an item of a list, presence as
    a key of a dictionary, occurrence as a substring of a text. *)
Fixpoint substringb (x s : string) : bool :=
  String.prefix x s ||
  match s with
  | EmptyString => false
  | String _ s' => substringb x s'
  end.

Definition py_contains (v : value) (x : string) : result bool :=
  match v with
  | VList l =>
      Ok (existsb (fun item =>
                     match item with
                     | Atom (PStr s) => String.eqb s x
                     | _ => false
                     end) l)
  | VDict d => Ok (Dict.mem d (PStr x))
  | Atom (PStr s) => Ok (substringb x s)
  | _ => Raise TypeError
  end.

(** The node a call of [build_tree] returns. *)
Inductive tree :=
| Node (code : atom) (name : value) (prerequisites : list (atom * tree)).

(** Outcome of a computation that is run with a bound on its recursion
    depth. *)
Inductive fueled (A : Type) :=
| Done (r : result A)
| OutOfFuel.
Arguments Done {A} r.
Arguments OutOfFuel {A}.

Module CurriculumManager.

(** State-and-exception monad over [self.data]. *)
Definition M (A : Type) : Type := Dict.t value -> result A * Dict.t value.

Definition ret {A} (a : A) : M A := fun data => (Ok a, data).

Definition bind {A B} (m : M A) (k : A -> M B) : M B := fun data =>
  match m data with
  | (Ok a, data') => k a data'
  | (Raise e, data') => (Raise e, data')
  end.

Definition lift {A} (r : result A) : M A := fun data => (r, data).

Definition raise {A} (msg : message) : M A :=
  fun data => (Raise (ValidationError msg), data).

(** [self.data] *)
Definition self_data : M (Dict.t value) := fun data => (Ok data, data).

(** [self.data[k] = v] *)
Definition data_setitem (k : atom) (v : value) : M unit :=
  fun data => (Ok tt, Dict.setitem data k v).

(** [del self.data[k]] *)
Definition data_delitem (k : atom) : M unit :=
  fun data => (Ok tt, Dict.delitem data k).

#[global] Instance M_ret : MRet M := @ret.
#[global] Instance M_bind : MBind M := fun _ _ k m => bind m k.

(** [__init__]: the manager keeps the mapping it was given, when that
    mapping passes [validate_curriculum]. *)
Definition init (curriculum_data : value) : result (Dict.t value) :=
  CurriculumSchema.validate_curriculum curriculum_data ≫= fun _ =>
  match curriculum_data with
  | VDict d => Ok d
  | _ => Raise TypeError
  end.

Definition add_course (course_data : value) : M unit :=
  lift (CurriculumSchema.validate_course course_data);;
  code ← lift (subscript course_data "code");
  key ← lift (hashable code);
  data ← self_data;
  if Dict.mem data key then raise (CourseAlreadyExists code)
  else data_setitem key course_data.

Definition update_course (course_data : value) : M unit :=
  code ← lift (subscript course_data "code");
  key ← lift (hashable code);
  data ← self_data;
  if negb (Dict.mem data key) then raise (CourseDoesNotExist code)
  else
    lift (CurriculumSchema.validate_course course_data);;
    data_setitem key course_data.

(** Body of the loop of [remove_course]. *)
Definition check_not_prerequisite (course_code : string) (course : value)
    : result unit :=
  prerequisites ← dict_get course "prerequisites" (VList []);
  found ← py_contains prerequisites course_code;
  if found : bool then
    code ← subscript course "code";
    Raise (ValidationError (CannotRemove course_code code))
  else Ok tt.

Definition remove_course (course_code : string) : M unit :=
  data ← self_data;
  if negb (Dict.mem data (PStr course_code)) then
    raise (CourseDoesNotExist (Atom (PStr course_code)))
  else
    lift (for_each (check_not_prerequisite course_code) (Dict.values data));;
    data_delitem (PStr course_code).

(** The loop of [build_tree] over the prerequisite codes; [recurse] is
    [build_tree] with the copy of [visited]. *)
Fixpoint build_prereqs (recurse : value -> fueled (option tree))
    (prereq_codes : list value) (prereqs : Dict.t tree)
    : fueled (Dict.t tree) :=
  match prereq_codes with
  | [] => Done (Ok prereqs)
  | prereq_code :: rest =>
      match recurse prereq_code with
      | OutOfFuel => OutOfFuel
      | Done (Raise e) => Done (Raise e)
      | Done (Ok None) => build_prereqs recurse rest prereqs
      | Done (Ok (Some prereq_tree)) =>
          match hashable prereq_code with
          | Raise e => Done (Raise e)
          | Ok key =>
              build_prereqs recurse rest (Dict.setitem prereqs key prereq_tree)
          end
      end
  end.

(** The body of [build_tree]; [recurse] stands for its recursive calls. *)
Definition build_node (recurse : value -> gset atom -> fueled (option tree))
    (data : Dict.t value) (code : value) (visited : gset atom)
    : fueled (option tree) :=
  match hashable code with
  | Raise e => Done (Raise e)
  | Ok key =>
      if decide (key ∈ visited) then Done (Ok None)
      else
        let visited := visited ∪ {[key]} in
        match
          course ← Dict.getitem data key;
          prereq_codes ← dict_get course "prerequisites" (VList [])
                         ≫= py_iter;
          Ok (course, prereq_codes)
        with
        | Raise e => Done (Raise e)
        | Ok (course, prereq_codes) =>
            match
              build_prereqs (fun prereq_code => recurse prereq_code visited)
                prereq_codes []
            with
            | OutOfFuel => OutOfFuel
            | Done (Raise e) => Done (Raise e)
            | Done (Ok prereqs) =>
                Done (name ← subscript course "name";
                      Ok (Some (Node key name prereqs)))
            end
        end
  end.

(** [build_tree], with a bound on the depth of the recursion. *)
Fixpoint build_tree (fuel : nat) (data : Dict.t value) (code : value)
    (visited : gset atom) : fueled (option tree) :=
  match fuel with
  | O => OutOfFuel
  | S fuel' => build_node (build_tree fuel' data) data code visited
  end.

(** Every call of [build_tree] that goes one level deeper has added a key
    of [self.data] to [visited]: the depth is at most the number of keys
    plus one. *)
Definition get_prerequisites_tree (course_code : string) (data : Dict.t value)
    : fueled (option tree) :=
  if negb (Dict.mem data (PStr course_code)) then
    Done (Raise (ValidationError (CourseDoesNotExist (Atom (PStr course_code)))))
  else build_tree (S (length data)) data (Atom (PStr course_code)) ∅.

(** A list comprehension with a condition that may raise. *)
Fixpoint filter_result {A} (keep : A -> result bool) (l : list A)
    : result (list A) :=
  match l with
  | [] => Ok []
  | x :: l' =>
      b ← keep x;
      rest ← filter_result keep l';
      Ok (if b : bool then x :: rest else rest)
  end.

(** [any(sem['semester'] == semester for sem in semesters)]: stops at the
    first semester that matches. *)
Fixpoint any_semester (semester : Z) (semesters : list value) : result bool :=
  match semesters with
  | [] => Ok false
  | sem :: rest =>
      number ← subscript sem "semester";
      match number with
      | Atom (PInt z) =>
          if Z.eqb z semester then Ok true else any_semester semester rest
      | _ => any_semester semester rest
      end
  end.

Definition get_courses_by_semester (semester : Z) (data : Dict.t value)
    : result (list value) :=
  filter_result
    (fun course =>
       semesters ← subscript course "semesters" ≫= py_iter;
       any_semester semester semesters)
    (Dict.values data).

Definition get_courses_by_type (course_type : string) (data : Dict.t value)
    : result (list value) :=
  filter_result
    (fun course =>
       type ← subscript course "type";
       Ok match type with
          | Atom (PStr s) => String.eqb s course_type
          | _ => false
          end)
    (Dict.values data).

(** The three mutations of the manager, as one type of requests. *)
Inductive mutation :=
| AddCourse (course_data : value)
| UpdateCourse (course_data : value)
| RemoveCourse (course_code : string).

Definition run (m : mutation) : M unit :=
  match m with
  | AddCourse course_data => add_course course_data
  | UpdateCourse course_data => update_course course_data
  | RemoveCourse course_code => remove_course course_code
  end.

End CurriculumManager.

(** ** excel.py: ExcelProcessor *)

(** What [pd.read_excel] hands over: the column labels and the rows of
    cells, a missing cell being [PNaN]. *)
Record DataFrame := {
  columns : list string;
  rows : list (list atom)
}.

(** A worksheet as [export_excel] fills it: the header row and the data
    rows; [PNaN] stands for a cell nothing was written to. *)
Record Worksheet := {
  header : list string;
  body : list (list atom)
}.

(** Text helpers: [str.strip], [str.split(',')] and [', '.join]. *)
Definition is_space (c : ascii) : bool :=
  let n := nat_of_ascii c in
  (Nat.leb 9 n && Nat.leb n 13) || (Nat.leb 28 n && Nat.leb n 32).

Fixpoint lstrip (s : string) : string :=
  match s with
  | EmptyString => EmptyString
  | String c s' => if is_space c then lstrip s' else s
  end.

Fixpoint rstrip (s : string) : string :=
  match s with
  | EmptyString => EmptyString
  | String c s' =>
      let r := rstrip s' in
      if is_space c && String.eqb r "" then EmptyString else String c r
  end.

Definition strip (s : string) : string := rstrip (lstrip s).

Fixpoint split_comma (s : string) : list string :=
  match s with
  | EmptyString => [EmptyString]
  | String c s' =>
      let r := split_comma s' in
      if Ascii.eqb c "," then EmptyString :: r
      else match r with
           | h :: t => String c h :: t
           | [] => [String c EmptyString]
           end
  end.

Definition join (sep : string) (l : list string) : string :=
  String.concat sep l.

(** A warning of [preview_data], with the values its text interpolates. *)
Inductive warning :=
| UnusuallyHighCredits (code : atom) (total_credits : Z)
| ManyPrerequisites (code : atom) (count : nat)
| SpansSemesters (code : atom) (count : nat).

(** A Python list of texts. *)
Definition text_list (l : list string) : value :=
  VList ((fun s => Atom (PStr s)) <$> l).

Module ExcelProcessor.

Definition REQUIRED_COLUMNS : list string :=
  ["course_code"; "course_name"; "credits"; "semester"; "prerequisites"].

Definition validate_headers (df : DataFrame) : result unit :=
  let missing_cols : gset string :=
    list_to_set REQUIRED_COLUMNS ∖ list_to_set (columns df) in
  if decide (missing_cols = ∅) then Ok tt
  else Raise (ValidationError (MissingRequiredColumns missing_cols)).

(** Position of a column label. *)
Fixpoint column_index (cols : list string) (col : string) : option nat :=
  match cols with
  | [] => None
  | c :: cols' =>
      if String.eqb c col then Some 0 else S <$> column_index cols' col
  end.

(** [row[col]] for a row of the frame. *)
Definition row_getitem (cols : list string) (row : list atom) (col : string)
    : result atom :=
  match column_index cols col with
  | Some i => Ok (default PNaN (row !! i))
  | None => Raise (KeyError (Atom (PStr col)))
  end.

(** [row.get(col, dflt)] *)
Definition row_get (cols : list string) (row : list atom) (col : string)
    (dflt : atom) : atom :=
  match column_index cols col with
  | Some i => default PNaN (row !! i)
  | None => dflt
  end.

(** [df[col] = f(df[col])], cell by cell. *)
Definition map_cell (i : nat) (f : atom -> result atom) (row : list atom)
    : result (list atom) :=
  cell ← f (default PNaN (row !! i));
  Ok (<[i := cell]> row).

Definition map_column (f : atom -> result atom) (col : string)
    (df : DataFrame) : result DataFrame :=
  match column_index (columns df) col with
  | None => Raise (KeyError (Atom (PStr col)))
  | Some i =>
      rows' ← comprehension (map_cell i f) (rows df);
      Ok {| columns := columns df; rows := rows' |}
  end.

(** Chains the column updates of a loop. *)
Fixpoint for_columns (step : string -> DataFrame -> result DataFrame)
    (cols : list string) (df : DataFrame) : result DataFrame :=
  match cols with
  | [] => Ok df
  | col :: cols' => step col df ≫= for_columns step cols'
  end.

(** [len(v)] *)
Definition py_len (v : value) : result nat :=
  match v with
  | VList l => Ok (length l)
  | VDict d => Ok (length d)
  | Atom (PStr s) => Ok (String.length s)
  | _ => Raise TypeError
  end.

(** [sep.join(v)]: every item has to be text. *)
Definition py_join (sep : string) (v : value) : result string :=
  items ← py_iter v;
  texts ← comprehension as_str items;
  Ok (join sep texts).

(** [cell.value = v]: a worksheet cell takes [None] and scalars. *)
Definition to_cell (v : value) : result atom :=
  match v with
  | VNone => Ok PNaN
  | Atom a => Ok a
  | _ => Raise (ValueError v)
  end.

(** [row_data] of [export_excel] for one semester of one course. *)
Definition export_row (course_code : atom) (course_data : value)
    (first_semester : bool) (semester : value) : result (list atom) :=
  course_name ← (if first_semester then subscript course_data "course_name"
                 else Ok (Atom (PStr "")));
  credits ← subscript semester "credits";
  number ← subscript semester "semester";
  prerequisites ← (if first_semester then
                     subscript course_data "prerequisites" ≫= py_join ", "
                   else Ok "");
  comprehension to_cell
    [Atom (if first_semester then course_code else PStr "");
     course_name; credits; number; Atom (PStr prerequisites)].

(** The inner loop of [export_excel]; [first_semester] is its flag. *)
Fixpoint export_semesters (course_code : atom) (course_data : value)
    (first_semester : bool) (semesters : list value)
    : result (list (list atom)) :=
  match semesters with
  | [] => Ok []
  | semester :: rest =>
      row ← export_row course_code course_data first_semester semester;
      more ← export_semesters course_code course_data false rest;
      Ok (row :: more)
  end.

Definition export_course (item : atom * value) : result (list (list atom)) :=
  let '(course_code, course_data) := item in
  semesters ← subscript course_data "semesters" ≫= py_iter;
  export_semesters course_code course_data true semesters.

(** [export_excel], up to the call of [wb.save]: the worksheet is what
    the file will hold. *)
Definition export_excel (curriculum_data : value) : result Worksheet :=
  let headers := (REQUIRED_COLUMNS ++ ["Prerequisites"])%list in
  match curriculum_data with
  | VDict d =>
      per_course ← comprehension export_course d;
      Ok {| header := headers; body := concat per_course |}
  | _ => Raise AttributeError
  end.

(** [pd.read_excel] on a saved worksheet: the first row gives the column
    labels, the other rows the cells. *)
Definition pd_read_excel (ws : Worksheet) : DataFrame :=
  {| columns := header ws; rows := body ws |}.

(** Body of the warning loop of [preview_data]. *)
Definition course_warnings (item : atom * value) : result (list warning) :=
  let '(code, course) := item in
  semesters ← subscript course "semesters" ≫= py_iter;
  credits ← comprehension (fun sem => subscript sem "credits" ≫= as_int)
              semesters;
  let total_credits := foldr Z.add 0%Z credits in
  prerequisites ← subscript course "prerequisites" ≫= py_len;
  spans ← subscript course "semesters" ≫= py_len;
  Ok ((if (8 <? total_credits)%Z
       then [UnusuallyHighCredits code total_credits] else [])
      ++ (if Nat.ltb 3 prerequisites
          then [ManyPrerequisites code prerequisites] else [])
      ++ (if Nat.ltb 2 spans then [SpansSemesters code spans] else []))%list.

Section pandas.

(** Python's [int] on a text cell, which [astype(int)] applies: the digits
    it accepts are left to the caller of the model. *)
Variable py_int : string -> result Z.

Definition fillna (fill : atom) (cell : atom) : result atom :=
  Ok match cell with PNaN => fill | _ => cell end.

Definition astype_int (cell : atom) : result atom :=
  match cell with
  | PInt z => Ok (PInt z)
  | PStr s => z ← py_int s; Ok (PInt z)
  | PNaN => Raise (ValueError (Atom PNaN))
  end.

(** [.str] exists on a column of text (or of mixed cells) only; a column
    with rows that holds numbers alone has none. *)
Definition str_accessor (col : string) (df : DataFrame) : result unit :=
  i ← match column_index (columns df) col with
      | Some i => Ok i
      | None => Raise (KeyError (Atom (PStr col)))
      end;
  let cells := (fun row : list atom => default PNaN (row !! i)) <$> rows df in
  if forallb (fun c => match c with PInt _ => true | _ => false end) cells
     && negb (bool_decide (cells = []))
  then Raise AttributeError else Ok tt.

Definition str_strip (cell : atom) : result atom :=
  Ok match cell with
     | PStr s => PStr (strip s)
     | _ => PNaN
     end.

Definition numeric_columns : list string :=
  ["Credits"; "Lecture"; "Lab"; "Practice"; "Seminar"; "Individual"].

Definition string_columns : list string :=
  ["Course Code"; "Course Name"; "Type"].

(** [df[cols]] for a list of labels: the labels that are no columns are
    what the [KeyError] of pandas reports. *)
Definition select_columns (cols : list string) (df : DataFrame) : result unit :=
  let missing :=
    filter (fun col => column_index (columns df) col = None) cols in
  if bool_decide (missing = []) then Ok tt
  else Raise (KeyError (text_list missing)).

Definition clean_dataframe (df : DataFrame) : result DataFrame :=
  select_columns numeric_columns df ≫= fun _ =>
  df ← for_columns (map_column (fillna (PInt 0))) numeric_columns df;
  df ← for_columns (map_column astype_int) numeric_columns df;
  for_columns
    (fun col df =>
       df ← map_column (fillna (PStr "")) col df;
       str_accessor col df ≫= fun _ =>
       map_column str_strip col df)
    string_columns df.

Definition process_prerequisites (prerequisites_str : atom)
    : result (list string) :=
  if negb (atom_truthy prerequisites_str)
     || bool_decide (prerequisites_str = PNaN)
  then Ok []
  else match prerequisites_str with
       | PStr s => Ok (strip <$> split_comma s)
       | _ => Raise AttributeError
       end.

(** Body of the row loop of [read_excel]. *)
Definition read_row (cols : list string) (curriculum_data : Dict.t value)
    (row : list atom) : result (Dict.t value) :=
  course_code ← row_getitem cols row "course_code";
  if negb (atom_truthy course_code) then Ok curriculum_data
  else
    lecture ← row_getitem cols row "Lecture";
    lab ← row_getitem cols row "Lab";
    practice ← row_getitem cols row "Practice";
    seminar ← row_getitem cols row "Seminar";
    individual ← row_getitem cols row "Individual";
    let hours :=
      VDict [(PStr "lecture", Atom lecture); (PStr "lab", Atom lab);
             (PStr "practice", Atom practice); (PStr "seminar", Atom seminar);
             (PStr "individual", Atom individual)] in
    semester ← row_getitem cols row "semester";
    credits ← row_getitem cols row "credits";
    let semester_data :=
      VDict [(PStr "semester", Atom semester); (PStr "credits", Atom credits);
             (PStr "hours", hours)] in
    match Dict.get curriculum_data course_code with
    | None =>
        course_name ← row_getitem cols row "course_name";
        credits ← row_getitem cols row "credits";
        semester ← row_getitem cols row "semester";
        prerequisites ←
          process_prerequisites (row_get cols row "prerequisites" (PStr ""));
        Ok (Dict.setitem curriculum_data course_code
              (VDict [(PStr "course_code", Atom course_code);
                      (PStr "course_name", Atom course_name);
                      (PStr "credits", Atom credits);
                      (PStr "semester", Atom semester);
                      (PStr "prerequisites", text_list prerequisites)]))
    | Some (VDict course) =>
        Ok (Dict.setitem curriculum_data course_code
              (VDict (Dict.setitem course (PStr "semesters")
                        (VList [semester_data]))))
    | Some _ => Raise TypeError
    end.

Fixpoint read_rows (cols : list string) (curriculum_data : Dict.t value)
    (rows : list (list atom)) : result (Dict.t value) :=
  match rows with
  | [] => Ok curriculum_data
  | row :: rows' =>
      read_row cols curriculum_data row ≫= fun curriculum_data =>
      read_rows cols curriculum_data rows'
  end.

(** [read_excel] from the frame [pd.read_excel] returned. *)
Definition read_excel (df : DataFrame) : result (Dict.t value) :=
  match
    validate_headers df ≫= fun _ =>
    df ← clean_dataframe df;
    curriculum_data ← read_rows (columns df) [] (rows df);
    CurriculumSchema.validate_curriculum (VDict curriculum_data) ≫= fun _ =>
    Ok curriculum_data
  with
  | Ok curriculum_data => Ok curriculum_data
  | Raise e => Raise (ValidationError (ErrorProcessingExcel e))
  end.

Definition preview_data (df : DataFrame)
    : result (Dict.t value * list warning) :=
  match
    data ← read_excel df;
    warnings ← comprehension course_warnings data;
    Ok (data, concat warnings)
  with
  | Ok r => Ok r
  | Raise (ValidationError e) =>
      Raise (ValidationError (ValidationErrorDuringPreview e))
  | Raise e => Raise (ValidationError (ErrorDuringPreview e))
  end.

(** Export followed by import: what the spreadsheet round trip runs. *)
Definition decode_encode (curriculum_data : value) : result (Dict.t value) :=
  ws ← export_excel curriculum_data;
  read_excel (pd_read_excel ws).

End pandas.

End ExcelProcessor.

(** ** models.py: the course checks of Curriculum *)

(** A schema written by example, as [required_fields] is: a class ([str],
    [int]) or a dictionary of schemas. *)
Inductive schema :=
| SClass (name : string)
| SDict (fields : list (string * schema)).

(** What [Curriculum.clean] raises. *)
Inductive clean_error :=
| BachelorNeeds120Credits
| MasterNeeds30Credits
| CoursesDataMustBeDict
| InvalidCourseStructure (course_code : atom)
| CourseHoursMismatch (course_code : atom) (total_hours expected_hours : Z)
| CleanRaises (e : exn).

Module Curriculum.

(** The fields of the model that [clean] reads. *)
Record t := mk {
  degree_type : string;
  total_credits : Z;
  courses_data : value
}.

Definition BACHELORS : string := "BSC".
Definition MASTERS : string := "MSC".

Definition required_fields : schema :=
  SDict [("code", SClass "str");
         ("name", SClass "str");
         ("type", SClass "str");
         ("credits", SClass "int");
         ("hours", SDict [("lecture", SClass "int");
                          ("lab", SClass "int");
                          ("practice", SClass "int");
                          ("seminar", SClass "int");
                          ("individual", SClass "int")]);
         ("semester", SClass "int")].

(** [isinstance(v, type)]: no value of a payload is a class. *)
Definition is_class (v : value) : bool :=
  match v with
  | VNone | Atom _ | VList _ | VDict _ => false
  end.

(** [validate_structure(data, schema)]: [type(schema)] is [dict] for a
    dictionary and [type] for a class such as [str]. *)
Fixpoint validate_structure (data : value) (s : schema) : bool :=
  match s with
  | SClass _ => is_class data
  | SDict fields =>
      match data with
      | VDict d =>
          (fix all (fields : list (string * schema)) : bool :=
             match fields with
             | [] => true
             | (k, v) :: rest =>
                 match Dict.get d (PStr k) with
                 | Some x => validate_structure x v && all rest
                 | None => false
                 end
             end) fields
      | _ => false
      end
  end.

Definition validate_course_structure (course_data : value) : bool :=
  validate_structure course_data required_fields.

(** [sum(course_data['hours'].values())] *)
Definition sum_hours (course_data : value) : result Z :=
  hours ← subscript course_data "hours";
  match hours with
  | VDict d =>
      buckets ← comprehension as_int (Dict.values d);
      Ok (foldr Z.add 0%Z buckets)
  | _ => Raise AttributeError
  end.

(** Body of the loop of [clean]. *)
Definition clean_course (item : atom * value) : clean_error + unit :=
  let '(course_code, course_data) := item in
  if negb (validate_course_structure course_data) then
    inl (InvalidCourseStructure course_code)
  else
    match
      total_hours ← sum_hours course_data;
      credits ← subscript course_data "credits" ≫= as_int;
      Ok (total_hours, (credits * 30)%Z)
    with
    | Raise e => inl (CleanRaises e)
    | Ok (total_hours, expected_hours) =>
        if negb (Z.eqb total_hours expected_hours) then
          inl (CourseHoursMismatch course_code total_hours expected_hours)
        else inr tt
    end.

Fixpoint clean_courses (items : list (atom * value)) : clean_error + unit :=
  match items with
  | [] => inr tt
  | item :: rest =>
      match clean_course item with
      | inl e => inl e
      | inr _ => clean_courses rest
      end
  end.

(** [clean], after [super().clean()], which checks nothing. *)
Definition clean (self : t) : clean_error + unit :=
  if String.eqb (degree_type self) BACHELORS && (total_credits self <? 120)%Z
  then inl BachelorNeeds120Credits
  else if String.eqb (degree_type self) MASTERS && (total_credits self <? 30)%Z
  then inl MasterNeeds30Credits
  else
    match courses_data self with
    | VDict d => clean_courses d
    | _ => inl CoursesDataMustBeDict
    end.

(** [update_course]: the check of the structure comes first; [continue]
    stands for the statements after it (the copy of the mapping with the
    new entry, [full_clean] and [save]). *)
Definition update_course {A} (course_code : atom) (course_data : value)
    (continue : unit -> clean_error + A) : clean_error + A :=
  if negb (validate_course_structure course_data) then
    inl (InvalidCourseStructure course_code)
  else continue tt.

End Curriculum.

(** * Predicates used in the statements *)

(** What [read_excel] stores for a course has no ["code"] entry. *)
Definition lacks_code (item : atom * value) : Prop :=
  match item.2 with
  | VDict d => Dict.get d (PStr "code") = None
  | _ => True
  end.

(** The tree [build_tree] returns for [key] when the current branch has
    passed through [visited]: the node carries the name of the course, and
    its sub-trees stand under exactly the prerequisite codes of the course
    that are not on the branch, each being the tree of its code on the
    branch extended by [key]. *)
Inductive pruned_tree (data : Dict.t value)
    : gset atom -> atom -> tree -> Prop :=
| pruned_node (visited : gset atom) (key : atom) (course name : value)
    (prereq_codes : list atom) (prereqs : Dict.t tree) :
    key ∉ visited ->
    Dict.get data key = Some course ->
    subscript course "name" = Ok name ->
    dict_get course "prerequisites" (VList []) ≫= py_iter
      = Ok (Atom <$> prereq_codes) ->
    NoDup (Dict.keys prereqs) ->
    (forall p, p ∈ Dict.keys prereqs
               <-> p ∈ prereq_codes /\ p ∉ visited ∪ {[key]}) ->
    Forall (fun item : atom * tree =>
              pruned_tree data (visited ∪ {[key]}) item.1 item.2) prereqs ->
    pruned_tree data visited key (Node key name prereqs).

(** What [build_tree] needs of the mapping: every record has a name, and
    its prerequisites are codes that are keys of the mapping. *)
Definition tree_ready (data : Dict.t value) : Prop :=
  Forall (fun item : atom * value =>
            exists (name : value) (prereq_codes : list atom),
              subscript item.2 "name" = Ok name
              /\ dict_get item.2 "prerequisites" (VList []) ≫= py_iter
                 = Ok (Atom <$> prereq_codes)
              /\ forall p, p ∈ prereq_codes -> p ∈ Dict.keys data) data.

(** Every key of the mapping is the code of its record. *)
Definition keys_match_codes (data : Dict.t value) : Prop :=
  Forall (fun item : atom * value =>
            subscript item.2 "code" = Ok (Atom item.1)) data.

(** Every record of the mapping passes [validate_course]. *)
Definition all_courses_valid (data : Dict.t value) : Prop :=
  Forall (fun item : atom * value =>
            CurriculumSchema.validate_course item.2 = Ok tt) data.

Definition tree_code (t : tree) : atom :=
  match t with Node code _ _ => code end.

(** Number of nodes on the longest branch of a tree. *)
Fixpoint tree_depth (t : tree) : nat :=
  match t with
  | Node _ _ prerequisites =>
      S ((fix deepest (l : list (atom * tree)) : nat :=
            match l with
            | [] => 0
            | (_, t') :: l' => Nat.max (tree_depth t') (deepest l')
            end) prerequisites)
  end.

(** No branch of the tree passes twice through a code, or through a code of
    [visited]; every node is a course of the mapping and stands under its
    own code. *)
Inductive acyclic_tree (data : Dict.t value) : gset atom -> tree -> Prop :=
| acyclic_node (visited : gset atom) (key : atom) (name : value)
    (prereqs : Dict.t tree) :
    key ∉ visited ->
    key ∈ Dict.keys data ->
    Forall (fun item : atom * tree => item.1 = tree_code item.2) prereqs ->
    Forall (fun item : atom * tree =>
              acyclic_tree data (visited ∪ {[key]}) item.2) prereqs ->
    acyclic_tree data visited (Node key name prereqs).

(** The two credit rules of [Curriculum.clean]. *)
Definition credit_rules (self : Curriculum.t) : Prop :=
  (Curriculum.degree_type self = Curriculum.BACHELORS ->
   (120 <= Curriculum.total_credits self)%Z)
  /\ (Curriculum.degree_type self = Curriculum.MASTERS ->
      (30 <= Curriculum.total_credits self)%Z).



(** A row of the sheet after the first row of its course: the cells of the
    code, of the name and of the prerequisites hold the empty text. *)
Definition blank_continuation (row : list atom) : Prop :=
  row !! 0 = Some (PStr "")
  /\ row !! 1 = Some (PStr "")
  /\ row !! 4 = Some (PStr "").

(** Two frames with the same columns, whose rows agree, one by one, in
    the cells at the positions [P]. *)
Definition same_cells (P : nat -> Prop) (df df' : DataFrame) : Prop :=
  columns df' = columns df
  /\ Forall2 (fun row row' : list atom => forall j, P j -> row' !! j = row !! j)
       (rows df) (rows df').

(** * Concrete data used by the examples *)

(** A record with the keys [export_excel] reads. *)
Definition sheet_record : value :=
  VDict [(PStr "course_name", Atom (PStr "Advanced Programming"));
         (PStr "prerequisites", text_list ["CS101"]);
         (PStr "semesters",
          VList [CurriculumSchema.semester_dict 2 2
                   (CurriculumSchema.hours_dict 15 15 15 0 15);
                 CurriculumSchema.semester_dict 3 3
                   (CurriculumSchema.hours_dict 30 30 15 0 15)])].


Definition semester_ok : SemesterData.t :=
  SemesterData.mk 1 3 (HourDistribution.mk 30 30 0 0 30).

Definition semester_no_credits : SemesterData.t :=
  SemesterData.mk 1 0 (HourDistribution.mk 30 30 0 0 30).

Definition semester_short : SemesterData.t :=
  SemesterData.mk 1 3 (HourDistribution.mk 30 20 0 0 30).

Definition semester_no_individual : SemesterData.t :=
  SemesterData.mk 1 3 (HourDistribution.mk 30 30 30 0 0).

(** Negative buckets are integers like any other: the total matches, the
    individual hours are present, and no instructional hour is left. *)
Definition semester_no_instruction : SemesterData.t :=
  SemesterData.mk 1 1 (HourDistribution.mk 10 (-10) 0 0 30).

(** A course offered twice in semester 2, each offering valid on its own. *)
Definition course_duplicate_semester : CourseData.t :=
  CourseData.mk (Atom (PStr "CS201")) (Atom (PStr "Advanced Programming"))
    (CourseData.IsCourseType MANDATORY)
    [SemesterData.mk 2 2 (HourDistribution.mk 15 15 15 0 15);
     SemesterData.mk 2 3 (HourDistribution.mk 30 30 15 0 15)]
    (VList [Atom (PStr "CS101")]).

Definition valid_semester : value :=
  CurriculumSchema.semester_dict 1 3 (CurriculumSchema.hours_dict 30 30 0 0 30).

(** [{A: prereqs=[B]}] with no key [B]. *)
Definition course_A_needs_B : value :=
  CurriculumSchema.course_dict "A" "Course A" "mandatory" [valid_semester] ["B"].

Definition dangling_curriculum : Dict.t value :=
  [(PStr "A", course_A_needs_B)].

(** A course without credits, after a course with an unknown prerequisite. *)
Definition course_C_no_credits : value :=
  CurriculumSchema.course_dict "C" "Course C" "selective"
    [CurriculumSchema.semester_dict 1 0 (CurriculumSchema.hours_dict 0 0 0 0 0)]
    [].

Definition dangling_then_invalid : Dict.t value :=
  [(PStr "A", course_A_needs_B); (PStr "C", course_C_no_credits)].

(** [{A: prereqs=[]}, {B: prereqs=[A]}] *)
Definition course_A : value :=
  CurriculumSchema.course_dict "A" "Course A" "mandatory" [valid_semester] [].

Definition course_B_needs_A : value :=
  CurriculumSchema.course_dict "B" "Course B" "mandatory" [valid_semester] ["A"].

Definition protected_curriculum : Dict.t value :=
  [(PStr "A", course_A); (PStr "B", course_B_needs_A)].

(** [{A: prereqs=[A]}]: a course that lists itself. *)
Definition course_A_needs_A : value :=
  CurriculumSchema.course_dict "A" "Course A" "mandatory" [valid_semester] ["A"].

Definition self_prerequisite_curriculum : Dict.t value :=
  [(PStr "A", course_A_needs_A)].

(** A sheet that has every column [read_excel] touches. *)
Definition sheet_columns : list string :=
  ExcelProcessor.REQUIRED_COLUMNS ++ ExcelProcessor.numeric_columns
  ++ ExcelProcessor.string_columns.

(** [{code: CS201, semester: 1, credits: 2}] followed by the continuation
    row [{code: empty, semester: 2, credits: 3}]. *)
Definition first_row : list atom :=
  [PStr "CS201"; PStr "Advanced Programming"; PInt 2; PInt 1; PStr "";
   PInt 2; PInt 15; PInt 15; PInt 15; PInt 0; PInt 15;
   PStr "CS201"; PStr "Advanced Programming"; PStr "mandatory"].

Definition continuation_row : list atom :=
  [PStr ""; PStr ""; PInt 3; PInt 2; PStr "";
   PInt 3; PInt 30; PInt 30; PInt 15; PInt 0; PInt 15;
   PStr ""; PStr ""; PStr ""].

Definition continuation_frame : DataFrame :=
  {| columns := sheet_columns; rows := [first_row; continuation_row] |}.

(** A row whose [credits] cell is blank and whose [Course Code] cell has
    white space around the code, and the row with that white space gone. *)
Definition blank_credits_row : list atom :=
  [PStr "CS101"; PStr "Introduction to Programming"; PNaN; PInt 1; PStr "";
   PInt 3; PInt 30; PInt 30; PInt 0; PInt 0; PInt 30;
   PStr " CS101 "; PStr "Introduction to Programming"; PStr "mandatory"].

Definition blank_credits_row_cleaned : list atom :=
  [PStr "CS101"; PStr "Introduction to Programming"; PNaN; PInt 1; PStr "";
   PInt 3; PInt 30; PInt 30; PInt 0; PInt 0; PInt 30;
   PStr "CS101"; PStr "Introduction to Programming"; PStr "mandatory"].

(** One course of 9 credits, as a sheet row and as a schema record. *)
Definition nine_credit_frame : DataFrame :=
  {| columns := sheet_columns;
     rows := [[PStr "CS301"; PStr "Capstone"; PInt 9; PInt 1; PStr "";
               PInt 9; PInt 90; PInt 90; PInt 0; PInt 0; PInt 90;
               PStr "CS301"; PStr "Capstone"; PStr "mandatory"]] |}.

Definition nine_credit_course : value :=
  CurriculumSchema.course_dict "CS301" "Capstone" "mandatory"
    [CurriculumSchema.semester_dict 1 9
       (CurriculumSchema.hours_dict 90 90 0 0 90)] [].

(** [{A: prereqs=[B]}, {B: prereqs=[A]}]: two courses that list each
    other. *)
Definition course_B_needs_A_back : value :=
  CurriculumSchema.course_dict "B" "Course B" "selective" [valid_semester] ["A"].

Definition cyclic_curriculum : Dict.t value :=
  [(PStr "A", course_A_needs_B); (PStr "B", course_B_needs_A_back)].

Definition cyclic_tree : tree :=
  Node (PStr "A") (Atom (PStr "Course A"))
    [(PStr "B", Node (PStr "B") (Atom (PStr "Course B")) [])].

(** What [to_dict] followed by [from_dict] makes of a record: the same
    record, with [self.prerequisites or []] in place of the prerequisites. *)
Definition normalised (c : CourseData.t) : CourseData.t :=
  CourseData.mk (CourseData.code c) (CourseData.name c) (CourseData.type c)
    (CourseData.semesters c)
    (if truthy (CourseData.prerequisites c) then CourseData.prerequisites c
     else VList []).

(** * Properties *)

(** ** Generic facts about [result] and loops *)

Lemma bind_Ok {A B} (m : result A) (f : A -> result B) (b : B) :
  m ≫= f = Ok b -> exists a, m = Ok a /\ f a = Ok b.
Proof. destruct m as [a|e]; simpl; [eauto | discriminate]. Qed.

Lemma for_each_Ok {A} (body : A -> result unit) (l : list A) :
  for_each body l = Ok tt <-> Forall (fun x => body x = Ok tt) l.
Proof.
  induction l as [|x l IH]; simpl.
  - split; [constructor | done].
  - rewrite Forall_cons, <- IH. destruct (body x) as [[]|e]; simpl.
    + tauto.
    + split; [discriminate | intros [? _]; discriminate].
Qed.

Lemma for_each_first_raise {A} (body : A -> result unit)
    (pre : list A) (x : A) (post : list A) (e : exn) :
  Forall (fun y => body y = Ok tt) pre ->
  body x = Raise e ->
  for_each body (pre ++ x :: post) = Raise e.
Proof.
  intros Hpre Hx. induction Hpre as [|y pre Hy _ IH]; simpl.
  - by rewrite Hx.
  - by rewrite Hy.
Qed.

Lemma for_each_some_raise {A} (body : A -> result unit) (l : list A) (x : A) :
  x ∈ l -> (exists e, body x = Raise e) -> exists e, for_each body l = Raise e.
Proof.
  intros Hin [e He]. induction l as [|y l IH]; [by apply elem_of_nil in Hin|].
  simpl. destruct (body y) as [[]|e'] eqn:Hy; simpl; [|eauto].
  apply elem_of_cons in Hin as [-> | Hin]; [congruence | auto].
Qed.

(** ** Dictionaries *)

Section dict_facts.
Context {V : Type}.
Implicit Types (d : Dict.t V) (k : atom) (v : V).

Lemma get_elem_of d k v : Dict.get d k = Some v -> (k, v) ∈ d.
Proof.
  induction d as [|[k' v'] d IH]; simpl; [discriminate|].
  case_decide; intros Hget; simplify_eq; [left | right; auto].
Qed.

Lemma get_None d k : Dict.get d k = None <-> k ∉ Dict.keys d.
Proof.
  unfold Dict.keys. induction d as [|[k' v'] d IH]; simpl.
  - split; [intros _; apply not_elem_of_nil | done].
  - rewrite not_elem_of_cons. case_decide; subst.
    + split; [discriminate | intros [? _]; done].
    + rewrite IH. naive_solver.
Qed.

Lemma get_is_Some d k : is_Some (Dict.get d k) <-> k ∈ Dict.keys d.
Proof.
  destruct (Dict.get d k) eqn:H.
  - split; [intros _ | eauto].
    apply get_elem_of in H. unfold Dict.keys.
    apply list_elem_of_fmap. by eexists (_, _).
  - apply get_None in H. split; [intros [? ?]; discriminate | done].
Qed.

Lemma get_setitem_eq d k v : Dict.get (Dict.setitem d k v) k = Some v.
Proof.
  induction d as [|[k' v'] d IH]; simpl.
  - by case_decide.
  - case_decide; simpl; by case_decide.
Qed.

Lemma get_setitem_ne d k k' v :
  k <> k' -> Dict.get (Dict.setitem d k v) k' = Dict.get d k'.
Proof.
  intros Hne. induction d as [|[k0 v0] d IH]; simpl.
  - by case_decide.
  - case_decide; simpl; repeat case_decide; simplify_eq; done.
Qed.

Lemma Forall_setitem (P : atom * V -> Prop) d k v :
  Forall P d -> P (k, v) -> Forall P (Dict.setitem d k v).
Proof.
  intros Hd Hv. induction Hd as [|[k' v'] d Hx Hd IH]; simpl.
  - by constructor.
  - case_decide; subst; constructor; auto.
Qed.

Lemma keys_setitem_in d k v :
  k ∈ Dict.keys d -> Dict.keys (Dict.setitem d k v) = Dict.keys d.
Proof.
  unfold Dict.keys. induction d as [|[k' v'] d IH]; intros Hin.
  - by apply elem_of_nil in Hin.
  - cbn [Dict.setitem]. destruct (decide (k' = k)) as [->|Hne]; [done|].
    cbn. f_equal. apply IH. cbn in Hin.
    apply elem_of_cons in Hin as [->|]; done.
Qed.

Lemma keys_setitem_notin d k v :
  k ∉ Dict.keys d -> Dict.keys (Dict.setitem d k v) = Dict.keys d ++ [k].
Proof.
  unfold Dict.keys. induction d as [|[k' v'] d IH]; intros Hin; [done|].
  cbn [Dict.setitem]. cbn in Hin. apply not_elem_of_cons in Hin as [Hne Hin].
  destruct (decide (k' = k)) as [->|_]; [done|].
  cbn. f_equal. by apply IH.
Qed.

Lemma elem_of_setitem d k v k' v' :
  (k', v') ∈ Dict.setitem d k v -> (k', v') ∈ d \/ (k' = k /\ v' = v).
Proof.
  induction d as [|[k0 v0] d IH]; simpl.
  - intros H. apply list_elem_of_singleton in H. simplify_eq. by right.
  - case_decide; subst; intros Hin; apply elem_of_cons in Hin as [Hin|Hin];
      simplify_eq; auto.
    + left. by right.
    + left. left.
    + destruct (IH Hin) as [?|?]; auto. left. by right.
Qed.

End dict_facts.

(** ** SemesterData *)

(** Case analysis on the integer comparisons of a goal. *)
Ltac z_cases :=
  repeat match goal with
         | |- context [(?a <=? ?b)%Z] => destruct (Z.leb_spec a b); simpl
         | |- context [(?a =? ?b)%Z] => destruct (Z.eqb_spec a b); simpl
         | |- context [(?a <? ?b)%Z] => destruct (Z.ltb_spec a b); simpl
         | H : context [(?a <=? ?b)%Z] |- _ =>
             destruct (Z.leb_spec a b); simpl in H
         | H : context [(?a =? ?b)%Z] |- _ =>
             destruct (Z.eqb_spec a b); simpl in H
         | H : context [(?a <? ?b)%Z] |- _ =>
             destruct (Z.ltb_spec a b); simpl in H
         end.

Lemma SemesterData_validate_raises (s : SemesterData.t) (e : exn) :
  SemesterData.validate s = Raise e -> exists msg, e = ValidationError msg.
Proof.
  unfold SemesterData.validate.
  repeat case_match; intros; simplify_eq; eauto.
Qed.

(** C4. [SemesterData.validate] succeeds exactly when the total hours equal
    [credits * 30], the individual hours are positive and the instructional
    hours are positive; when it fails, the error is the one of the first
    failing check in the order: credits not positive, total hours mismatch,
    individual hours not positive, instructional hours not positive. *)
Theorem validate_iff_and_order (s : SemesterData.t) :
  (SemesterData.validate s = Ok tt <->
     HourDistribution.total_hours (SemesterData.hours s)
       = (SemesterData.credits s * 30)%Z
     /\ (HourDistribution.individual (SemesterData.hours s) > 0)%Z
     /\ (HourDistribution.instructional_hours (SemesterData.hours s) > 0)%Z)
  /\ ((SemesterData.credits s <= 0)%Z ->
      SemesterData.validate s = Raise (ValidationError CreditsMustBePositive))
  /\ ((0 < SemesterData.credits s)%Z ->
      HourDistribution.total_hours (SemesterData.hours s)
        <> (SemesterData.credits s * 30)%Z ->
      SemesterData.validate s =
        Raise (ValidationError
                 (TotalHoursMismatch
                    (HourDistribution.total_hours (SemesterData.hours s))
                    (SemesterData.credits s * 30)%Z)))
  /\ ((0 < SemesterData.credits s)%Z ->
      HourDistribution.total_hours (SemesterData.hours s)
        = (SemesterData.credits s * 30)%Z ->
      (HourDistribution.individual (SemesterData.hours s) <= 0)%Z ->
      SemesterData.validate s =
        Raise (ValidationError IndividualHoursMustBePresent))
  /\ ((0 < SemesterData.credits s)%Z ->
      HourDistribution.total_hours (SemesterData.hours s)
        = (SemesterData.credits s * 30)%Z ->
      (0 < HourDistribution.individual (SemesterData.hours s))%Z ->
      (HourDistribution.instructional_hours (SemesterData.hours s) <= 0)%Z ->
      SemesterData.validate s =
        Raise (ValidationError InstructionalHoursMustBePresent)).
Proof.
  destruct s as [sem cr [le la pr se ind]].
  unfold SemesterData.validate, HourDistribution.total_hours,
    HourDistribution.instructional_hours; simpl.
  repeat split; try intros (Ht & Hi & Hn); intros; z_cases.
  all: first [ reflexivity | discriminate | lia ].
Qed.

Lemma validate_iff_and_order_witness :
  SemesterData.validate semester_ok = Ok tt
  /\ SemesterData.validate semester_no_credits =
       Raise (ValidationError CreditsMustBePositive)
  /\ SemesterData.validate semester_short =
       Raise (ValidationError (TotalHoursMismatch 80 90))
  /\ SemesterData.validate semester_no_individual =
       Raise (ValidationError IndividualHoursMustBePresent)
  /\ SemesterData.validate semester_no_instruction =
       Raise (ValidationError InstructionalHoursMustBePresent).
Proof.
  split; [|split; [|split; [|split]]].
  - apply (proj1 (validate_iff_and_order semester_ok)); simpl.
    split; [|split]; vm_compute; reflexivity.
  - destruct (validate_iff_and_order semester_no_credits) as (_ & H & _).
    apply H; by vm_compute.
  - destruct (validate_iff_and_order semester_short) as (_ & _ & H & _).
    apply H; by vm_compute.
  - destruct (validate_iff_and_order semester_no_individual)
      as (_ & _ & _ & H & _).
    apply H; by vm_compute.
  - destruct (validate_iff_and_order semester_no_instruction)
      as (_ & _ & _ & _ & H).
    apply H; by vm_compute.
Defined.

(** ** CourseData *)

Lemma validate_semesters_duplicate (l : list SemesterData.t) (seen : gset Z) :
  ~ NoDup (SemesterData.semester <$> l)
  \/ (exists x, x ∈ SemesterData.semester <$> l /\ x ∈ seen) ->
  exists msg, CourseData.validate_semesters seen l = Raise (ValidationError msg).
Proof.
  revert seen. induction l as [|a l IH]; intros seen H.
  - destruct H as [H | (x & Hx & _)].
    + destruct H. constructor.
    + simpl in Hx. by apply elem_of_nil in Hx.
  - simpl. case_decide as Hin; [eauto|].
    destruct (SemesterData.validate a) as [[]|e] eqn:Hv; simpl.
    + apply IH. destruct H as [H | (x & Hx & Hs)].
      * destruct (decide (SemesterData.semester a ∈ SemesterData.semester <$> l))
          as [Ha | Ha].
        -- right. exists (SemesterData.semester a). split; [done | set_solver].
        -- left. intros Hnd. apply H. simpl. by constructor.
      * simpl in Hx. apply elem_of_cons in Hx as [-> | Hx]; [done|].
        right. exists x. split; [done | set_solver].
    + apply SemesterData_validate_raises in Hv as [msg ->]. eauto.
Qed.

Lemma validate_semesters_first_duplicate
    (pre : list SemesterData.t) (seen : gset Z) (s : SemesterData.t)
    (post : list SemesterData.t) :
  NoDup (SemesterData.semester <$> pre) ->
  (forall x, x ∈ SemesterData.semester <$> pre -> x ∉ seen) ->
  Forall (fun x => SemesterData.validate x = Ok tt) pre ->
  SemesterData.semester s ∈ seen
  \/ SemesterData.semester s ∈ SemesterData.semester <$> pre ->
  CourseData.validate_semesters seen (pre ++ s :: post) =
    Raise (ValidationError (DuplicateSemesterNumber (SemesterData.semester s))).
Proof.
  revert seen. induction pre as [|a pre IH]; intros seen Hnd Hfresh Hok Hin.
  - simpl. destruct Hin as [Hin | Hin]; [|by apply elem_of_nil in Hin].
    by case_decide.
  - simpl in *. apply NoDup_cons in Hnd as [Ha Hnd].
    apply Forall_cons in Hok as [Hva Hok].
    case_decide as Hseen.
    { exfalso. apply (Hfresh (SemesterData.semester a)); [set_solver | done]. }
    rewrite Hva. simpl. apply IH; [done | | done |].
    + intros x Hx Hs. apply elem_of_union in Hs as [Hs | Hs].
      * apply (Hfresh x); [set_solver | done].
      * apply elem_of_singleton in Hs as ->. done.
    + destruct Hin as [Hin | Hin]; [left; set_solver|].
      apply elem_of_cons in Hin as [-> | Hin]; [left; set_solver | by right].
Qed.

(** C8. [CourseData.validate] fails for every record in which two semesters
    share a semester number. The duplicate is found by the running set of
    numbers seen so far, in sequence order: when the checks before it pass,
    the error is the duplicate-number error of the first semester whose
    number was already seen. *)
Theorem duplicate_semester_rejected (c : CourseData.t) :
  (~ NoDup (SemesterData.semester <$> CourseData.semesters c) ->
   exists msg, CourseData.validate c = Raise (ValidationError msg))
  /\ (forall pre s post,
        CourseData.semesters c = pre ++ s :: post ->
        truthy (CourseData.code c) = true ->
        truthy (CourseData.name c) = true ->
        (exists t, CourseData.type c = CourseData.IsCourseType t) ->
        NoDup (SemesterData.semester <$> pre) ->
        Forall (fun x => SemesterData.validate x = Ok tt) pre ->
        SemesterData.semester s ∈ SemesterData.semester <$> pre ->
        CourseData.validate c =
          Raise (ValidationError
                   (DuplicateSemesterNumber (SemesterData.semester s)))).
Proof.
  split.
  - intros Hdup. unfold CourseData.validate.
    destruct (_ || _); [eauto|].
    destruct (CourseData.type c); [|eauto].
    destruct (CourseData.semesters c) as [|a l] eqn:Hs; [eauto|].
    apply validate_semesters_duplicate. by left.
  - intros pre s post Hs Hcode Hname [t Ht] Hnd Hok Hin.
    unfold CourseData.validate.
    rewrite Hcode, Hname, Ht. simpl.
    rewrite Hs. destruct pre as [|a pre].
    { by apply elem_of_nil in Hin. }
    apply validate_semesters_first_duplicate; [done | set_solver | done | by right].
Qed.

Lemma duplicate_semester_rejected_witness :
  (exists msg,
     CourseData.validate course_duplicate_semester = Raise (ValidationError msg))
  /\ CourseData.validate course_duplicate_semester =
       Raise (ValidationError (DuplicateSemesterNumber 2)).
Proof.
  destruct (duplicate_semester_rejected course_duplicate_semester) as [H1 H2].
  split.
  - apply H1. apply (bool_decide_unpack _). vm_compute. exact I.
  - apply (H2 [SemesterData.mk 2 2 (HourDistribution.mk 15 15 15 0 15)]
              (SemesterData.mk 2 3 (HourDistribution.mk 30 30 15 0 15)) []).
    + reflexivity.
    + reflexivity.
    + reflexivity.
    + exists MANDATORY. reflexivity.
    + apply (bool_decide_unpack _). vm_compute. exact I.
    + constructor; [reflexivity | constructor].
    + apply (bool_decide_unpack _). vm_compute. exact I.
Defined.

(** ** CurriculumSchema *)

Lemma check_course_code (k : atom) (course_data : value) :
  CurriculumSchema.check_course (k, course_data) = Ok tt ->
  subscript course_data "code" = Ok (Atom k).
Proof.
  unfold CurriculumSchema.check_course. intros H.
  apply bind_Ok in H as (code & Hget & H).
  destruct course_data as [| |l|d]; try discriminate.
  simpl in Hget. injection Hget as Hget.
  unfold subscript, Dict.getitem.
  destruct (Dict.get d (PStr "code")) as [v|]; simpl in Hget; subst.
  - destruct k, code as [|a| |]; simpl in H; try discriminate.
    + case_bool_decide; [by subst | discriminate].
    + case_bool_decide; [by subst | discriminate].
  - destruct k; discriminate.
Qed.

(** C5. [validate_curriculum] checks every course first, in mapping order,
    and stops at the first course that fails; the prerequisite check runs
    only when every course has passed, and then reports the first course, in
    mapping order, that references unknown codes, with its code and the
    whole set of unknown codes it references. Whenever some record
    references a code that is not a key, the validation fails. *)
Theorem cross_reference_after_courses (d : list (atom * value)) :
  (forall pre item post e,
     d = pre ++ item :: post ->
     Forall (fun it => CurriculumSchema.check_course it = Ok tt) pre ->
     CurriculumSchema.check_course item = Raise e ->
     CurriculumSchema.validate_curriculum (VDict d) = Raise e)
  /\ (forall pre k course_data post (referenced : gset atom),
        d = pre ++ (k, course_data) :: post ->
        Forall (fun it => CurriculumSchema.check_course it = Ok tt) d ->
        Forall (fun it =>
                  CurriculumSchema.check_prerequisites
                    (list_to_set (Dict.keys d)) it.2 = Ok tt) pre ->
        dict_get course_data "prerequisites" (VList [])
          ≫= CurriculumSchema.py_set = Ok referenced ->
        referenced ∖ list_to_set (Dict.keys d) <> ∅ ->
        CurriculumSchema.validate_curriculum (VDict d) =
          Raise (ValidationError
                   (InvalidPrerequisites (Atom k)
                      (referenced ∖ list_to_set (Dict.keys d)))))
  /\ (forall k course_data (referenced : gset atom) p,
        (k, course_data) ∈ d ->
        dict_get course_data "prerequisites" (VList [])
          ≫= CurriculumSchema.py_set = Ok referenced ->
        p ∈ referenced ->
        p ∉ Dict.keys d ->
        exists e, CurriculumSchema.validate_curriculum (VDict d) = Raise e).
Proof.
  assert (Hbody : forall k course_data (referenced : gset atom),
             CurriculumSchema.check_course (k, course_data) = Ok tt ->
             dict_get course_data "prerequisites" (VList [])
               ≫= CurriculumSchema.py_set = Ok referenced ->
             referenced ∖ list_to_set (Dict.keys d) <> ∅ ->
             CurriculumSchema.check_prerequisites
               (list_to_set (Dict.keys d)) course_data =
             Raise (ValidationError
                      (InvalidPrerequisites (Atom k)
                         (referenced ∖ list_to_set (Dict.keys d))))).
  { intros k cd S Hc HS Hne.
    apply check_course_code in Hc.
    apply bind_Ok in HS as (v & Hv & HS).
    unfold CurriculumSchema.check_prerequisites.
    rewrite Hv; simpl. rewrite HS; simpl.
    case_decide; [done|]. by rewrite Hc. }
  split; [|split].
  - intros pre item post e -> Hpre Hitem. simpl.
    by rewrite (for_each_first_raise _ pre item post e).
  - intros pre k cd post S Hd Hall Hpre HS Hne. simpl.
    apply for_each_Ok in Hall as Hloop. rewrite Hloop. simpl.
    assert (Hk : CurriculumSchema.check_course (k, cd) = Ok tt).
    { rewrite Forall_forall in Hall. apply Hall. rewrite Hd. set_solver. }
    unfold Dict.values. rewrite Hd at 2. rewrite fmap_app, fmap_cons. simpl.
    apply for_each_first_raise.
    + by apply Forall_fmap.
    + by apply Hbody.
  - intros k cd S p Hin HS Hp Hnk. simpl.
    destruct (for_each CurriculumSchema.check_course d) as [[]|e] eqn:Hloop;
      simpl; [|eauto].
    apply for_each_Ok in Hloop. rewrite Forall_forall in Hloop.
    apply (for_each_some_raise _ _ cd).
    + unfold Dict.values. apply list_elem_of_fmap. by exists (k, cd).
    + eexists. apply (Hbody k); [by apply Hloop | done |].
      intros Hempty. apply (not_elem_of_empty (C := gset atom) p).
      rewrite <- Hempty. apply elem_of_difference. split; [done|].
      by rewrite elem_of_list_to_set.
Qed.

Lemma cross_reference_after_courses_witness :
  CurriculumSchema.validate_curriculum (VDict dangling_curriculum) =
    Raise (ValidationError (InvalidPrerequisites (Atom (PStr "A")) {[PStr "B"]}))
  /\ CurriculumSchema.validate_curriculum (VDict dangling_then_invalid) =
       Raise (ValidationError (CourseValidationFailed CreditsMustBePositive))
  /\ exists e,
       CurriculumSchema.validate_curriculum (VDict dangling_curriculum) = Raise e.
Proof.
  split; [|split].
  - destruct (cross_reference_after_courses dangling_curriculum) as (_ & H & _).
    rewrite (H [] (PStr "A") course_A_needs_B [] {[PStr "B"]}).
    + vm_compute. reflexivity.
    + reflexivity.
    + constructor; [vm_compute; reflexivity | constructor].
    + constructor.
    + vm_compute. reflexivity.
    + apply (bool_decide_unpack _). vm_compute. exact I.
  - destruct (cross_reference_after_courses dangling_then_invalid) as (H & _).
    apply (H [(PStr "A", course_A_needs_B)] (PStr "C", course_C_no_credits) []).
    + reflexivity.
    + constructor; [vm_compute; reflexivity | constructor].
    + vm_compute. reflexivity.
  - destruct (cross_reference_after_courses dangling_curriculum) as (_ & _ & H).
    apply (H (PStr "A") course_A_needs_B {[PStr "B"]} (PStr "B")).
    + unfold dangling_curriculum. left.
    + vm_compute. reflexivity.
    + apply (bool_decide_unpack _). vm_compute. exact I.
    + apply (bool_decide_unpack _). vm_compute. exact I.
Defined.

(** ** CurriculumManager *)

(** Unfolds the monad of the manager down to pairs of outcome and mapping. *)
Ltac unfold_manager :=
  unfold CurriculumManager.run, CurriculumManager.add_course,
    CurriculumManager.update_course, CurriculumManager.remove_course,
    mbind, CurriculumManager.M_bind, CurriculumManager.bind,
    CurriculumManager.lift, CurriculumManager.raise,
    CurriculumManager.self_data, CurriculumManager.data_setitem,
    CurriculumManager.data_delitem in *.

(** C10. A mutation that raises leaves [self.data] as it was: every check of
    [add_course], [update_course] and [remove_course] runs before the one
    statement that changes the mapping. *)
Theorem mutation_atomic_on_failure (m : CurriculumManager.mutation)
    (data data' : Dict.t value) (e : exn) :
  CurriculumManager.run m data = (Raise e, data') -> data' = data.
Proof.
  destruct m; unfold_manager; intros H;
    repeat case_match; simplify_eq; reflexivity.
Qed.

Lemma mutation_atomic_on_failure_witness :
  let remove := CurriculumManager.RemoveCourse "A" in
  let add := CurriculumManager.AddCourse course_C_no_credits in
  let update := CurriculumManager.UpdateCourse course_C_no_credits in
  ((CurriculumManager.run remove protected_curriculum).1
     = Raise (ValidationError (CannotRemove "A" (Atom (PStr "B"))))
   /\ (CurriculumManager.run remove protected_curriculum).2
       = protected_curriculum)
  /\ ((CurriculumManager.run add protected_curriculum).1
        = Raise (ValidationError (CourseValidationFailed CreditsMustBePositive))
      /\ (CurriculumManager.run add protected_curriculum).2
          = protected_curriculum)
  /\ ((CurriculumManager.run update protected_curriculum).1
        = Raise (ValidationError (CourseDoesNotExist (Atom (PStr "C"))))
      /\ (CurriculumManager.run update protected_curriculum).2
          = protected_curriculum).
Proof.
  intros remove add update.
  split; [|split]; (split; [vm_compute; reflexivity|]).
  - apply (mutation_atomic_on_failure remove protected_curriculum _
             (ValidationError (CannotRemove "A" (Atom (PStr "B"))))).
    vm_compute. reflexivity.
  - apply (mutation_atomic_on_failure add protected_curriculum _
             (ValidationError (CourseValidationFailed CreditsMustBePositive))).
    vm_compute. reflexivity.
  - apply (mutation_atomic_on_failure update protected_curriculum _
             (ValidationError (CourseDoesNotExist (Atom (PStr "C"))))).
    vm_compute. reflexivity.
Defined.

(** C6, at the input where code and claim part. [{A: prereqs=[A]}] passes
    [validate_curriculum], no other record lists [A], and [remove_course]
    still refuses to delete [A]: its loop scans every record, the one being
    removed included. On [{A: prereqs=[]}, {B: prereqs=[A]}] the code does
    what the claim says: removing [A] fails naming [B], removing [B] and
    then [A] succeeds. *)
Theorem remove_course_self_prerequisite :
  CurriculumManager.init (VDict self_prerequisite_curriculum)
    = Ok self_prerequisite_curriculum
  /\ CurriculumManager.remove_course "A" self_prerequisite_curriculum
     = (Raise (ValidationError (CannotRemove "A" (Atom (PStr "A")))),
        self_prerequisite_curriculum)
  /\ CurriculumManager.remove_course "A" protected_curriculum
     = (Raise (ValidationError (CannotRemove "A" (Atom (PStr "B")))),
        protected_curriculum)
  /\ CurriculumManager.remove_course "B" protected_curriculum
     = (Ok tt, [(PStr "A", course_A)])
  /\ CurriculumManager.remove_course "A" [(PStr "A", course_A)]
     = (Ok tt, [])
  /\ CurriculumManager.remove_course "Z" protected_curriculum
     = (Raise (ValidationError (CourseDoesNotExist (Atom (PStr "Z")))),
        protected_curriculum).
Proof. repeat split; vm_compute; reflexivity. Qed.

(** C7, at the input where code and claim part. [add_course] and
    [update_course] run [validate_course] only, which never looks at the
    other records: a record whose prerequisite is not a key is stored. The
    mapping that results fails [validate_curriculum], which the constructor
    of the manager runs, and [get_prerequisites_tree] raises [KeyError] on
    it. *)
Theorem add_course_admits_unknown_prerequisite :
  CurriculumManager.init (VDict []) = Ok []
  /\ CurriculumManager.add_course course_A_needs_B []
     = (Ok tt, dangling_curriculum)
  /\ CurriculumSchema.validate_curriculum (VDict dangling_curriculum)
     = Raise (ValidationError
                (InvalidPrerequisites (Atom (PStr "A")) {[PStr "B"]}))
  /\ CurriculumManager.get_prerequisites_tree "A" dangling_curriculum
     = Done (Raise (KeyError (Atom (PStr "B"))))
  /\ CurriculumManager.init (VDict [(PStr "A", course_A)])
     = Ok [(PStr "A", course_A)]
  /\ CurriculumManager.update_course course_A_needs_B [(PStr "A", course_A)]
     = (Ok tt, dangling_curriculum).
Proof. repeat split; vm_compute; reflexivity. Qed.

(** The half of the invariant that the mutations do keep: after a mutation
    that succeeds, every key is still the code of its record. *)
Lemma Forall_delitem {V} (P : atom * V -> Prop) (d : Dict.t V) (k : atom) :
  Forall P d -> Forall P (Dict.delitem d k).
Proof.
  intros Hd. induction Hd as [|[k' v'] d Hx Hd IH]; simpl; [constructor|].
  case_decide; [done | by constructor].
Qed.

Lemma mutation_keeps_keys_matching (m : CurriculumManager.mutation)
    (data data' : Dict.t value) :
  keys_match_codes data ->
  CurriculumManager.run m data = (Ok tt, data') ->
  keys_match_codes data'.
Proof.
  unfold keys_match_codes. intros Hinv.
  assert (Hstore : forall course_data code key,
             subscript course_data "code" = Ok code ->
             hashable code = Ok key ->
             Forall (fun item : atom * value =>
                       subscript item.2 "code" = Ok (Atom item.1))
               (Dict.setitem data key course_data)).
  { intros cd code key Hcode Hkey. apply Forall_setitem; [done|].
    destruct code; simpl in Hkey; simplify_eq. done. }
  destruct m; unfold_manager; intros H.
  - repeat case_match; simplify_eq. eauto.
  - repeat case_match; simplify_eq. eauto.
  - repeat case_match; simplify_eq. by apply Forall_delitem.
Qed.

Lemma mutation_keeps_keys_matching_witness :
  keys_match_codes protected_curriculum
  /\ keys_match_codes [(PStr "A", course_A)].
Proof.
  assert (H : keys_match_codes protected_curriculum).
  { repeat constructor. }
  split; [exact H|].
  apply (mutation_keeps_keys_matching (CurriculumManager.RemoveCourse "B")
           protected_curriculum _ H).
  vm_compute. reflexivity.
Defined.



(** ** The prerequisite tree *)

Lemma comprehension_hashable (items : list value) (atoms : list atom) :
  comprehension hashable items = Ok atoms -> items = Atom <$> atoms.
Proof.
  revert atoms. induction items as [|v items IH]; simpl; intros atoms H.
  - by simplify_eq.
  - apply bind_Ok in H as (a & Ha & H). apply bind_Ok in H as (l & Hl & H).
    simplify_eq. destruct v; try discriminate. simpl in Ha. simplify_eq.
    simpl. f_equal. by apply IH.
Qed.

Lemma from_dict_name (course_data : value) (c : CourseData.t) :
  CourseData.from_dict course_data = Ok c ->
  exists name, subscript course_data "name" = Ok name.
Proof.
  unfold CourseData.from_dict. intros H.
  apply bind_Ok in H as (code & _ & H).
  apply bind_Ok in H as (name & Hname & _). eauto.
Qed.

Lemma validate_course_name (course_data : value) :
  CurriculumSchema.validate_course course_data = Ok tt ->
  exists name, subscript course_data "name" = Ok name.
Proof.
  unfold CurriculumSchema.validate_course.
  destruct (CourseData.from_dict course_data) as [c|e] eqn:Hc.
  - intros _. by eapply from_dict_name.
  - cbv [mbind result_bind]. destruct e; discriminate.
Qed.

(** A mapping the constructor of the manager accepts is ready for
    [build_tree]. *)
Lemma validated_tree_ready (data : Dict.t value) :
  CurriculumSchema.validate_curriculum (VDict data) = Ok tt -> tree_ready data.
Proof.
  simpl. intros H. apply bind_Ok in H as ([] & Hcourses & Hprereqs).
  apply for_each_Ok in Hcourses. apply for_each_Ok in Hprereqs.
  unfold Dict.values in Hprereqs. rewrite Forall_fmap in Hprereqs.
  unfold tree_ready. rewrite Forall_forall in *.
  intros [k cd] Hin. specialize (Hcourses _ Hin). specialize (Hprereqs _ Hin).
  simpl in *.
  unfold CurriculumSchema.check_course in Hcourses.
  apply bind_Ok in Hcourses as (code & _ & Hcourses).
  destruct (CurriculumSchema.key_ne k code); [discriminate|].
  apply validate_course_name in Hcourses as [name Hname].
  unfold CurriculumSchema.check_prerequisites in Hprereqs.
  apply bind_Ok in Hprereqs as (v & Hv & Hprereqs).
  apply bind_Ok in Hprereqs as (referenced & Hset & Hprereqs).
  unfold CurriculumSchema.py_set in Hset.
  apply bind_Ok in Hset as (items & Hitems & Hset).
  apply bind_Ok in Hset as (atoms & Hatoms & Hset).
  apply comprehension_hashable in Hatoms. simplify_eq.
  exists name, atoms. split; [done|]. split.
  - rewrite Hv. simpl. by rewrite Hitems.
  - intros p Hp. case_decide as Hempty; [|by destruct (subscript cd "code")].
    destruct (decide (p ∈ Dict.keys data)) as [|Hnot]; [done|].
    exfalso. apply (not_elem_of_empty (C := gset atom) p).
    rewrite <- Hempty. apply elem_of_difference.
    rewrite !elem_of_list_to_set. done.
Qed.

Lemma build_tree_S (fuel : nat) (data : Dict.t value) (code : value)
    (visited : gset atom) :
  CurriculumManager.build_tree (S fuel) data code visited
  = CurriculumManager.build_node (CurriculumManager.build_tree fuel data)
      data code visited.
Proof. reflexivity. Qed.

(** More fuel does not change an outcome. *)
Lemma build_prereqs_mono (rec1 rec2 : value -> fueled (option tree))
    (prereq_codes : list value) (prereqs : Dict.t tree)
    (r : result (Dict.t tree)) :
  (forall p r', rec1 p = Done r' -> rec2 p = Done r') ->
  CurriculumManager.build_prereqs rec1 prereq_codes prereqs = Done r ->
  CurriculumManager.build_prereqs rec2 prereq_codes prereqs = Done r.
Proof.
  intros Hrec. revert prereqs.
  induction prereq_codes as [|p ps IH]; simpl; intros prereqs H; [done|].
  destruct (rec1 p) as [r1|] eqn:H1; [|discriminate].
  rewrite (Hrec _ _ H1). destruct r1 as [[t|]|e]; [|auto|done].
  destruct (hashable p); [auto|done].
Qed.

Lemma build_node_mono (rec1 rec2 : value -> gset atom -> fueled (option tree))
    (data : Dict.t value) (code : value) (visited : gset atom)
    (r : result (option tree)) :
  (forall p v r', rec1 p v = Done r' -> rec2 p v = Done r') ->
  CurriculumManager.build_node rec1 data code visited = Done r ->
  CurriculumManager.build_node rec2 data code visited = Done r.
Proof.
  intros Hrec. unfold CurriculumManager.build_node.
  destruct (hashable code) as [key|e]; [|done].
  case_decide; [done|].
  destruct (_ ≫= _) as [[course ps]|e]; [|done].
  destruct (CurriculumManager.build_prereqs
              (fun p => rec1 p (visited ∪ {[key]})) ps []) as [r1|] eqn:H1;
    [|discriminate].
  erewrite build_prereqs_mono; [done | | exact H1].
  intros p r'. apply Hrec.
Qed.

Lemma build_tree_mono (fuel fuel' : nat) (data : Dict.t value) (code : value)
    (visited : gset atom) (r : result (option tree)) :
  fuel <= fuel' ->
  CurriculumManager.build_tree fuel data code visited = Done r ->
  CurriculumManager.build_tree fuel' data code visited = Done r.
Proof.
  intros Hle. revert fuel' Hle code visited r.
  induction fuel as [|fuel IH]; intros fuel' Hle code visited r H.
  - discriminate.
  - destruct fuel' as [|fuel']; [lia|].
    rewrite build_tree_S in *. eapply build_node_mono; [|exact H].
    intros p v r'. apply IH. lia.
Qed.

Lemma size_list_to_set_le (l : list atom) :
  size (list_to_set l : gset atom) <= length l.
Proof.
  induction l as [|x l IH].
  - rewrite list_to_set_nil, size_empty. done.
  - rewrite list_to_set_cons, size_union_alt, size_singleton. cbn [length].
    assert (Hsub : list_to_set l ∖ {[x]} ⊆ (list_to_set l : gset atom))
      by set_solver.
    apply subseteq_size in Hsub. lia.
Qed.

(** The loop over the prerequisite codes: a code on the branch adds no
    entry, any other code adds (or overwrites) the entry of its tree. *)
Lemma build_prereqs_spec (Q : atom -> tree -> Prop)
    (recurse : value -> fueled (option tree)) (blocked : gset atom)
    (ps : list atom) :
  (forall p, p ∈ ps ->
     (p ∈ blocked -> recurse (Atom p) = Done (Ok None))
     /\ (p ∉ blocked ->
         exists t, recurse (Atom p) = Done (Ok (Some t)) /\ Q p t)) ->
  forall acc : Dict.t tree,
    NoDup (Dict.keys acc) ->
    Forall (fun item => Q item.1 item.2) acc ->
    exists kids,
      CurriculumManager.build_prereqs recurse (Atom <$> ps) acc = Done (Ok kids)
      /\ NoDup (Dict.keys kids)
      /\ Forall (fun item => Q item.1 item.2) kids
      /\ forall p, p ∈ Dict.keys kids
                   <-> p ∈ Dict.keys acc \/ (p ∈ ps /\ p ∉ blocked).
Proof.
  induction ps as [|p ps IH]; intros Hrec acc Hnd Hacc.
  - exists acc. simpl. repeat split; try done; [by left|].
    intros [?|[Hin _]]; [done | by apply elem_of_nil in Hin].
  - assert (Hrec' : forall q, q ∈ ps ->
              (q ∈ blocked -> recurse (Atom q) = Done (Ok None))
              /\ (q ∉ blocked ->
                  exists t, recurse (Atom q) = Done (Ok (Some t)) /\ Q q t)).
    { intros q Hq. apply Hrec. by right. }
    destruct (Hrec p) as [Hblocked Hfree]; [left|].
    cbn [fmap list_fmap CurriculumManager.build_prereqs].
    destruct (decide (p ∈ blocked)) as [Hp|Hp].
    + rewrite (Hblocked Hp).
      destruct (IH Hrec' acc Hnd Hacc) as (kids & Hk & Hndk & HQ & Hkeys).
      exists kids. repeat split; try done.
      * intros Hin. apply Hkeys in Hin as [?|[? ?]]; [by left|].
        right. split; [by right | done].
      * intros [?|[Hin Hnb]]; apply Hkeys; [by left|].
        apply elem_of_cons in Hin as [->|?]; [done | by right].
    + destruct (Hfree Hp) as (t & Ht & HQt). rewrite Ht. cbn [hashable].
      destruct (IH Hrec' (Dict.setitem acc p t)) as (kids & Hk & Hndk & HQ & Hkeys).
      * destruct (decide (p ∈ Dict.keys acc)) as [Hin|Hin].
        -- by rewrite keys_setitem_in.
        -- rewrite keys_setitem_notin by done.
           apply NoDup_app. repeat split; [done | | apply NoDup_singleton].
           intros x Hx Hx'. apply list_elem_of_singleton in Hx'. by subst.
      * by apply Forall_setitem.
      * exists kids. repeat split; try done.
        -- intros Hin. apply Hkeys in Hin as [Hin|[? ?]].
           ++ destruct (decide (p ∈ Dict.keys acc)) as [Hpa|Hpa].
              ** rewrite keys_setitem_in in Hin by done. by left.
              ** rewrite keys_setitem_notin in Hin by done.
                 apply elem_of_app in Hin as [?|Hin]; [by left|].
                 apply list_elem_of_singleton in Hin as ->.
                 right. split; [left | done].
           ++ right. split; [by right | done].
        -- intros Hin. apply Hkeys.
           destruct (decide (p ∈ Dict.keys acc)) as [Hpa|Hpa].
           ++ rewrite keys_setitem_in by done.
              destruct Hin as [?|[Hin Hnb]]; [by left|].
              apply elem_of_cons in Hin as [->|?]; [by left | by right].
           ++ rewrite keys_setitem_notin by done.
              destruct Hin as [?|[Hin Hnb]].
              ** left. apply elem_of_app. by left.
              ** apply elem_of_cons in Hin as [->|?]; [|by right].
                 left. apply elem_of_app. right. by apply list_elem_of_singleton.
Qed.

Lemma build_node_returns (recurse : value -> gset atom -> fueled (option tree))
    (data : Dict.t value) (key : atom) (visited : gset atom)
    (course name : value) (prereq_codes : list value) (prereqs : Dict.t tree) :
  key ∉ visited ->
  Dict.get data key = Some course ->
  dict_get course "prerequisites" (VList []) ≫= py_iter = Ok prereq_codes ->
  CurriculumManager.build_prereqs
    (fun p => recurse p (visited ∪ {[key]})) prereq_codes []
    = Done (Ok prereqs) ->
  subscript course "name" = Ok name ->
  CurriculumManager.build_node recurse data (Atom key) visited
  = Done (Ok (Some (Node key name prereqs))).
Proof.
  intros Hv Hget Hps Hloop Hname.
  unfold CurriculumManager.build_node, Dict.getitem. cbn [hashable].
  rewrite decide_False by done. rewrite Hget.
  cbv [mbind result_bind]. cbv [mbind result_bind] in Hps.
  rewrite Hps, Hloop, Hname. reflexivity.
Qed.

Lemma build_tree_spec (data : Dict.t value) :
  tree_ready data ->
  forall (fuel : nat) (visited : gset atom) (key : atom),
    key ∈ Dict.keys data ->
    size (list_to_set (Dict.keys data) ∖ visited : gset atom) < fuel ->
    (key ∈ visited ->
     CurriculumManager.build_tree fuel data (Atom key) visited = Done (Ok None))
    /\ (key ∉ visited ->
        exists t,
          CurriculumManager.build_tree fuel data (Atom key) visited
            = Done (Ok (Some t))
          /\ pruned_tree data visited key t).
Proof.
  intros Hready.
  induction fuel as [|fuel IH]; intros visited key Hkey Hsize; [lia|].
  rewrite build_tree_S. split; intros Hv.
  - unfold CurriculumManager.build_node. cbn [hashable].
    by rewrite decide_True.
  - apply get_is_Some in Hkey as Hget. destruct Hget as [course Hget].
    unfold tree_ready in Hready. rewrite Forall_forall in Hready.
    destruct (Hready _ (get_elem_of _ _ _ Hget)) as (name & ps & Hname & Hps & Hin).
    cbn [snd] in *.
    assert (Hsmaller :
              size (list_to_set (Dict.keys data) ∖ (visited ∪ {[key]}) : gset atom)
              < fuel).
    { assert (list_to_set (Dict.keys data) ∖ (visited ∪ {[key]})
              ⊂ (list_to_set (Dict.keys data) ∖ visited : gset atom)) as Hsub.
      { assert (key ∈ (list_to_set (Dict.keys data) : gset atom))
          by (by apply elem_of_list_to_set).
        set_solver. }
      apply subset_size in Hsub. lia. }
    destruct (build_prereqs_spec
                (pruned_tree data (visited ∪ {[key]}))
                (fun p => CurriculumManager.build_tree fuel data p
                            (visited ∪ {[key]}))
                (visited ∪ {[key]}) ps) with (acc := @nil (atom * tree))
      as (kids & Hloop & Hnd & HQ & Hkeys).
    + intros p Hp. apply IH; [by apply Hin | done].
    + constructor.
    + constructor.
    + exists (Node key name kids). split.
      * by eapply build_node_returns.
      * econstructor; try done.
        intros p. rewrite Hkeys. split.
        -- intros [Hnil|?]; [by apply elem_of_nil in Hnil | done].
        -- by right.
Qed.

(** C3. On a mapping that passes [validate_curriculum], cycles or not,
    [get_prerequisites_tree] of a present code returns: the recursion of
    [build_tree] is never deeper than the number of keys plus one, and any
    larger bound gives the same tree. The tree is rooted at the code, and
    at every node the sub-trees stand under exactly the prerequisite codes
    of the course that are not on the branch from the root to that node:
    a code already on the branch has no entry. *)
Theorem prerequisite_tree_terminates_pruned (data : Dict.t value)
    (course_code : string) :
  CurriculumSchema.validate_curriculum (VDict data) = Ok tt ->
  PStr course_code ∈ Dict.keys data ->
  exists t,
    CurriculumManager.get_prerequisites_tree course_code data
      = Done (Ok (Some t))
    /\ (forall fuel,
          length data < fuel ->
          CurriculumManager.build_tree fuel data (Atom (PStr course_code)) ∅
            = Done (Ok (Some t)))
    /\ pruned_tree data ∅ (PStr course_code) t.
Proof.
  intros Hvalid Hkey. apply validated_tree_ready in Hvalid.
  assert (Hsize : size (list_to_set (Dict.keys data) ∖ ∅ : gset atom)
                  < S (length data)).
  { pose proof (size_list_to_set_le (Dict.keys data)) as Hle.
    unfold Dict.keys in *. rewrite length_fmap in Hle.
    assert (Hsub : list_to_set data.*1 ∖ ∅ ⊆ (list_to_set data.*1 : gset atom))
      by set_solver.
    apply subseteq_size in Hsub. lia. }
  destruct (build_tree_spec data Hvalid (S (length data)) ∅ (PStr course_code)
              Hkey Hsize) as [_ Htree].
  destruct Htree as (t & Ht & Hpruned); [set_solver|].
  exists t. repeat split; [| |done].
  - unfold CurriculumManager.get_prerequisites_tree, Dict.mem.
    apply get_is_Some in Hkey as [course ->]. exact Ht.
  - intros fuel Hfuel. eapply build_tree_mono; [|exact Ht]. lia.
Qed.

Lemma prerequisite_tree_terminates_pruned_witness :
  CurriculumManager.get_prerequisites_tree "A" cyclic_curriculum
    = Done (Ok (Some cyclic_tree))
  /\ CurriculumManager.build_tree 100 cyclic_curriculum (Atom (PStr "A")) ∅
     = Done (Ok (Some cyclic_tree))
  /\ pruned_tree cyclic_curriculum ∅ (PStr "A") cyclic_tree.
Proof.
  destruct (prerequisite_tree_terminates_pruned cyclic_curriculum "A")
    as (t & Ht & Hfuel & Hpruned).
  - vm_compute. reflexivity.
  - apply (bool_decide_unpack _). vm_compute. exact I.
  - assert (Heq : t = cyclic_tree).
    { assert (Hrun : CurriculumManager.get_prerequisites_tree "A" cyclic_curriculum
                     = Done (Ok (Some cyclic_tree)))
        by (vm_compute; reflexivity).
      rewrite Hrun in Ht. by injection Ht. }
    subst t. split; [exact Ht|]. split; [|exact Hpruned].
    apply Hfuel. vm_compute. lia.
Defined.

(** [build_tree] returns or raises on every mapping, valid or not: a call
    goes deeper only after it has added a key of the mapping to [visited]. *)
Lemma build_prereqs_total (recurse : value -> fueled (option tree))
    (prereq_codes : list value) (prereqs : Dict.t tree) :
  (forall p, exists r, recurse p = Done r) ->
  exists r,
    CurriculumManager.build_prereqs recurse prereq_codes prereqs = Done r.
Proof.
  intros Hrec. revert prereqs.
  induction prereq_codes as [|p ps IH]; simpl; intros prereqs; [eauto|].
  destruct (Hrec p) as [[[t|]|e] ->]; [|auto|eauto].
  destruct (hashable p); eauto.
Qed.

Lemma build_tree_total (data : Dict.t value) (fuel : nat) :
  forall (code : value) (visited : gset atom),
    size (list_to_set (Dict.keys data) ∖ visited : gset atom) < fuel ->
    exists r, CurriculumManager.build_tree fuel data code visited = Done r.
Proof.
  induction fuel as [|fuel IH]; intros code visited Hsize; [lia|].
  rewrite build_tree_S. unfold CurriculumManager.build_node.
  destruct (hashable code) as [key|e]; [|eauto].
  case_decide as Hv; [eauto|].
  destruct (_ ≫= _) as [[course ps]|e] eqn:Hc; [|eauto].
  apply bind_Ok in Hc as (course' & Hget & _).
  unfold Dict.getitem in Hget.
  destruct (Dict.get data key) as [c|] eqn:Hk; [|discriminate].
  assert (Hkey : key ∈ Dict.keys data) by (apply get_is_Some; eauto).
  assert (Hsmaller :
            size (list_to_set (Dict.keys data) ∖ (visited ∪ {[key]}) : gset atom)
            < fuel).
  { assert (list_to_set (Dict.keys data) ∖ (visited ∪ {[key]})
            ⊂ (list_to_set (Dict.keys data) ∖ visited : gset atom)) as Hsub.
    { assert (key ∈ (list_to_set (Dict.keys data) : gset atom))
        by (by apply elem_of_list_to_set).
      set_solver. }
    apply subset_size in Hsub. lia. }
  destruct (build_prereqs_total
              (fun p => CurriculumManager.build_tree fuel data p
                          (visited ∪ {[key]})) ps [])
    as [[kids|e] ->]; eauto.
Qed.

Lemma get_prerequisites_tree_total (course_code : string)
    (data : Dict.t value) :
  exists r, CurriculumManager.get_prerequisites_tree course_code data = Done r.
Proof.
  unfold CurriculumManager.get_prerequisites_tree.
  destruct (negb _); [eauto|].
  apply build_tree_total.
  pose proof (size_list_to_set_le (Dict.keys data)) as Hle.
  unfold Dict.keys in *. rewrite length_fmap in Hle.
  assert (Hsub : list_to_set data.*1 ∖ ∅ ⊆ (list_to_set data.*1 : gset atom))
    by set_solver.
  apply subseteq_size in Hsub. lia.
Qed.

(** ** ExcelProcessor *)

Lemma read_row_lacks_code (cols : list string) (data data' : Dict.t value)
    (row : list atom) :
  Forall lacks_code data ->
  ExcelProcessor.read_row cols data row = Ok data' ->
  Forall lacks_code data'.
Proof.
  intros Hinv. unfold ExcelProcessor.read_row. intros H.
  apply bind_Ok in H as (course_code & _ & H).
  destruct (negb (atom_truthy course_code)); [by simplify_eq|].
  repeat (apply bind_Ok in H as (? & _ & H)).
  destruct (Dict.get data course_code) as [[| |l|course]|] eqn:Hget;
    try discriminate.
  - injection H as <-. apply Forall_setitem; [done|].
    unfold lacks_code; simpl. rewrite get_setitem_ne; [|done].
    apply get_elem_of in Hget. rewrite Forall_forall in Hinv.
    apply (Hinv _ Hget).
  - repeat (apply bind_Ok in H as (? & _ & H)).
    injection H as <-. apply Forall_setitem; [done|]. reflexivity.
Qed.

Lemma read_rows_lacks_code (cols : list string) (rows : list (list atom))
    (data data' : Dict.t value) :
  Forall lacks_code data ->
  ExcelProcessor.read_rows cols data rows = Ok data' ->
  Forall lacks_code data'.
Proof.
  revert data. induction rows as [|row rows IH]; simpl; intros data Hinv H.
  - by simplify_eq.
  - apply bind_Ok in H as (data1 & Hrow & H).
    eapply IH; [|done]. by eapply read_row_lacks_code.
Qed.

Lemma validate_curriculum_lacks_code (data : Dict.t value) :
  data <> [] ->
  Forall lacks_code data ->
  exists e, CurriculumSchema.validate_curriculum (VDict data) = Raise e.
Proof.
  destruct data as [|[k v] data]; [done|]. intros _ Hinv.
  apply Forall_cons in Hinv as [Hv _]. unfold lacks_code in Hv. simpl in *.
  destruct v as [| |l|d]; simpl; eauto.
  rewrite Hv. simpl. destruct k; simpl; eauto.
Qed.

(** [read_excel] returns the empty mapping or raises: a course it has read
    never passes the validation it runs at the end. *)
Lemma read_excel_empty_or_raise (py_int : string -> result Z) (df : DataFrame) :
  ExcelProcessor.read_excel py_int df = Ok []
  \/ exists e,
       ExcelProcessor.read_excel py_int df
         = Raise (ValidationError (ErrorProcessingExcel e)).
Proof.
  unfold ExcelProcessor.read_excel.
  destruct (ExcelProcessor.validate_headers df) as [[]|e];
    cbv [mbind result_bind]; [|eauto].
  destruct (ExcelProcessor.clean_dataframe py_int df) as [df'|e]; [|eauto].
  destruct (ExcelProcessor.read_rows (columns df') [] (rows df'))
    as [data|e] eqn:Hrows; [|eauto].
  destruct data as [|item data].
  { left. reflexivity. }
  apply read_rows_lacks_code in Hrows; [|constructor].
  destruct (validate_curriculum_lacks_code (item :: data)) as [e He];
    [done | done |].
  rewrite He. eauto.
Qed.

Lemma read_excel_needs_hour_columns (py_int : string -> result Z)
    (body : list (list atom)) :
  ExcelProcessor.read_excel py_int
    {| columns := ExcelProcessor.REQUIRED_COLUMNS ++ ["Prerequisites"];
       rows := body |}
  = Raise (ValidationError
             (ErrorProcessingExcel
                (KeyError (text_list ExcelProcessor.numeric_columns)))).
Proof. reflexivity. Qed.

(** C2, at the rows of the claim. The row with the empty [course_code] is
    skipped by the loop of [read_excel] ([if not course_code: continue]):
    the rows read with it are what the first row alone gives, an entry with
    no list of semesters. The entry has no ["code"] key, so the validation
    at the end of [read_excel] rejects it, and no call of [read_excel]
    returns a mapping that holds a course. *)
Theorem read_excel_drops_continuation_rows (py_int : string -> result Z) :
  ExcelProcessor.clean_dataframe py_int continuation_frame
    = Ok continuation_frame
  /\ ExcelProcessor.read_rows sheet_columns [] [first_row; continuation_row]
     = ExcelProcessor.read_rows sheet_columns [] [first_row]
  /\ ExcelProcessor.read_rows sheet_columns [] [first_row; continuation_row]
     = Ok [(PStr "CS201",
            VDict [(PStr "course_code", Atom (PStr "CS201"));
                   (PStr "course_name", Atom (PStr "Advanced Programming"));
                   (PStr "credits", Atom (PInt 2));
                   (PStr "semester", Atom (PInt 1));
                   (PStr "prerequisites", VList [])])]
  /\ ExcelProcessor.read_excel py_int continuation_frame
     = Raise (ValidationError
                (ErrorProcessingExcel
                   (ValidationError (CourseCodeMismatch (PStr "CS201") VNone))))
  /\ (forall cols data row,
        ExcelProcessor.row_getitem cols row "course_code" = Ok (PStr "") ->
        ExcelProcessor.read_row cols data row = Ok data)
  /\ (forall df,
        ExcelProcessor.read_excel py_int df = Ok []
        \/ exists e, ExcelProcessor.read_excel py_int df = Raise e).
Proof.
  split; [|split; [|split; [|split; [|split]]]]; try reflexivity.
  - intros cols data row H. unfold ExcelProcessor.read_row. by rewrite H.
  - intros df. destruct (read_excel_empty_or_raise py_int df) as [H|[e H]];
      eauto.
Qed.

(** C9, at a sheet with one course of 9 credits. [preview_data] raises,
    because [read_excel] does; no call of [preview_data] returns a warning.
    The warning loop itself would give the warning for a record of the
    schema, but only the empty mapping ever reaches it. *)
Theorem preview_data_never_warns (py_int : string -> result Z) :
  ExcelProcessor.preview_data py_int nine_credit_frame
    = Raise (ValidationError
               (ValidationErrorDuringPreview
                  (ErrorProcessingExcel
                     (ValidationError
                        (CourseCodeMismatch (PStr "CS301") VNone)))))
  /\ (forall df,
        ExcelProcessor.preview_data py_int df = Ok ([], [])
        \/ exists e, ExcelProcessor.preview_data py_int df = Raise e)
  /\ CurriculumSchema.validate_course nine_credit_course = Ok tt
  /\ ExcelProcessor.course_warnings (PStr "CS301", nine_credit_course)
     = Ok [UnusuallyHighCredits (PStr "CS301") 9].
Proof.
  split; [|split; [|split]]; try reflexivity.
  intros df. unfold ExcelProcessor.preview_data.
  destruct (read_excel_empty_or_raise py_int df) as [H|[e H]]; rewrite H.
  - left. reflexivity.
  - right. eauto.
Qed.

(** C1, at the example curriculum of the schema. [export_excel] reads
    [course_data['course_name']], a key the records of the schema do not
    have (theirs is ["name"]), and raises. Whatever the mapping, export
    followed by import never returns: the sheet [export_excel] writes has
    none of the hour columns [read_excel] cleans first. *)
Theorem export_then_import_fails (py_int : string -> result Z) :
  CurriculumSchema.validate_curriculum
    CurriculumSchema.example_complete_curriculum = Ok tt
  /\ ExcelProcessor.export_excel CurriculumSchema.example_complete_curriculum
     = Raise (KeyError (Atom (PStr "course_name")))
  /\ ExcelProcessor.decode_encode py_int (VDict [])
     = Raise (ValidationError
                (ErrorProcessingExcel
                   (KeyError (text_list ExcelProcessor.numeric_columns))))
  /\ (forall curriculum_data,
        exists e,
          ExcelProcessor.decode_encode py_int curriculum_data = Raise e).
Proof.
  split; [|split; [|split]]; try reflexivity.
  intros curriculum_data. unfold ExcelProcessor.decode_encode.
  destruct (ExcelProcessor.export_excel curriculum_data) as [ws|e] eqn:Hx;
    cbv [mbind result_bind]; [|eauto].
  destruct curriculum_data as [| |l|d]; try discriminate.
  unfold ExcelProcessor.export_excel in Hx.
  apply bind_Ok in Hx as (per_course & _ & Hx). injection Hx as <-.
  unfold ExcelProcessor.pd_read_excel. cbn [header body].
  rewrite read_excel_needs_hour_columns. eauto.
Qed.

Lemma read_excel_drops_continuation_rows_witness :
  ExcelProcessor.row_getitem sheet_columns continuation_row "course_code"
    = Ok (PStr "")
  /\ ExcelProcessor.read_row sheet_columns [] continuation_row = Ok [].
Proof.
  split; [reflexivity|].
  destruct (read_excel_drops_continuation_rows (fun _ => Raise TypeError))
    as (_ & _ & _ & _ & H & _).
  apply H. reflexivity.
Defined.

(** * Further properties of the code *)

(** ** The dataclasses: dictionaries and back *)

Lemma hours_round_trip (h : HourDistribution.t) :
  HourDistribution.from_dict (HourDistribution.to_dict h) = Ok h.
Proof. destruct h. reflexivity. Qed.

Lemma semester_round_trip (s : SemesterData.t) :
  SemesterData.from_dict (SemesterData.to_dict s) = Ok s.
Proof. destruct s as [n c []]. reflexivity. Qed.

Lemma semesters_round_trip (l : list SemesterData.t) :
  comprehension SemesterData.from_dict (SemesterData.to_dict <$> l) = Ok l.
Proof.
  induction l as [|s l IH]; [reflexivity|].
  change (SemesterData.to_dict <$> s :: l)
    with (SemesterData.to_dict s :: (SemesterData.to_dict <$> l)).
  cbn [comprehension].
  rewrite semester_round_trip, IH. reflexivity.
Qed.

(** The serialised form of the three dataclasses reads back as the same
    record. [HourDistribution.from_dict] needs no key at all: a bucket that
    is missing counts as 0, and keys it does not know are ignored, while
    [SemesterData.from_dict] raises [KeyError] for the first of
    [semester], [credits], [hours] that is missing. *)
Theorem dataclass_round_trip :
  (forall h, HourDistribution.from_dict (HourDistribution.to_dict h) = Ok h)
  /\ (forall s, SemesterData.from_dict (SemesterData.to_dict s) = Ok s)
  /\ (forall d : Dict.t value,
        (forall k, k ∈ ["lecture"; "lab"; "practice"; "seminar"; "individual"] ->
                   Dict.get d (PStr k) = None) ->
        HourDistribution.from_dict (VDict d)
        = Ok (HourDistribution.mk 0 0 0 0 0))
  /\ (forall d : Dict.t value,
        Dict.get d (PStr "semester") = None ->
        SemesterData.from_dict (VDict d)
        = Raise (KeyError (Atom (PStr "semester"))))
  /\ (forall (d : Dict.t value) v,
        Dict.get d (PStr "semester") = Some v ->
        Dict.get d (PStr "credits") = None ->
        SemesterData.from_dict (VDict d)
        = Raise (KeyError (Atom (PStr "credits"))))
  /\ (forall (d : Dict.t value) v w,
        Dict.get d (PStr "semester") = Some v ->
        Dict.get d (PStr "credits") = Some w ->
        Dict.get d (PStr "hours") = None ->
        SemesterData.from_dict (VDict d)
        = Raise (KeyError (Atom (PStr "hours")))).
Proof.
  split; [exact hours_round_trip|]. split; [exact semester_round_trip|].
  split; [|split; [|split]].
  - intros d Hd. unfold HourDistribution.from_dict, dict_get.
    rewrite !Hd by set_solver. reflexivity.
  - intros d H. unfold SemesterData.from_dict, subscript, Dict.getitem.
    by rewrite H.
  - intros d v H1 H2. unfold SemesterData.from_dict, subscript, Dict.getitem.
    by rewrite H1, H2.
  - intros d v w H1 H2 H3.
    unfold SemesterData.from_dict, subscript, Dict.getitem.
    by rewrite H1, H2, H3.
Qed.

Lemma dataclass_round_trip_witness :
  HourDistribution.from_dict (VDict [(PStr "unknown", VNone)])
    = Ok (HourDistribution.mk 0 0 0 0 0)
  /\ SemesterData.from_dict (VDict [])
     = Raise (KeyError (Atom (PStr "semester")))
  /\ SemesterData.from_dict (VDict [(PStr "semester", Atom (PInt 1))])
     = Raise (KeyError (Atom (PStr "credits")))
  /\ SemesterData.from_dict
       (VDict [(PStr "semester", Atom (PInt 1)); (PStr "credits", Atom (PInt 3))])
     = Raise (KeyError (Atom (PStr "hours"))).
Proof.
  destruct dataclass_round_trip as (_ & _ & H0 & H1 & H2 & H3).
  split; [|split; [|split]].
  - apply H0. intros k Hk. vm_compute in Hk |- *.
    repeat (apply elem_of_cons in Hk as [->|Hk]; [reflexivity|]).
    by apply elem_of_nil in Hk.
  - apply H1. reflexivity.
  - apply (H2 _ (Atom (PInt 1))); reflexivity.
  - apply (H3 _ (Atom (PInt 1)) (Atom (PInt 3))); reflexivity.
Defined.

(** [CourseData.to_dict] returns exactly when the type field is a member of
    the enum; [from_dict] then reads the dictionary back as the record it
    came from, up to a falsy [prerequisites] (None, 0, the empty string, an
    empty dict) having become the empty list. The record read back passes or
    fails [validate] as the first one does, and serialises to the same
    dictionary. *)
Theorem course_round_trip (c : CourseData.t) (t : CourseType) :
  CourseData.type c = CourseData.IsCourseType t ->
  exists d,
    CourseData.to_dict c = Ok d
    /\ CourseData.from_dict d = Ok (normalised c)
    /\ CourseData.validate (normalised c) = CourseData.validate c
    /\ CourseData.to_dict (normalised c) = Ok d.
Proof.
  destruct c as [code name ty sems prereqs]. cbn [CourseData.type]. intros ->.
  eexists. split; [unfold CourseData.to_dict; cbn -[fmap]; reflexivity|].
  split; [|split].
  - unfold CourseData.from_dict.
    generalize (semesters_round_trip sems).
    generalize (SemesterData.to_dict <$> sems). intros l Hl.
    destruct t; cbv -[comprehension] in Hl |- *; rewrite Hl; reflexivity.
  - reflexivity.
  - unfold CourseData.to_dict, normalised. cbn.
    destruct (truthy prereqs) eqn:E; [by rewrite E | reflexivity].
Qed.

Lemma course_round_trip_witness :
  exists d,
    CourseData.to_dict
      (CourseData.mk (Atom (PStr "A")) (Atom (PStr "Course A"))
         (CourseData.IsCourseType MANDATORY) [] VNone) = Ok d
    /\ CourseData.from_dict d
       = Ok (CourseData.mk (Atom (PStr "A")) (Atom (PStr "Course A"))
               (CourseData.IsCourseType MANDATORY) [] (VList [])).
Proof.
  destruct (course_round_trip
              (CourseData.mk (Atom (PStr "A")) (Atom (PStr "Course A"))
                 (CourseData.IsCourseType MANDATORY) [] VNone) MANDATORY eq_refl)
    as (d & H1 & H2 & _).
  exists d. split; [exact H1 | exact H2].
Defined.

(** A record without a member of the enum in its type field cannot be
    serialised. *)
Lemma to_dict_needs_course_type (c : CourseData.t) (v : value) :
  CourseData.type c = CourseData.NotCourseType v ->
  CourseData.to_dict c = Raise AttributeError.
Proof. unfold CourseData.to_dict. by intros ->. Qed.

(** ** When a record passes [CourseData.validate] *)

Lemma validate_semesters_Ok (seen : gset Z) (l : list SemesterData.t) :
  CourseData.validate_semesters seen l = Ok tt <->
  NoDup (SemesterData.semester <$> l)
  /\ (forall n, n ∈ (SemesterData.semester <$> l) -> n ∉ seen)
  /\ Forall (fun s => SemesterData.validate s = Ok tt) l.
Proof.
  revert seen. induction l as [|s l IH]; intros seen.
  - cbn. split; [|done]. intros _. split; [constructor|].
    split; [|constructor]. intros n Hn. by apply elem_of_nil in Hn.
  - cbn [CourseData.validate_semesters].
    change (SemesterData.semester <$> s :: l)
      with (SemesterData.semester s :: (SemesterData.semester <$> l)).
    destruct (decide (SemesterData.semester s ∈ seen)) as [Hin|Hnin].
    + split; [done|]. intros (_ & Hfresh & _).
      exfalso. apply (Hfresh (SemesterData.semester s)); [left | done].
    + destruct (SemesterData.validate s) as [[]|e] eqn:Hv; cbn.
      * rewrite IH. split.
        -- intros (Hnd & Hfresh & Hall). split; [|split].
           ++ constructor; [|done]. intros Hs. apply (Hfresh _ Hs). set_solver.
           ++ intros n Hn. apply elem_of_cons in Hn as [->|Hn]; [done|].
              specialize (Hfresh n Hn). set_solver.
           ++ by constructor.
        -- intros (Hnd & Hfresh & Hall).
           apply NoDup_cons in Hnd as [Hs Hnd].
           apply Forall_cons in Hall as [_ Hall].
           split; [done|]. split; [|done].
           intros n Hn. apply not_elem_of_union. split.
           ++ apply Hfresh. by right.
           ++ intros ->%elem_of_singleton. done.
      * split; [done|]. intros (_ & _ & Hall).
        apply Forall_cons in Hall as [Hs _]. congruence.
Qed.

(** [CourseData.validate] accepts a record exactly when its code and name
    are truthy, its type is a member of the enum, it has at least one
    semester, no two semesters share a number, and every semester passes
    [SemesterData.validate]. *)
Theorem course_validate_iff (c : CourseData.t) :
  CourseData.validate c = Ok tt <->
  truthy (CourseData.code c) = true
  /\ truthy (CourseData.name c) = true
  /\ (exists t, CourseData.type c = CourseData.IsCourseType t)
  /\ CourseData.semesters c <> []
  /\ NoDup (SemesterData.semester <$> CourseData.semesters c)
  /\ Forall (fun s => SemesterData.validate s = Ok tt) (CourseData.semesters c).
Proof.
  destruct c as [code name ty sems prereqs]. unfold CourseData.validate. cbn.
  destruct (truthy code), (truthy name); cbn;
    try (split; [done | by intros (? & ? & _)]).
  destruct ty as [t|v]; [|split; [done | by intros (_ & _ & [? ?] & _)]].
  destruct sems as [|s sems]; [split; [done | by intros (_ & _ & _ & ? & _)]|].
  rewrite validate_semesters_Ok. split.
  - intros (Hnd & _ & Hall). repeat split; eauto.
  - intros (_ & _ & _ & _ & Hnd & Hall). split; [done|]. split; [|done].
    intros n _. set_solver.
Qed.

(** ** [validate_course] on payloads of any shape *)

Lemma validate_course_Ok (cd : value) :
  CurriculumSchema.validate_course cd = Ok tt <->
  exists c, CourseData.from_dict cd = Ok c /\ CourseData.validate c = Ok tt.
Proof.
  unfold CurriculumSchema.validate_course.
  destruct (CourseData.from_dict cd) as [c|e] eqn:Hc; cbn.
  - destruct (CourseData.validate c) as [[]|e] eqn:Hv.
    + split; [eauto | done].
    + split; [by destruct e | intros (c' & [= <-] & ?); congruence].
  - split; [by destruct e | by intros (c' & ? & _)].
Qed.



(** ** When a mapping passes [validate_curriculum] *)

Lemma key_ne_false (k : atom) (v : value) :
  CurriculumSchema.key_ne k v = false <-> k <> PNaN /\ v = Atom k.
Proof.
  destruct k, v as [|a| |]; cbn; try (split; [done | intros [? ?]; done]);
    case_bool_decide; subst; cbn;
    (split; [done || (intros _; split; done) | intros [? ?]; congruence]).
Qed.

Lemma check_course_Ok (k : atom) (cd : value) :
  CurriculumSchema.check_course (k, cd) = Ok tt <->
  k <> PNaN /\ subscript cd "code" = Ok (Atom k)
  /\ CurriculumSchema.validate_course cd = Ok tt.
Proof.
  unfold CurriculumSchema.check_course.
  destruct cd as [|a|l|d]; cbn; try (split; [done | by intros (_ & ? & _)]).
  unfold Dict.getitem.
  destruct (CurriculumSchema.key_ne k (default VNone (Dict.get d (PStr "code"))))
    eqn:Hne.
  - split; [done|]. intros (Hk & Hcode & _).
    destruct (Dict.get d (PStr "code")) as [v|]; [|done].
    injection Hcode as ->. cbn in Hne.
    assert (CurriculumSchema.key_ne k (Atom k) = false) by (by apply key_ne_false).
    congruence.
  - apply key_ne_false in Hne as [Hk Hv].
    destruct (Dict.get d (PStr "code")) as [v|]; cbn in Hv; [|done].
    subst. tauto.
Qed.

Lemma check_prerequisites_Ok (all_codes : gset atom) (cd : value) :
  CurriculumSchema.check_prerequisites all_codes cd = Ok tt <->
  exists S : gset atom,
    dict_get cd "prerequisites" (VList []) ≫= CurriculumSchema.py_set = Ok S
    /\ S ⊆ all_codes.
Proof.
  unfold CurriculumSchema.check_prerequisites.
  destruct (dict_get cd "prerequisites" (VList [])) as [p|e]; cbn;
    [|split; [done | by intros (? & ? & _)]].
  destruct (CurriculumSchema.py_set p) as [S|e]; cbn;
    [|split; [done | by intros (? & ? & _)]].
  destruct (decide (S ∖ all_codes = ∅)) as [He|Hne].
  - split; [|done]. intros _. exists S. split; [done|]. set_solver.
  - split.
    + destruct (subscript cd "code"); discriminate.
    + intros (S' & [= <-] & Hsub). destruct Hne. set_solver.
Qed.

Lemma validate_curriculum_Ok (d : Dict.t value) :
  CurriculumSchema.validate_curriculum (VDict d) = Ok tt <->
  Forall (fun item : atom * value =>
            item.1 <> PNaN
            /\ subscript item.2 "code" = Ok (Atom item.1)
            /\ CurriculumSchema.validate_course item.2 = Ok tt
            /\ exists S : gset atom,
                 dict_get item.2 "prerequisites" (VList [])
                   ≫= CurriculumSchema.py_set = Ok S
                 /\ forall p, p ∈ S -> p ∈ Dict.keys d) d.
Proof.
  unfold CurriculumSchema.validate_curriculum.
  rewrite Forall_forall. split.
  - intros H. apply bind_Ok in H as ([] & H1 & H2).
    apply for_each_Ok in H1. apply for_each_Ok in H2.
    rewrite Forall_forall in H1. rewrite Forall_forall in H2.
    intros [k cd] Hin. cbn.
    pose proof (H1 _ Hin) as Hc.
    apply check_course_Ok in Hc as (Hk & Hcode & Hv).
    assert (cd ∈ Dict.values d) as Hcd.
    { unfold Dict.values. apply list_elem_of_fmap. by exists (k, cd). }
    pose proof (H2 _ Hcd) as Hp.
    apply check_prerequisites_Ok in Hp as (S & HS & Hsub).
    repeat split; try done. exists S. split; [done|].
    intros p Hp. apply Hsub in Hp. by apply elem_of_list_to_set in Hp.
  - intros H.
    assert (for_each CurriculumSchema.check_course d = Ok tt) as ->.
    { apply for_each_Ok, Forall_forall. intros [k cd] Hin.
      destruct (H _ Hin) as (Hk & Hcode & Hv & _).
      by apply check_course_Ok. }
    cbn. apply for_each_Ok, Forall_forall. intros cd Hcd.
    unfold Dict.values in Hcd.
    apply list_elem_of_fmap in Hcd as ([k cd'] & -> & Hin).
    destruct (H _ Hin) as (_ & _ & _ & S & HS & Hsub).
    apply check_prerequisites_Ok. exists S. split; [done|].
    intros p Hp. apply elem_of_list_to_set. auto.
Qed.

(** [validate_curriculum] accepts a mapping exactly when, for every entry,
    the key is the code of the record (so no key is the missing-value
    marker, which differs from itself), the record passes
    [validate_course], and its prerequisites form a set of hashable codes
    that are all keys of the mapping. *)
Theorem validate_curriculum_iff (d : Dict.t value) :
  CurriculumSchema.validate_curriculum (VDict d) = Ok tt <->
  Forall (fun item : atom * value =>
            item.1 <> PNaN
            /\ subscript item.2 "code" = Ok (Atom item.1)
            /\ CurriculumSchema.validate_course item.2 = Ok tt
            /\ exists S : gset atom,
                 dict_get item.2 "prerequisites" (VList [])
                   ≫= CurriculumSchema.py_set = Ok S
                 /\ forall p, p ∈ S -> p ∈ Dict.keys d) d.
Proof. apply validate_curriculum_Ok. Qed.

(** ** More on dictionaries *)

Section dict_more.
Context {V : Type}.
Implicit Types (d : Dict.t V) (k : atom) (v : V).

Lemma mem_true d k : Dict.mem d k = true <-> k ∈ Dict.keys d.
Proof.
  rewrite <- get_is_Some. unfold Dict.mem.
  destruct (Dict.get d k); split; try done; by eauto.
Qed.

Lemma mem_false d k : Dict.mem d k = false <-> k ∉ Dict.keys d.
Proof. rewrite <- mem_true. by destruct (Dict.mem d k). Qed.

Lemma setitem_fresh d k v :
  k ∉ Dict.keys d -> Dict.setitem d k v = d ++ [(k, v)].
Proof.
  unfold Dict.keys. induction d as [|[k' v'] d IH]; intros Hk; [done|].
  cbn in Hk. apply not_elem_of_cons in Hk as [Hne Hk].
  cbn [Dict.setitem]. destruct (decide (k' = k)); [congruence|].
  cbn. f_equal. auto.
Qed.

Lemma delitem_fresh_app d k v :
  k ∉ Dict.keys d -> Dict.delitem (d ++ [(k, v)]) k = d.
Proof.
  unfold Dict.keys. induction d as [|[k' v'] d IH]; intros Hk.
  - cbn. by destruct (decide (k = k)).
  - cbn in Hk. apply not_elem_of_cons in Hk as [Hne Hk].
    cbn. destruct (decide (k' = k)); [congruence|]. f_equal. auto.
Qed.

Lemma get_delitem_ne d k k' :
  k <> k' -> Dict.get (Dict.delitem d k) k' = Dict.get d k'.
Proof.
  intros Hne. induction d as [|[k0 v0] d IH]; [done|].
  cbn. destruct (decide (k0 = k)) as [->|Hk0].
  - by destruct (decide (k = k')).
  - cbn. by rewrite IH.
Qed.

Lemma get_delitem_eq d k :
  NoDup (Dict.keys d) -> Dict.get (Dict.delitem d k) k = None.
Proof.
  unfold Dict.keys. induction d as [|[k0 v0] d IH]; intros Hnd; [done|].
  cbn in Hnd. apply NoDup_cons in Hnd as [Hk0 Hnd].
  cbn. destruct (decide (k0 = k)) as [->|Hne].
  - by apply get_None.
  - cbn. destruct (decide (k0 = k)); [done | auto].
Qed.

Lemma elem_of_delitem d k (x : atom * V) : x ∈ Dict.delitem d k -> x ∈ d.
Proof.
  induction d as [|[k0 v0] d IH]; [done|].
  cbn. destruct (decide (k0 = k)).
  - by right.
  - intros [->|Hx]%elem_of_cons; [left | right; auto].
Qed.

Lemma keys_delitem_ne d k k' :
  k' <> k -> k' ∈ Dict.keys d -> k' ∈ Dict.keys (Dict.delitem d k).
Proof.
  intros Hne. rewrite <- !get_is_Some. by rewrite get_delitem_ne.
Qed.

Lemma filter_ne_fresh (l : list atom) k :
  k ∉ l -> filter (fun k' => k' <> k) l = l.
Proof.
  induction l as [|k0 l IH]; intros Hk; [done|].
  apply not_elem_of_cons in Hk as [Hne Hk].
  rewrite filter_cons. destruct (decide (k0 <> k)) as [|Heq];
    [|exfalso; apply Heq; congruence].
  f_equal. auto.
Qed.

Lemma keys_delitem d k :
  NoDup (Dict.keys d) ->
  Dict.keys (Dict.delitem d k) = filter (fun k' => k' <> k) (Dict.keys d).
Proof.
  unfold Dict.keys. induction d as [|[k0 v0] d IH]; intros Hnd; [done|].
  cbn in Hnd. apply NoDup_cons in Hnd as [Hk0 Hnd].
  cbn [Dict.delitem fmap list_fmap fst]. rewrite filter_cons.
  destruct (decide (k0 = k)) as [->|Hne].
  - destruct (decide (k <> k)); [done|].
    symmetry. by apply filter_ne_fresh.
  - destruct (decide (k0 <> k)); [|done]. cbn. f_equal. auto.
Qed.

End dict_more.

(** ** What the mutations store *)

Lemma add_course_Ok (course_data : value) (data data' : Dict.t value) :
  CurriculumManager.add_course course_data data = (Ok tt, data') <->
  CurriculumSchema.validate_course course_data = Ok tt
  /\ exists key,
       subscript course_data "code" ≫= hashable = Ok key
       /\ (key ∉ Dict.keys data)
       /\ data' = data ++ [(key, course_data)].
Proof.
  unfold_manager.
  destruct (CurriculumSchema.validate_course course_data) as [[]|e];
    [|split; [done | by intros [? _]]].
  destruct (subscript course_data "code") as [code|e]; cbn;
    [|split; [done | by intros (_ & ? & ? & _)]].
  destruct (hashable code) as [key|e]; cbn;
    [|split; [done | by intros (_ & ? & ? & _)]].
  destruct (Dict.mem data key) eqn:Hm.
  - apply mem_true in Hm. split; [done|].
    intros (_ & key' & [= <-] & Hk & _). done.
  - apply mem_false in Hm. rewrite (setitem_fresh _ _ _ Hm). split.
    + intros [= <-]. split; [done|]. by exists key.
    + intros (_ & key' & [= <-] & _ & ->). done.
Qed.

Lemma update_course_Ok (course_data : value) (data data' : Dict.t value) :
  CurriculumManager.update_course course_data data = (Ok tt, data') <->
  CurriculumSchema.validate_course course_data = Ok tt
  /\ exists key,
       subscript course_data "code" ≫= hashable = Ok key
       /\ key ∈ Dict.keys data
       /\ data' = Dict.setitem data key course_data.
Proof.
  unfold_manager.
  destruct (subscript course_data "code") as [code|e]; cbn;
    [|split; [done | by intros (_ & ? & ? & _)]].
  destruct (hashable code) as [key|e]; cbn;
    [|split; [done | by intros (_ & ? & ? & _)]].
  destruct (Dict.mem data key) eqn:Hm; cbn.
  - apply mem_true in Hm.
    destruct (CurriculumSchema.validate_course course_data) as [[]|e];
      [|split; [done | by intros [? _]]].
    split.
    + intros [= <-]. split; [done|]. by exists key.
    + intros (_ & key' & [= <-] & _ & ->). done.
  - apply mem_false in Hm. split; [done|].
    intros (_ & key' & [= <-] & Hk & _). done.
Qed.

(** [add_course] succeeds exactly when the record passes [validate_course]
    and its code is hashable and not yet a key; the mapping it leaves is the
    old one followed by the new entry, so the record reads back under its
    code and every other lookup is as before. The validation comes first:
    an invalid record is refused with its validation error even when its
    code is already a key. *)
Theorem add_course_stores (course_data : value) (data : Dict.t value) :
  (forall data',
      CurriculumManager.add_course course_data data = (Ok tt, data') <->
      CurriculumSchema.validate_course course_data = Ok tt
      /\ exists key,
           subscript course_data "code" ≫= hashable = Ok key
           /\ (key ∉ Dict.keys data)
           /\ data' = data ++ [(key, course_data)])
  /\ (forall data' key,
        CurriculumManager.add_course course_data data = (Ok tt, data') ->
        subscript course_data "code" ≫= hashable = Ok key ->
        Dict.get data' key = Some course_data
        /\ (forall k, k <> key -> Dict.get data' k = Dict.get data k)
        /\ Dict.keys data' = Dict.keys data ++ [key])
  /\ (forall e,
        CurriculumSchema.validate_course course_data = Raise e ->
        CurriculumManager.add_course course_data data = (Raise e, data))
  /\ (forall code key,
        CurriculumSchema.validate_course course_data = Ok tt ->
        subscript course_data "code" = Ok code ->
        hashable code = Ok key ->
        key ∈ Dict.keys data ->
        CurriculumManager.add_course course_data data
        = (Raise (ValidationError (CourseAlreadyExists code)), data)).
Proof.
  pose proof (add_course_Ok course_data data) as Hiff.
  split; [exact Hiff|]. split; [|split].
  - intros data' key Hadd Hkey.
    apply Hiff in Hadd as (_ & key' & Hkey' & Hfresh & ->).
    rewrite Hkey in Hkey'. injection Hkey' as <-.
    rewrite <- (setitem_fresh _ _ _ Hfresh). split; [|split].
    + apply get_setitem_eq.
    + intros k Hk. by apply get_setitem_ne.
    + by apply keys_setitem_notin.
  - intros e He. unfold_manager. by rewrite He.
  - intros code key Hv Hcode Hkey Hin. unfold_manager.
    rewrite Hv, Hcode, Hkey. apply mem_true in Hin. by rewrite Hin.
Qed.

Lemma add_course_stores_witness :
  CurriculumManager.add_course course_C_no_credits [(PStr "C", course_A)]
    = (Raise (ValidationError (CourseValidationFailed CreditsMustBePositive)),
       [(PStr "C", course_A)])
  /\ CurriculumManager.add_course course_A [(PStr "A", course_A)]
     = (Raise (ValidationError (CourseAlreadyExists (Atom (PStr "A")))),
        [(PStr "A", course_A)])
  /\ Dict.get [(PStr "A", course_A); (PStr "B", course_B_needs_A)] (PStr "B")
     = Some course_B_needs_A.
Proof.
  destruct (add_course_stores course_C_no_credits [(PStr "C", course_A)])
    as (_ & _ & Hinvalid & _).
  destruct (add_course_stores course_A [(PStr "A", course_A)])
    as (_ & _ & _ & Hexists).
  destruct (add_course_stores course_B_needs_A [(PStr "A", course_A)])
    as (_ & Hget & _ & _).
  split; [|split].
  - apply Hinvalid. reflexivity.
  - apply (Hexists (Atom (PStr "A")) (PStr "A")); try reflexivity.
    by vm_compute; left.
  - apply (Hget _ (PStr "B")); reflexivity.
Defined.

(** [update_course] succeeds exactly when the code of the record is
    hashable and a key, and the record passes [validate_course]; the entry
    is replaced in place: the keys and their order stay, the record reads
    back under its code and every other lookup is as before. The key is
    looked up first: for a code that is not a key the error is the missing
    course, whether the record is valid or not. *)
Theorem update_course_stores (course_data : value) (data : Dict.t value) :
  (forall data',
      CurriculumManager.update_course course_data data = (Ok tt, data') <->
      CurriculumSchema.validate_course course_data = Ok tt
      /\ exists key,
           subscript course_data "code" ≫= hashable = Ok key
           /\ key ∈ Dict.keys data
           /\ data' = Dict.setitem data key course_data)
  /\ (forall data' key,
        CurriculumManager.update_course course_data data = (Ok tt, data') ->
        subscript course_data "code" ≫= hashable = Ok key ->
        Dict.get data' key = Some course_data
        /\ (forall k, k <> key -> Dict.get data' k = Dict.get data k)
        /\ Dict.keys data' = Dict.keys data)
  /\ (forall code key,
        subscript course_data "code" = Ok code ->
        hashable code = Ok key ->
        key ∉ Dict.keys data ->
        CurriculumManager.update_course course_data data
        = (Raise (ValidationError (CourseDoesNotExist code)), data))
  /\ (forall code key e,
        subscript course_data "code" = Ok code ->
        hashable code = Ok key ->
        key ∈ Dict.keys data ->
        CurriculumSchema.validate_course course_data = Raise e ->
        CurriculumManager.update_course course_data data = (Raise e, data)).
Proof.
  pose proof (update_course_Ok course_data data) as Hiff.
  split; [exact Hiff|]. split; [|split].
  - intros data' key Hupd Hkey.
    apply Hiff in Hupd as (_ & key' & Hkey' & Hin & ->).
    rewrite Hkey in Hkey'. injection Hkey' as <-. split; [|split].
    + apply get_setitem_eq.
    + intros k Hk. by apply get_setitem_ne.
    + by apply keys_setitem_in.
  - intros code key Hcode Hkey Hnin. unfold_manager.
    rewrite Hcode, Hkey. apply mem_false in Hnin. by rewrite Hnin.
  - intros code key e Hcode Hkey Hin He. unfold_manager.
    rewrite Hcode, Hkey. apply mem_true in Hin. rewrite Hin. cbn.
    by rewrite He.
Qed.

Lemma update_course_stores_witness :
  CurriculumManager.update_course course_C_no_credits [(PStr "A", course_A)]
    = (Raise (ValidationError (CourseDoesNotExist (Atom (PStr "C")))),
       [(PStr "A", course_A)])
  /\ CurriculumManager.update_course course_C_no_credits
       [(PStr "C", course_A)]
     = (Raise (ValidationError (CourseValidationFailed CreditsMustBePositive)),
        [(PStr "C", course_A)])
  /\ Dict.keys (Dict.setitem protected_curriculum (PStr "A") course_A_needs_A)
     = Dict.keys protected_curriculum.
Proof.
  destruct (update_course_stores course_C_no_credits [(PStr "A", course_A)])
    as (_ & _ & Habsent & _).
  destruct (update_course_stores course_C_no_credits [(PStr "C", course_A)])
    as (_ & _ & _ & Hinvalid).
  destruct (update_course_stores course_A_needs_A protected_curriculum)
    as (_ & Hget & _ & _).
  split; [|split].
  - apply (Habsent (Atom (PStr "C")) (PStr "C")); try reflexivity.
    by apply get_None.
  - apply (Hinvalid (Atom (PStr "C")) (PStr "C")); try reflexivity.
    by vm_compute; left.
  - apply (Hget _ (PStr "A")); reflexivity.
Defined.

(** A [remove_course] that succeeds on a mapping without repeated keys
    deletes exactly the entry of the code: the code is no longer a key, the
    other keys keep their order and every other lookup is as before. *)
Theorem remove_course_deletes (course_code : string)
    (data data' : Dict.t value) :
  NoDup (Dict.keys data) ->
  CurriculumManager.remove_course course_code data = (Ok tt, data') ->
  PStr course_code ∈ Dict.keys data
  /\ Dict.get data' (PStr course_code) = None
  /\ (forall k, k <> PStr course_code -> Dict.get data' k = Dict.get data k)
  /\ Dict.keys data'
     = filter (fun k => k <> PStr course_code) (Dict.keys data)
  /\ S (length data') = length data.
Proof.
  intros Hnd. unfold_manager.
  destruct (Dict.mem data (PStr course_code)) eqn:Hm; [|discriminate].
  cbn [negb].
  destruct (for_each _ _) as [[]|e]; [|discriminate].
  intros [= <-]. apply mem_true in Hm.
  split; [done|]. split; [by apply get_delitem_eq|].
  split; [intros k Hk; by apply get_delitem_ne|].
  split; [by apply keys_delitem|].
  clear Hnd. unfold Dict.keys in Hm.
  induction data as [|[k v] data IH]; [by apply elem_of_nil in Hm|].
  cbn. destruct (decide (k = PStr course_code)) as [->|Hne]; [done|].
  cbn. f_equal. apply IH. cbn in Hm.
  apply elem_of_cons in Hm as [?|?]; [congruence | done].
Qed.

Lemma remove_course_deletes_witness :
  PStr "B" ∈ Dict.keys protected_curriculum
  /\ Dict.get [(PStr "A", course_A)] (PStr "B") = None
  /\ (forall k, k <> PStr "B" ->
        Dict.get [(PStr "A", course_A)] k = Dict.get protected_curriculum k)
  /\ Dict.keys [(PStr "A", course_A)]
     = filter (fun k => k <> PStr "B") (Dict.keys protected_curriculum)
  /\ 2 = length protected_curriculum.
Proof.
  apply (remove_course_deletes "B" protected_curriculum).
  - unfold Dict.keys. cbn. apply NoDup_cons. split.
    + by intros [= ]%list_elem_of_singleton.
    + apply NoDup_singleton.
  - reflexivity.
Defined.

(** ** The mutations and [validate_curriculum] *)

Lemma chars_substring (code s : string) :
  Atom (PStr code) ∈ chars s -> substringb code s = true.
Proof.
  induction s as [|c s IH]; cbn; intros Hin.
  - by apply elem_of_nil in Hin.
  - apply elem_of_cons in Hin as [[= ->]|Hin].
    + cbn. destruct (ascii_dec c c); [|done]. by destruct s.
    + rewrite (IH Hin). apply orb_true_r.
Qed.

Lemma existsb_code (code : string) (atoms : list atom) :
  PStr code ∈ atoms ->
  existsb (fun item => match item with
                       | Atom (PStr s) => String.eqb s code
                       | _ => false
                       end) (Atom <$> atoms) = true.
Proof.
  induction atoms as [|a atoms IH]; intros Hin.
  - by apply elem_of_nil in Hin.
  - cbn. apply elem_of_cons in Hin as [<-|Hin].
    + by rewrite String.eqb_refl.
    + rewrite (IH Hin). apply orb_true_r.
Qed.

Lemma fmap_Atom_inj (l1 l2 : list atom) :
  Atom <$> l1 = Atom <$> l2 -> l1 = l2.
Proof.
  revert l2. induction l1 as [|a l1 IH]; intros [|b l2]; cbn; try done.
  intros [= -> H]. f_equal. auto.
Qed.

(** A code that [in] does not find in the prerequisites of a record is not
    a member of their set. *)
Lemma not_contained_not_in_set (prerequisites : value) (code : string)
    (S : gset atom) :
  py_contains prerequisites code = Ok false ->
  CurriculumSchema.py_set prerequisites = Ok S ->
  PStr code ∉ S.
Proof.
  unfold CurriculumSchema.py_set. intros Hc HS.
  apply bind_Ok in HS as (items & Hitems & HS).
  apply bind_Ok in HS as (atoms & Hatoms & [= <-]).
  apply comprehension_hashable in Hatoms. subst items.
  rewrite elem_of_list_to_set. intros Hin.
  destruct prerequisites as [|[z|s|]|l|d]; try discriminate;
    cbn in Hitems, Hc; injection Hitems as Hitems; injection Hc as Hc.
  - rewrite chars_substring in Hc; [done|]. rewrite Hitems.
    apply list_elem_of_fmap. by exists (PStr code).
  - rewrite Hitems, existsb_code in Hc; done.
  - apply fmap_Atom_inj in Hitems. subst atoms.
    apply mem_false in Hc. done.
Qed.

(** [remove_course] keeps a valid mapping valid: it refuses to delete a
    code that some record lists, so what it leaves has no dangling
    prerequisite. *)
Theorem remove_course_keeps_valid (course_code : string)
    (data data' : Dict.t value) :
  CurriculumSchema.validate_curriculum (VDict data) = Ok tt ->
  CurriculumManager.remove_course course_code data = (Ok tt, data') ->
  CurriculumSchema.validate_curriculum (VDict data') = Ok tt.
Proof.
  rewrite !validate_curriculum_Ok, !Forall_forall. intros Hvalid.
  unfold_manager.
  destruct (Dict.mem data (PStr course_code)) eqn:Hm; [|discriminate].
  cbn [negb].
  destruct (for_each _ _) as [[]|e] eqn:Hloop; [|discriminate].
  intros [= <-]. intros [k cd] Hin. apply elem_of_delitem in Hin.
  destruct (Hvalid _ Hin) as (Hk & Hcode & Hv & S & HS & Hsub).
  repeat split; try done. exists S. split; [done|].
  intros p Hp. apply keys_delitem_ne; [|auto].
  intros ->.
  apply for_each_Ok in Hloop. rewrite Forall_forall in Hloop.
  assert (cd ∈ Dict.values data) as Hcd.
  { unfold Dict.values. apply list_elem_of_fmap. by exists (k, cd). }
  specialize (Hloop _ Hcd). cbn in HS.
  unfold CurriculumManager.check_not_prerequisite in Hloop.
  destruct (dict_get cd "prerequisites" (VList [])) as [prereqs|]; [|done].
  cbn in HS, Hloop.
  destruct (py_contains prereqs course_code) as [[]|] eqn:Hc; cbn in Hloop.
  - destruct (subscript cd "code"); discriminate.
  - by apply (not_contained_not_in_set _ _ _ Hc HS).
  - discriminate.
Qed.

Lemma remove_course_keeps_valid_witness :
  CurriculumSchema.validate_curriculum (VDict [(PStr "A", course_A)]) = Ok tt.
Proof.
  apply (remove_course_keeps_valid "B" protected_curriculum); reflexivity.
Defined.

(** [add_course] and [update_course] look at the new record alone. After
    one of them has succeeded on a valid mapping, the mapping is valid
    exactly when the code of the new record is not the missing-value marker
    and its prerequisites are keys of the mapping as it now is. *)
Theorem store_keeps_valid_iff (m : CurriculumManager.mutation)
    (course_data : value) (data data' : Dict.t value) :
  m = CurriculumManager.AddCourse course_data
    \/ m = CurriculumManager.UpdateCourse course_data ->
  CurriculumSchema.validate_curriculum (VDict data) = Ok tt ->
  CurriculumManager.run m data = (Ok tt, data') ->
  CurriculumSchema.validate_curriculum (VDict data') = Ok tt <->
  exists (key : atom) (S : gset atom),
    subscript course_data "code" = Ok (Atom key)
    /\ key <> PNaN
    /\ dict_get course_data "prerequisites" (VList [])
         ≫= CurriculumSchema.py_set = Ok S
    /\ forall p, p ∈ S -> p ∈ Dict.keys data'.
Proof.
  intros Hm Hvalid Hrun.
  assert (exists key,
             subscript course_data "code" ≫= hashable = Ok key
             /\ CurriculumSchema.validate_course course_data = Ok tt
             /\ data' = Dict.setitem data key course_data)
    as (key & Hkey & Hv & ->).
  { destruct Hm as [-> | ->]; cbn in Hrun.
    - apply add_course_Ok in Hrun as (Hv & key & Hkey & Hfresh & ->).
      exists key. by rewrite setitem_fresh.
    - apply update_course_Ok in Hrun as (Hv & key & Hkey & _ & ->).
      by exists key. }
  apply bind_Ok in Hkey as (code & Hcode & Hkey).
  destruct code as [|key'| |]; try discriminate. injection Hkey as ->.
  assert (Hkeys : forall p, p ∈ Dict.keys data ->
                            p ∈ Dict.keys (Dict.setitem data key course_data)).
  { intros p. rewrite <- !get_is_Some. destruct (decide (key = p)) as [->|Hne].
    - rewrite get_setitem_eq. eauto.
    - by rewrite get_setitem_ne. }
  rewrite validate_curriculum_Ok in Hvalid.
  rewrite validate_curriculum_Ok, !Forall_forall.
  rewrite Forall_forall in Hvalid. split.
  - intros H.
    destruct (H (key, course_data)) as (Hk & _ & _ & S & HS & Hsub).
    { apply get_elem_of, get_setitem_eq. }
    exists key, S. done.
  - intros (key' & S & Hcode' & Hk & HS & Hsub) [k cd] Hin.
    rewrite Hcode in Hcode'. injection Hcode' as <-.
    apply elem_of_setitem in Hin as [Hin | [-> ->]].
    + destruct (Hvalid _ Hin) as (? & ? & ? & S' & ? & Hsub').
      repeat split; try done. exists S'. split; [done | auto].
    + repeat split; try done. by exists S.
Qed.

Lemma store_keeps_valid_iff_witness :
  CurriculumSchema.validate_curriculum
    (VDict [(PStr "A", course_A); (PStr "B", course_B_needs_A)]) = Ok tt.
Proof.
  apply (store_keeps_valid_iff (CurriculumManager.AddCourse course_B_needs_A)
           course_B_needs_A [(PStr "A", course_A)]).
  - by left.
  - reflexivity.
  - reflexivity.
  - exists (PStr "B"), (list_to_set [PStr "A"]). split; [reflexivity|].
    split; [discriminate|]. split; [reflexivity|].
    intros p Hp. apply elem_of_list_to_set in Hp.
    apply list_elem_of_singleton in Hp as ->. by apply get_is_Some.
Defined.

(** Adding a course and removing it again gives the mapping back: the new
    entry went last, and [remove_course] takes out the first entry of the
    code, which is that one since the code was not a key before. *)
Theorem add_then_remove (course_data : value) (course_code : string)
    (data data1 data2 : Dict.t value) :
  CurriculumManager.add_course course_data data = (Ok tt, data1) ->
  subscript course_data "code" = Ok (Atom (PStr course_code)) ->
  CurriculumManager.remove_course course_code data1 = (Ok tt, data2) ->
  data2 = data.
Proof.
  intros Hadd Hcode Hrem.
  apply add_course_Ok in Hadd as (_ & key & Hkey & Hfresh & ->).
  rewrite Hcode in Hkey. injection Hkey as <-.
  unfold_manager.
  destruct (Dict.mem _ _); [|discriminate]. cbn [negb] in Hrem.
  destruct (for_each _ _) as [[]|e]; [|discriminate].
  injection Hrem as <-. by apply delitem_fresh_app.
Qed.

Lemma add_then_remove_witness :
  CurriculumManager.add_course course_B_needs_A [(PStr "A", course_A)]
    = (Ok tt, protected_curriculum)
  /\ CurriculumManager.remove_course "B" protected_curriculum
     = (Ok tt, [(PStr "A", course_A)])
  /\ [(PStr "A", course_A)] = [(PStr "A", course_A)].
Proof.
  split; [reflexivity|]. split; [reflexivity|].
  apply (add_then_remove course_B_needs_A "B" [(PStr "A", course_A)]
           protected_curriculum); reflexivity.
Defined.

(** ** The records the manager holds, and its queries *)

Lemma init_Ok (curriculum_data : value) (data : Dict.t value) :
  CurriculumManager.init curriculum_data = Ok data ->
  curriculum_data = VDict data
  /\ CurriculumSchema.validate_curriculum (VDict data) = Ok tt.
Proof.
  unfold CurriculumManager.init. intros H.
  apply bind_Ok in H as ([] & Hv & H).
  destruct curriculum_data; try discriminate. injection H as ->. done.
Qed.

Lemma mutation_keeps_all_valid (m : CurriculumManager.mutation)
    (data data' : Dict.t value) :
  all_courses_valid data ->
  CurriculumManager.run m data = (Ok tt, data') ->
  all_courses_valid data'.
Proof.
  unfold all_courses_valid. intros Hinv. destruct m; cbn; intros H.
  - apply add_course_Ok in H as (Hv & key & _ & _ & ->).
    apply Forall_app. split; [done|]. by constructor.
  - apply update_course_Ok in H as (Hv & key & _ & _ & ->).
    by apply Forall_setitem.
  - unfold_manager. repeat case_match; simplify_eq. by apply Forall_delitem.
Qed.

(** The constructor keeps a mapping only when it passes
    [validate_curriculum], and then every record passes [validate_course]
    and stands under its code; every mutation that succeeds keeps both, so
    at any time each record of a manager is a valid course of the schema,
    whatever has become of the prerequisites. *)
Theorem manager_records_valid :
  (forall curriculum_data data,
      CurriculumManager.init curriculum_data = Ok data ->
      curriculum_data = VDict data
      /\ all_courses_valid data /\ keys_match_codes data)
  /\ (forall m data data',
        all_courses_valid data ->
        CurriculumManager.run m data = (Ok tt, data') ->
        all_courses_valid data').
Proof.
  split; [|exact mutation_keeps_all_valid].
  intros cd data H. apply init_Ok in H as [-> H]. split; [done|].
  apply validate_curriculum_Ok in H.
  unfold all_courses_valid, keys_match_codes.
  split; (eapply Forall_impl; [exact H|]); by intros [k v] (? & ? & ? & _).
Qed.

Lemma manager_records_valid_witness :
  all_courses_valid protected_curriculum
  /\ all_courses_valid
       [(PStr "A", course_A); (PStr "B", course_B_needs_A);
        (PStr "A2", CurriculumSchema.course_dict "A2" "Course A2" "selective"
                      [valid_semester] ["Z"])].
Proof.
  destruct manager_records_valid as [Hinit Hrun].
  destruct (Hinit (VDict protected_curriculum) protected_curriculum eq_refl)
    as (_ & Hvalid & _).
  split; [exact Hvalid|].
  apply (Hrun (CurriculumManager.AddCourse
                 (CurriculumSchema.course_dict "A2" "Course A2" "selective"
                    [valid_semester] ["Z"]))
           protected_curriculum _ Hvalid).
  reflexivity.
Defined.

Lemma filter_result_spec {A} (keep : A -> result bool) (P : A -> Prop)
    (l : list A) :
  Forall (fun x => (keep x = Ok true /\ P x) \/ (keep x = Ok false /\ ~ P x)) l ->
  exists r,
    CurriculumManager.filter_result keep l = Ok r
    /\ r `sublist_of` l
    /\ forall x, x ∈ r <-> x ∈ l /\ P x.
Proof.
  induction 1 as [|x l Hx _ (r & Hr & Hsub & Hin)]; cbn.
  - exists []. split; [done|]. split; [done|].
    intros x. split; [by intros ?%elem_of_nil | by intros [?%elem_of_nil _]].
  - rewrite Hr. destruct Hx as [[-> HP]|[-> HP]]; cbn.
    + exists (x :: r). split; [done|]. split; [by constructor|].
      intros y. rewrite !elem_of_cons, Hin. naive_solver.
    + exists r. split; [done|]. split; [by constructor|].
      intros y. rewrite elem_of_cons, Hin. naive_solver.
Qed.

Lemma filter_result_partition {A} (keep1 keep2 : A -> result bool)
    (l : list A) :
  Forall (fun x => (keep1 x = Ok true /\ keep2 x = Ok false)
                   \/ (keep1 x = Ok false /\ keep2 x = Ok true)) l ->
  exists r1 r2,
    CurriculumManager.filter_result keep1 l = Ok r1
    /\ CurriculumManager.filter_result keep2 l = Ok r2
    /\ l ≡ₚ r1 ++ r2.
Proof.
  induction 1 as [|x l Hx _ (r1 & r2 & H1 & H2 & Hp)]; cbn.
  - by exists [], [].
  - rewrite H1, H2. destruct Hx as [[-> ->]|[-> ->]]; cbn.
    + exists (x :: r1), r2. split; [done|]. split; [done|].
      cbn. by constructor.
    + exists r1, (x :: r2). split; [done|]. split; [done|].
      rewrite Hp. apply Permutation_middle.
Qed.

Lemma valid_course_type (cd : value) :
  CurriculumSchema.validate_course cd = Ok tt ->
  subscript cd "type" = Ok (Atom (PStr "mandatory"))
  \/ subscript cd "type" = Ok (Atom (PStr "selective")).
Proof.
  intros H. apply validate_course_Ok in H as (c & Hc & _).
  unfold CourseData.from_dict in Hc.
  apply bind_Ok in Hc as (code & _ & Hc).
  apply bind_Ok in Hc as (name & _ & Hc).
  apply bind_Ok in Hc as (t & Ht & _).
  apply bind_Ok in Ht as (v & Hv & Ht). rewrite Hv.
  unfold CourseData.CourseType_of_value in Ht.
  repeat (match type of Ht with
          | context [match ?x with _ => _ end] => destruct x
          end; try discriminate); auto.
Qed.

(** On the records of a manager [get_courses_by_type] never raises. It
    returns, in mapping order, exactly the records whose type is the one
    asked for; the mandatory and the selective courses together are all the
    courses, each once, and any other type gives the empty list. *)
Theorem courses_by_type_partition (data : Dict.t value) :
  all_courses_valid data ->
  (forall course_type, exists r,
      CurriculumManager.get_courses_by_type course_type data = Ok r
      /\ r `sublist_of` Dict.values data
      /\ forall cd, cd ∈ r <->
                    cd ∈ Dict.values data
                    /\ subscript cd "type" = Ok (Atom (PStr course_type)))
  /\ (exists mandatory selective,
        CurriculumManager.get_courses_by_type "mandatory" data = Ok mandatory
        /\ CurriculumManager.get_courses_by_type "selective" data
           = Ok selective
        /\ Dict.values data ≡ₚ mandatory ++ selective)
  /\ (forall course_type,
        course_type <> "mandatory" -> course_type <> "selective" ->
        CurriculumManager.get_courses_by_type course_type data = Ok []).
Proof.
  unfold all_courses_valid, CurriculumManager.get_courses_by_type, Dict.values.
  intros Hvalid.
  assert (Htypes : Forall
            (fun cd => subscript cd "type" = Ok (Atom (PStr "mandatory"))
                       \/ subscript cd "type" = Ok (Atom (PStr "selective")))
            (data.*2)).
  { apply Forall_fmap. eapply Forall_impl; [exact Hvalid|].
    intros [k cd] H. by apply valid_course_type. }
  clear Hvalid. split; [|split].
  - intros t. apply filter_result_spec.
    eapply Forall_impl; [exact Htypes|]. intros cd [H|H]; rewrite H; cbn -[String.eqb].
    + destruct (String.eqb_spec "mandatory" t) as [<-|Hne]; [by left|].
      right. split; [done|]. congruence.
    + destruct (String.eqb_spec "selective" t) as [<-|Hne]; [by left|].
      right. split; [done|]. congruence.
  - apply filter_result_partition.
    eapply Forall_impl; [exact Htypes|]. intros cd [H|H]; rewrite H; cbn; auto.
  - intros t Hm Hs.
    destruct (filter_result_spec
                (fun course =>
                   type ← subscript course "type";
                   Ok match type with
                      | Atom (PStr s) => String.eqb s t
                      | _ => false
                      end)
                (fun _ => False) (data.*2)) as (r & -> & _ & Hin).
    + eapply Forall_impl; [exact Htypes|].
      intros cd [H|H]; rewrite H; cbn -[String.eqb]; right; (split; [|tauto]).
      * destruct (String.eqb_spec "mandatory" t); [congruence | done].
      * destruct (String.eqb_spec "selective" t); [congruence | done].
    + f_equal. destruct r as [|x r]; [done|].
      destruct (proj1 (Hin x)) as [_ []]. apply elem_of_cons. by left.
Qed.

Lemma courses_by_type_partition_witness :
  exists mandatory selective,
    CurriculumManager.get_courses_by_type "mandatory" protected_curriculum
      = Ok mandatory
    /\ CurriculumManager.get_courses_by_type "selective" protected_curriculum
       = Ok selective
    /\ Dict.values protected_curriculum ≡ₚ mandatory ++ selective.
Proof.
  destruct (courses_by_type_partition protected_curriculum) as (_ & H & _).
  - repeat constructor.
  - exact H.
Defined.

Lemma semester_from_dict_number (sem : value) (s : SemesterData.t) :
  SemesterData.from_dict sem = Ok s ->
  subscript sem "semester" = Ok (Atom (PInt (SemesterData.semester s))).
Proof.
  unfold SemesterData.from_dict. intros H.
  apply bind_Ok in H as (number & Hn & H). rewrite Hn.
  apply bind_Ok in H as (credits & _ & H).
  apply bind_Ok in H as (hours & _ & H).
  apply bind_Ok in H as (z & Hz & H).
  apply bind_Ok in H as (c & _ & [= <-]).
  destruct number as [|[]| |]; try discriminate. by injection Hz as ->.
Qed.

Lemma any_semester_spec (n : Z) (sems : list value)
    (ss : list SemesterData.t) :
  comprehension SemesterData.from_dict sems = Ok ss ->
  CurriculumManager.any_semester n sems
  = Ok (bool_decide (n ∈ SemesterData.semester <$> ss)).
Proof.
  revert ss. induction sems as [|sem sems IH]; cbn; intros ss H.
  - by injection H as <-.
  - apply bind_Ok in H as (s & Hs & H).
    apply bind_Ok in H as (ss' & Hss & [= <-]).
    rewrite (semester_from_dict_number _ _ Hs). cbn.
    rewrite (IH _ Hss).
    destruct (Z.eqb_spec (SemesterData.semester s) n) as [<-|Hne].
    + f_equal. symmetry. apply bool_decide_eq_true. left.
    + f_equal. apply bool_decide_ext. rewrite elem_of_cons. naive_solver.
Qed.

Lemma from_dict_semesters (cd : value) (c : CourseData.t) :
  CourseData.from_dict cd = Ok c ->
  exists sems,
    subscript cd "semesters" ≫= py_iter = Ok sems
    /\ comprehension SemesterData.from_dict sems = Ok (CourseData.semesters c).
Proof.
  unfold CourseData.from_dict. intros H.
  apply bind_Ok in H as (code & _ & H).
  apply bind_Ok in H as (name & _ & H).
  apply bind_Ok in H as (t & _ & H).
  apply bind_Ok in H as (sems & Hsems & H).
  apply bind_Ok in H as (ss & Hss & H).
  apply bind_Ok in H as (p & _ & [= <-]).
  by exists sems.
Qed.

(** On the records of a manager [get_courses_by_semester] never raises. It
    returns, in mapping order and each once, exactly the records that have a
    semester with the number asked for. *)
Theorem courses_by_semester_spec (semester : Z) (data : Dict.t value) :
  all_courses_valid data ->
  exists r,
    CurriculumManager.get_courses_by_semester semester data = Ok r
    /\ r `sublist_of` Dict.values data
    /\ forall cd,
         cd ∈ r <->
         cd ∈ Dict.values data
         /\ exists c,
              CourseData.from_dict cd = Ok c
              /\ semester ∈ SemesterData.semester <$> CourseData.semesters c.
Proof.
  unfold all_courses_valid, CurriculumManager.get_courses_by_semester,
    Dict.values.
  intros Hvalid. apply filter_result_spec.
  apply Forall_fmap. eapply Forall_impl; [exact Hvalid|].
  intros [k cd] H. cbn in H |- *.
  apply validate_course_Ok in H as (c & Hc & _).
  destruct (from_dict_semesters _ _ Hc) as (sems & Hsems & Hss).
  rewrite Hsems. cbn. rewrite (any_semester_spec _ _ _ Hss).
  case_bool_decide as Hin.
  - left. split; [done|]. by exists c.
  - right. split; [done|]. intros (c' & Hc' & Hin').
    rewrite Hc in Hc'. by injection Hc' as <-.
Qed.

Lemma courses_by_semester_spec_witness :
  exists r,
    CurriculumManager.get_courses_by_semester 1 protected_curriculum = Ok r
    /\ r `sublist_of` Dict.values protected_curriculum.
Proof.
  destruct (courses_by_semester_spec 1 protected_curriculum)
    as (r & Hr & Hsub & _).
  - repeat constructor.
  - by exists r.
Defined.

(** ** The prerequisite tree of any mapping *)

Lemma build_prereqs_Forall (Q : atom * tree -> Prop)
    (recurse : value -> fueled (option tree)) (ps : list value) :
  (forall p t key,
      recurse p = Done (Ok (Some t)) -> hashable p = Ok key -> Q (key, t)) ->
  forall acc kids : Dict.t tree,
    Forall Q acc ->
    CurriculumManager.build_prereqs recurse ps acc = Done (Ok kids) ->
    Forall Q kids.
Proof.
  intros Hrec. induction ps as [|p ps IH]; cbn; intros acc kids Hacc H.
  - by injection H as <-.
  - destruct (recurse p) as [[[t|]|e]|] eqn:Hp; try discriminate.
    + destruct (hashable p) as [key|e] eqn:Hkey; [|discriminate].
      apply (IH (Dict.setitem acc key t)); [|done].
      apply Forall_setitem; [done|]. by apply (Hrec p).
    + by apply (IH acc).
Qed.

Lemma deepest_le (n : nat) (l : list (atom * tree)) :
  Forall (fun item : atom * tree => tree_depth item.2 <= n) l ->
  (fix deepest (l : list (atom * tree)) : nat :=
     match l with
     | [] => 0
     | (_, t') :: l' => Nat.max (tree_depth t') (deepest l')
     end) l <= n.
Proof.
  induction 1 as [|[k t] l Ht _ IH]; [lia|]. cbn in Ht. lia.
Qed.

Lemma build_tree_acyclic (data : Dict.t value) (fuel : nat) :
  forall (code : value) (visited : gset atom) (t : tree),
    CurriculumManager.build_tree fuel data code visited = Done (Ok (Some t)) ->
    hashable code = Ok (tree_code t)
    /\ acyclic_tree data visited t
    /\ tree_depth t <= size ((list_to_set (Dict.keys data) : gset atom) ∖ visited).
Proof.
  induction fuel as [|fuel IH]; intros code visited t H; [discriminate|].
  cbn [CurriculumManager.build_tree] in H.
  unfold CurriculumManager.build_node in H.
  destruct (hashable code) as [key|e] eqn:Hkey; [|discriminate].
  destruct (decide (key ∈ visited)) as [|Hfresh]; [discriminate|].
  destruct (Dict.getitem data key) as [course|e] eqn:Hget; [|discriminate].
  cbn in H.
  destruct (dict_get course "prerequisites" (VList []) ≫= py_iter)
    as [prereq_codes|e]; [|discriminate].
  cbn in H.
  destruct (CurriculumManager.build_prereqs _ prereq_codes [])
    as [[prereqs|e]|] eqn:Hloop; try discriminate.
  destruct (subscript course "name") as [name|e]; [|discriminate].
  injection H as <-. cbn [tree_code].
  assert (Hin : key ∈ Dict.keys data).
  { apply get_is_Some. unfold Dict.getitem in Hget.
    destruct (Dict.get data key); [eauto | discriminate]. }
  pose (K := (list_to_set (Dict.keys data) : gset atom)).
  assert (Hkids : Forall
            (fun item : atom * tree =>
               item.1 = tree_code item.2
               /\ acyclic_tree data (visited ∪ {[key]}) item.2
               /\ tree_depth item.2 <= size (K ∖ (visited ∪ {[key]})))
            prereqs).
  { eapply build_prereqs_Forall; [|constructor|exact Hloop].
    intros p t k Hp Hk. cbn in Hp. apply IH in Hp as (Hc & Ha & Hd).
    rewrite Hk in Hc. injection Hc as ->. done. }
  assert (Hlt : size (K ∖ (visited ∪ {[key]})) < size (K ∖ visited)).
  { apply subset_size. apply strict_spec_alt. split; [set_solver|].
    intros Heq. assert (key ∈ K ∖ visited) as Hk.
    { apply elem_of_difference. split; [|done].
      by apply elem_of_list_to_set. }
    rewrite <- Heq in Hk. set_solver. }
  split; [done|]. split.
  - constructor; try done.
    + eapply Forall_impl; [exact Hkids|]. by intros ? (? & _).
    + eapply Forall_impl; [exact Hkids|]. by intros ? (_ & ? & _).
  - cbn [tree_depth].
    assert ((fix deepest (l : list (atom * tree)) : nat :=
               match l with
               | [] => 0
               | (_, t') :: l' => Nat.max (tree_depth t') (deepest l')
               end) prereqs <= size (K ∖ (visited ∪ {[key]}))) as Hd.
    { apply deepest_le. eapply Forall_impl; [exact Hkids|].
      by intros ? (_ & _ & ?). }
    fold K. lia.
Qed.

(** Whatever the mapping, valid or not, a tree that
    [get_prerequisites_tree] returns is the tree of the code asked for, has
    only courses of the mapping as nodes, each standing under its own code,
    and passes through no code twice on any branch; so no branch is longer
    than the mapping has keys. *)
Theorem prerequisite_tree_acyclic (course_code : string)
    (data : Dict.t value) (t : tree) :
  CurriculumManager.get_prerequisites_tree course_code data
    = Done (Ok (Some t)) ->
  tree_code t = PStr course_code
  /\ acyclic_tree data ∅ t
  /\ tree_depth t <= length data.
Proof.
  unfold CurriculumManager.get_prerequisites_tree.
  destruct (Dict.mem data (PStr course_code)); [|discriminate]. cbn [negb].
  intros H. apply build_tree_acyclic in H as (Hc & Ha & Hd).
  injection Hc as <-. split; [done|]. split; [done|].
  rewrite difference_empty_L in Hd.
  pose proof (size_list_to_set_le (Dict.keys data)) as Hs.
  unfold Dict.keys in Hs at 2. rewrite length_fmap in Hs. lia.
Qed.

Lemma prerequisite_tree_acyclic_witness :
  tree_code cyclic_tree = PStr "A"
  /\ acyclic_tree cyclic_curriculum ∅ cyclic_tree
  /\ tree_depth cyclic_tree <= length cyclic_curriculum.
Proof.
  apply (prerequisite_tree_acyclic "A" cyclic_curriculum cyclic_tree).
  vm_compute. reflexivity.
Defined.

(** ** models.py: what [Curriculum.clean] accepts *)

Lemma validate_course_structure_false (course_data : value) :
  Curriculum.validate_course_structure course_data = false.
Proof.
  unfold Curriculum.validate_course_structure, Curriculum.required_fields.
  destruct course_data as [|a|l|d]; try reflexivity.
  cbn. destruct (Dict.get d (PStr "code")) as [x|]; [|reflexivity].
  by destruct x.
Qed.

Lemma credit_rules_checked (self : Curriculum.t) :
  credit_rules self <->
  (String.eqb (Curriculum.degree_type self) Curriculum.BACHELORS
   && (Curriculum.total_credits self <? 120)%Z = false)
  /\ (String.eqb (Curriculum.degree_type self) Curriculum.MASTERS
      && (Curriculum.total_credits self <? 30)%Z = false).
Proof.
  unfold credit_rules.
  destruct (String.eqb_spec (Curriculum.degree_type self) Curriculum.BACHELORS);
    destruct (String.eqb_spec (Curriculum.degree_type self) Curriculum.MASTERS);
    destruct (Z.ltb_spec (Curriculum.total_credits self) 120);
    destruct (Z.ltb_spec (Curriculum.total_credits self) 30);
    cbn; intuition (try discriminate; lia).
Qed.

(** [validate_course_structure] compares each field with [type(str)] or
    [type(int)], which is the class of classes: it returns [False] for
    every payload. So [Curriculum.clean] accepts a curriculum exactly when
    the credit rule of its degree holds and it has no course at all; with
    the credit rules met, any first course is refused as an invalid
    structure, and the check of the hours is never reached. For the same
    reason [Curriculum.update_course] refuses every course before it
    touches the mapping. *)
Theorem curriculum_clean_accepts_no_course (self : Curriculum.t) :
  (forall course_data,
      Curriculum.validate_course_structure course_data = false)
  /\ (Curriculum.clean self = inr tt <->
      credit_rules self /\ Curriculum.courses_data self = VDict [])
  /\ (forall course_code course_data rest,
        credit_rules self ->
        Curriculum.courses_data self
        = VDict ((course_code, course_data) :: rest) ->
        Curriculum.clean self = inl (InvalidCourseStructure course_code))
  /\ (forall course_code total expected,
        Curriculum.clean self
        <> inl (CourseHoursMismatch course_code total expected))
  /\ (forall A course_code course_data (continue : unit -> clean_error + A),
        Curriculum.update_course course_code course_data continue
        = inl (InvalidCourseStructure course_code)).
Proof.
  split; [exact validate_course_structure_false|].
  cut ((Curriculum.clean self = inr tt <->
        credit_rules self /\ Curriculum.courses_data self = VDict [])
       /\ (forall course_code course_data rest,
             credit_rules self ->
             Curriculum.courses_data self
             = VDict ((course_code, course_data) :: rest) ->
             Curriculum.clean self = inl (InvalidCourseStructure course_code))
       /\ (forall course_code total expected,
             Curriculum.clean self
             <> inl (CourseHoursMismatch course_code total expected))).
  { intros (H1 & H2 & H3). split; [done|]. split; [done|]. split; [done|].
    intros A k cd continue. unfold Curriculum.update_course.
    by rewrite validate_course_structure_false. }
  pose proof (credit_rules_checked self) as Hrules.
  unfold Curriculum.clean.
  destruct (String.eqb _ Curriculum.BACHELORS && _) eqn:Hb.
  { split; [|split].
    - split; [done|]. intros [[? ?]%Hrules _]. done.
    - intros k cd rest [? ?]%Hrules. done.
    - done. }
  destruct (String.eqb _ Curriculum.MASTERS && _) eqn:Hm.
  { split; [|split].
    - split; [done|]. intros [[? ?]%Hrules _]. done.
    - intros k cd rest [? ?]%Hrules. done.
    - done. }
  assert (credit_rules self) as Hok by (by apply Hrules).
  destruct (Curriculum.courses_data self) as [|a|l|d].
  1-3: (split; [|split]; [split; [done | by intros [_ ?]] | done | done]).
  destruct d as [|[k cd] rest].
  - split; [|split]; [done | done | done].
  - cbn [Curriculum.clean_courses]. unfold Curriculum.clean_course.
    rewrite validate_course_structure_false. cbn [negb]. split; [|split].
    + split; [done | by intros [_ ?]].
    + by intros k' cd' rest' _ [= <- _ _].
    + done.
Qed.

Lemma curriculum_clean_accepts_no_course_witness :
  Curriculum.clean
    (Curriculum.mk "BSC" 120
       (VDict [(PStr "CS101", CurriculumSchema.example_single_semester_course)]))
  = inl (InvalidCourseStructure (PStr "CS101")).
Proof.
  destruct (curriculum_clean_accepts_no_course
              (Curriculum.mk "BSC" 120
                 (VDict [(PStr "CS101",
                          CurriculumSchema.example_single_semester_course)])))
    as (_ & _ & H & _ & _).
  apply (H (PStr "CS101") CurriculumSchema.example_single_semester_course []).
  - split; cbn; [lia | discriminate].
  - reflexivity.
Defined.

(** ** excel.py: the prerequisites cell *)








(** ** excel.py: the sheet [export_excel] writes *)

Lemma comprehension_Forall2 {A B} (f : A -> result B) (l : list A)
    (r : list B) :
  comprehension f l = Ok r -> Forall2 (fun x y => f x = Ok y) l r.
Proof.
  revert r. induction l as [|x l IH]; cbn; intros r H.
  - injection H as <-. constructor.
  - apply bind_Ok in H as (y & Hy & H).
    apply bind_Ok in H as (ys & Hys & [= <-]). constructor; auto.
Qed.

Lemma export_row_cells (course_code : atom) (course_data : value)
    (first_semester : bool) (semester : value) (row : list atom) :
  ExcelProcessor.export_row course_code course_data first_semester semester
    = Ok row ->
  length row = 5
  /\ row !! 0 = Some (if first_semester then course_code else PStr "")
  /\ (first_semester = false -> blank_continuation row).
Proof.
  unfold ExcelProcessor.export_row. intros H.
  apply bind_Ok in H as (name & Hname & H).
  apply bind_Ok in H as (credits & _ & H).
  apply bind_Ok in H as (number & _ & H).
  apply bind_Ok in H as (prereqs & Hprereqs & H).
  apply comprehension_Forall2 in H.
  apply Forall2_cons_inv_l in H as (c0 & r0 & H0 & H & ->).
  apply Forall2_cons_inv_l in H as (c1 & r1 & H1 & H & ->).
  apply Forall2_cons_inv_l in H as (c2 & r2 & H2 & H & ->).
  apply Forall2_cons_inv_l in H as (c3 & r3 & H3 & H & ->).
  apply Forall2_cons_inv_l in H as (c4 & r4 & H4 & H & ->).
  apply Forall2_nil_inv_l in H as ->.
  injection H0 as <-. injection H4 as <-.
  split; [done|]. split; [done|].
  intros ->. injection Hname as <-. injection Hprereqs as <-.
  injection H1 as <-. done.
Qed.

Lemma export_continuation_rows (course_code : atom) (course_data : value)
    (semesters : list value) (rows : list (list atom)) :
  ExcelProcessor.export_semesters course_code course_data false semesters
    = Ok rows ->
  length rows = length semesters
  /\ Forall (fun row => length row = 5) rows
  /\ Forall blank_continuation rows.
Proof.
  revert rows.
  induction semesters as [|sem semesters IH];
    cbn [ExcelProcessor.export_semesters]; intros rows H.
  - by injection H as <-.
  - apply bind_Ok in H as (row & Hrow & H).
    apply bind_Ok in H as (more & Hmore & [= <-]).
    apply export_row_cells in Hrow as (Hlen & _ & Hblank).
    destruct (IH _ Hmore) as (? & ? & ?).
    cbn. split; [by f_equal|]. split; constructor; auto.
Qed.

(** The sheet [export_excel] writes has six header cells and five cells in
    every data row, so its last column, [Prerequisites], stays empty. Each
    course takes one row per semester, the courses in mapping order; the
    first row of a course starts with its code, and in every later row the
    cells of the code, of the name and of the prerequisites hold the empty
    text. *)
Theorem export_excel_layout (curriculum_data : value) (ws : Worksheet) :
  ExcelProcessor.export_excel curriculum_data = Ok ws ->
  header ws = ["course_code"; "course_name"; "credits"; "semester";
               "prerequisites"; "Prerequisites"]
  /\ Forall (fun row => length row = 5) (body ws)
  /\ exists (d : Dict.t value) (per_course : list (list (list atom))),
       curriculum_data = VDict d
       /\ body ws = concat per_course
       /\ Forall2
            (fun (item : atom * value) (rows : list (list atom)) =>
               exists semesters,
                 subscript item.2 "semesters" ≫= py_iter = Ok semesters
                 /\ length rows = length semesters
                 /\ match rows with
                    | [] => True
                    | first :: rest =>
                        first !! 0 = Some item.1
                        /\ Forall blank_continuation rest
                    end)
            d per_course.
Proof.
  unfold ExcelProcessor.export_excel.
  destruct curriculum_data as [|a|l|d]; try discriminate. intros H.
  apply bind_Ok in H as (per_course & Hper & [= <-]). cbn [header body].
  apply comprehension_Forall2 in Hper.
  assert (Hrows : Forall2
            (fun (item : atom * value) (rows : list (list atom)) =>
               Forall (fun row => length row = 5) rows
               /\ exists semesters,
                    subscript item.2 "semesters" ≫= py_iter = Ok semesters
                    /\ length rows = length semesters
                    /\ match rows with
                       | [] => True
                       | first :: rest =>
                           first !! 0 = Some item.1
                           /\ Forall blank_continuation rest
                       end)
            d per_course).
  { eapply Forall2_impl; [exact Hper|]. intros [k cd] rows Hc.
    unfold ExcelProcessor.export_course in Hc. cbn [fst snd].
    apply bind_Ok in Hc as (semesters & Hsems & Hc).
    destruct semesters as [|sem semesters];
      cbn [ExcelProcessor.export_semesters] in Hc.
    - injection Hc as <-. split; [constructor|]. by exists [].
    - apply bind_Ok in Hc as (row & Hrow & Hc).
      apply bind_Ok in Hc as (more & Hmore & [= <-]).
      apply export_row_cells in Hrow as (Hlen & Hcode & _).
      apply export_continuation_rows in Hmore as (Hn & H5 & Hblank).
      split; [by constructor|]. exists (sem :: semesters).
      split; [done|]. split; [cbn; by f_equal | done]. }
  split; [reflexivity|]. split.
  - clear Hper. induction Hrows as [|item rows d' per' [H5 _] _ IH]; cbn.
    + constructor.
    + apply Forall_app. split; [done | exact IH].
  - exists d, per_course. split; [done|]. split; [done|].
    eapply Forall2_impl; [exact Hrows|]. by intros ? ? [_ ?].
Qed.

Lemma export_excel_layout_witness :
  exists ws,
    ExcelProcessor.export_excel (VDict [(PStr "CS201", sheet_record)]) = Ok ws
    /\ length (header ws) = 6
    /\ Forall (fun row => length row = 5) (body ws).
Proof.
  eexists. split; [reflexivity|].
  destruct (export_excel_layout (VDict [(PStr "CS201", sheet_record)]) _
              eq_refl) as (Hh & Hb & _).
  split; [by rewrite Hh | exact Hb].
Defined.

(** ** excel.py: the warnings of [preview_data] on a record of the schema *)

Lemma subscript_course_fields (code name type semesters prerequisites : value) :
  let d := VDict [(PStr "code", code); (PStr "name", name);
                  (PStr "type", type); (PStr "semesters", semesters);
                  (PStr "prerequisites", prerequisites)] in
  subscript d "semesters" = Ok semesters
  /\ subscript d "prerequisites" = Ok prerequisites.
Proof. split; reflexivity. Qed.

Lemma credits_of_semesters (l : list SemesterData.t) :
  comprehension (fun sem => subscript sem "credits" ≫= as_int)
    (SemesterData.to_dict <$> l)
  = Ok (SemesterData.credits <$> l).
Proof.
  induction l as [|s l IH]; [reflexivity|].
  change (SemesterData.to_dict <$> s :: l)
    with (SemesterData.to_dict s :: (SemesterData.to_dict <$> l)).
  cbn [comprehension]. rewrite IH. by destruct s.
Qed.

(** The warning loop of [preview_data] never raises on the dictionary of a
    schema record whose prerequisites are a list, and its warnings are
    decided by three thresholds: more than 8 credits over all semesters,
    more than 3 prerequisites, more than 2 semesters. A record within the
    three bounds gets no warning. *)
Theorem warnings_of_schema_record (code : atom) (c : CourseData.t)
    (t : CourseType) (prereqs : list value) :
  CourseData.type c = CourseData.IsCourseType t ->
  CourseData.prerequisites c = VList prereqs ->
  let total_credits :=
    foldr Z.add 0%Z (SemesterData.credits <$> CourseData.semesters c) in
  let spans := length (CourseData.semesters c) in
  exists d ws,
    CourseData.to_dict c = Ok d
    /\ ExcelProcessor.course_warnings (code, d) = Ok ws
    /\ ws = ((if (8 <? total_credits)%Z
              then [UnusuallyHighCredits code total_credits] else [])
             ++ (if Nat.ltb 3 (length prereqs)
                 then [ManyPrerequisites code (length prereqs)] else [])
             ++ (if Nat.ltb 2 spans then [SpansSemesters code spans] else []))
    /\ (ws = [] <->
        (total_credits <= 8)%Z /\ length prereqs <= 3 /\ spans <= 2).
Proof.
  destruct c as [ccode name ty sems p]. cbn [CourseData.type
    CourseData.prerequisites CourseData.semesters]. intros -> ->.
  unfold CourseData.to_dict. cbn [CourseData.type CourseData.code
    CourseData.name CourseData.semesters CourseData.prerequisites
    mbind result_bind].
  eexists. eexists. split; [reflexivity|].
  unfold ExcelProcessor.course_warnings.
  match goal with
  | |- context [subscript (VDict [(_, ?a); (_, ?b); (_, ?ty); (_, ?s); (_, ?q)])
                  "semesters"] =>
      destruct (subscript_course_fields a b ty s q) as [-> ->]
  end.
  cbn [mbind result_bind py_iter]. rewrite credits_of_semesters.
  cbn [mbind result_bind].
  assert (ExcelProcessor.py_len
            (if truthy (VList prereqs) then VList prereqs else VList [])
          = Ok (length prereqs)) as ->.
  { by destruct prereqs. }
  cbn [mbind result_bind ExcelProcessor.py_len].
  rewrite length_fmap.
  split; [reflexivity|]. split; [reflexivity|].
  destruct (Z.ltb_spec 8 (foldr Z.add 0%Z (SemesterData.credits <$> sems))),
    (Nat.ltb_spec 3 (length prereqs)), (Nat.ltb_spec 2 (length sems));
    cbn; split; try done; try lia; intros (? & ? & ?); lia.
Qed.

Lemma warnings_of_schema_record_witness :
  exists d ws,
    CourseData.to_dict
      (CourseData.mk (Atom (PStr "CS301")) (Atom (PStr "Capstone"))
         (CourseData.IsCourseType MANDATORY)
         [SemesterData.mk 1 9 (HourDistribution.mk 90 90 0 0 90)] (VList []))
    = Ok d
    /\ ExcelProcessor.course_warnings (PStr "CS301", d) = Ok ws
    /\ ws = [UnusuallyHighCredits (PStr "CS301") 9].
Proof.
  destruct (warnings_of_schema_record (PStr "CS301")
              (CourseData.mk (Atom (PStr "CS301")) (Atom (PStr "Capstone"))
                 (CourseData.IsCourseType MANDATORY)
                 [SemesterData.mk 1 9 (HourDistribution.mk 90 90 0 0 90)]
                 (VList []))
              MANDATORY [] eq_refl eq_refl) as (d & ws & Hd & Hw & Hws & _).
  exists d, ws. split; [exact Hd|]. split; [exact Hw | exact Hws].
Defined.

(** ** excel.py: what [clean_dataframe] touches *)

Lemma column_index_lookup (cols : list string) (col : string) (i : nat) :
  ExcelProcessor.column_index cols col = Some i -> cols !! i = Some col.
Proof.
  revert i. induction cols as [|c cols IH]; cbn; intros i H; [discriminate|].
  destruct (String.eqb_spec c col) as [->|Hne].
  - by injection H as <-.
  - destruct (ExcelProcessor.column_index cols col) as [j|]; [|discriminate].
    injection H as <-. cbn. by apply IH.
Qed.

Lemma column_index_None (cols : list string) (col : string) :
  ExcelProcessor.column_index cols col = None <-> col ∉ cols.
Proof.
  induction cols as [|c cols IH]; cbn.
  - split; [intros _; apply not_elem_of_nil | done].
  - rewrite not_elem_of_cons. destruct (String.eqb_spec c col) as [->|Hne].
    + split; [done | by intros [? _]].
    + destruct (ExcelProcessor.column_index cols col); cbn.
      * split; [done|]. intros [_ H]. by apply IH in H.
      * split; [|done]. intros _. split; [done | by apply IH].
Qed.

Lemma same_cells_refl (P : nat -> Prop) (df : DataFrame) : same_cells P df df.
Proof. split; [done|]. by apply Forall_Forall2_diag, Forall_forall. Qed.

Lemma same_cells_trans (P : nat -> Prop) (df1 df2 df3 : DataFrame) :
  same_cells P df1 df2 -> same_cells P df2 df3 -> same_cells P df1 df3.
Proof.
  intros [Hc1 H1] [Hc2 H2]. split; [congruence|].
  revert H2. generalize (rows df3). clear Hc1 Hc2.
  induction H1 as [|r1 r2 l1 l2 Hr _ IH]; intros l3 H2.
  - apply Forall2_nil_inv_l in H2 as ->. constructor.
  - apply Forall2_cons_inv_l in H2 as (r3 & l3' & Hr' & H2 & ->).
    constructor; [|by apply IH].
    intros j Hj. by rewrite Hr', Hr.
Qed.

Lemma map_column_same_cells (P : nat -> Prop) (f : atom -> result atom)
    (col : string) (df df' : DataFrame) :
  (forall j, P j -> ExcelProcessor.column_index (columns df) col <> Some j) ->
  ExcelProcessor.map_column f col df = Ok df' ->
  same_cells P df df' /\ col ∈ columns df.
Proof.
  unfold ExcelProcessor.map_column. intros HP H.
  destruct (ExcelProcessor.column_index (columns df) col) as [i|] eqn:Hi;
    [|discriminate].
  apply bind_Ok in H as (rows' & Hrows & [= <-]). split.
  - split; [done|]. cbn [rows].
    apply comprehension_Forall2 in Hrows.
    eapply Forall2_impl; [exact Hrows|]. intros r r' Hr j Hj.
    unfold ExcelProcessor.map_cell in Hr.
    apply bind_Ok in Hr as (cell & _ & [= <-]).
    apply list_lookup_insert_ne. intros ->. by apply (HP j).
  - apply column_index_lookup in Hi. by eapply list_elem_of_lookup_2.
Qed.

Lemma for_columns_same_cells (P : nat -> Prop) (cols0 : list string)
    (step : string -> DataFrame -> result DataFrame) (cols : list string) :
  (forall col df1 df2,
      col ∈ cols -> columns df1 = cols0 -> step col df1 = Ok df2 ->
      same_cells P df1 df2 /\ col ∈ cols0) ->
  forall df df',
    columns df = cols0 ->
    ExcelProcessor.for_columns step cols df = Ok df' ->
    same_cells P df df' /\ forall col, col ∈ cols -> col ∈ cols0.
Proof.
  induction cols as [|col cols IH]; intros Hstep df df' Hdf H; cbn in H.
  - injection H as <-. split; [apply same_cells_refl|].
    by intros col ?%elem_of_nil.
  - apply bind_Ok in H as (df1 & H1 & H).
    destruct (Hstep col df df1) as [Hs Hcol]; [left | done | done |].
    assert (columns df1 = cols0) as Hdf1 by (destruct Hs; congruence).
    destruct (IH (fun c d1 d2 Hc =>
                    Hstep c d1 d2 (list_elem_of_further _ _ _ Hc))
                 df1 df' Hdf1 H) as [Hs' Hcols].
    split; [by eapply same_cells_trans|].
    intros c [->|Hc]%elem_of_cons; [done | auto].
Qed.

(** [clean_dataframe] needs the nine columns it names ([Credits],
    [Lecture], ..., [Course Code], [Course Name], [Type]) and rewrites only
    these: the frame it returns has the same columns and as many rows, and
    the cells of every other column are as they were. The columns that
    [read_excel] builds a course from ([course_code], [course_name],
    [credits], [semester], [prerequisites]) are among the others, so a
    blank cell there stays blank. *)
Theorem clean_dataframe_touches_nine (py_int : string -> result Z)
    (df df' : DataFrame) :
  ExcelProcessor.clean_dataframe py_int df = Ok df' ->
  columns df' = columns df
  /\ length (rows df') = length (rows df)
  /\ (forall col,
        col ∈ ExcelProcessor.numeric_columns ++ ExcelProcessor.string_columns ->
        col ∈ columns df)
  /\ forall n row row' col,
       col ∉ ExcelProcessor.numeric_columns ++ ExcelProcessor.string_columns ->
       rows df !! n = Some row ->
       rows df' !! n = Some row' ->
       ExcelProcessor.row_getitem (columns df) row' col
       = ExcelProcessor.row_getitem (columns df) row col.
Proof.
  unfold ExcelProcessor.clean_dataframe. intros H.
  apply bind_Ok in H as ([] & _ & H).
  apply bind_Ok in H as (df1 & H1 & H).
  apply bind_Ok in H as (df2 & H2 & H3).
  pose (P := fun j : nat =>
               forall col,
                 col ∈ ExcelProcessor.numeric_columns
                       ++ ExcelProcessor.string_columns ->
                 (columns df) !! j <> Some col).
  assert (Hmap : forall f col d1 d2,
             col ∈ ExcelProcessor.numeric_columns
                   ++ ExcelProcessor.string_columns ->
             columns d1 = columns df ->
             ExcelProcessor.map_column f col d1 = Ok d2 ->
             same_cells P d1 d2 /\ col ∈ columns d1).
  { intros f col d1 d2 Hcol Hcols. apply map_column_same_cells.
    intros j Hj Hi. apply column_index_lookup in Hi.
    rewrite Hcols in Hi. by apply (Hj col). }
  assert (Hnumeric : forall col, col ∈ ExcelProcessor.numeric_columns ->
             col ∈ ExcelProcessor.numeric_columns
                   ++ ExcelProcessor.string_columns)
    by (intros; apply elem_of_app; by left).
  assert (Hstring : forall col, col ∈ ExcelProcessor.string_columns ->
             col ∈ ExcelProcessor.numeric_columns
                   ++ ExcelProcessor.string_columns)
    by (intros; apply elem_of_app; by right).
  assert (same_cells P df df1
          /\ forall col, col ∈ ExcelProcessor.numeric_columns ->
                         col ∈ columns df) as [Hs1 Hcols1].
  { eapply for_columns_same_cells; [|reflexivity|exact H1].
    intros col d1 d2 Hcol Hd Hm.
    destruct (Hmap _ col d1 d2 (Hnumeric _ Hcol) Hd Hm) as [? Hin].
    by rewrite Hd in Hin. }
  assert (Hc1 : columns df1 = columns df) by (by destruct Hs1).
  assert (same_cells P df1 df2
          /\ forall col, col ∈ ExcelProcessor.numeric_columns ->
                         col ∈ columns df) as [Hs2 _].
  { eapply for_columns_same_cells; [|exact Hc1|exact H2].
    intros col d1 d2 Hcol Hd Hm.
    destruct (Hmap _ col d1 d2 (Hnumeric _ Hcol) Hd Hm) as [? Hin].
    by rewrite Hd in Hin. }
  assert (Hc2 : columns df2 = columns df) by (destruct Hs2; congruence).
  assert (same_cells P df2 df'
          /\ forall col, col ∈ ExcelProcessor.string_columns ->
                         col ∈ columns df) as [Hs3 Hcols3].
  { eapply for_columns_same_cells; [|exact Hc2|exact H3].
    intros col d1 d2 Hcol Hd Hm. cbn beta in Hm.
    apply bind_Ok in Hm as (da & Ha & Hm).
    apply bind_Ok in Hm as ([] & _ & Hb).
    destruct (Hmap _ col d1 da (Hstring _ Hcol) Hd Ha) as [Hsa Hin].
    rewrite Hd in Hin.
    assert (columns da = columns df) as Hda by (destruct Hsa; congruence).
    destruct (Hmap _ col da d2 (Hstring _ Hcol) Hda Hb) as [Hsb _].
    split; [by eapply same_cells_trans | done]. }
  assert (Hs : same_cells P df df').
  { eapply same_cells_trans; [exact Hs1|].
    eapply same_cells_trans; [exact Hs2 | exact Hs3]. }
  destruct Hs as [Hc Hrows].
  split; [done|]. split; [symmetry; by eapply Forall2_length|]. split.
  - intros col [Hcol|Hcol]%elem_of_app; auto.
  - intros n row row' col Hcol Hrow Hrow'.
    unfold ExcelProcessor.row_getitem.
    destruct (ExcelProcessor.column_index (columns df) col) as [j|] eqn:Hj;
      [|done].
    f_equal. f_equal.
    eapply Forall2_lookup_lr in Hrows; [|exact Hrow|exact Hrow'].
    apply Hrows. intros col' Hcol' Hl.
    apply column_index_lookup in Hj. congruence.
Qed.

Lemma clean_dataframe_touches_nine_witness :
  ExcelProcessor.clean_dataframe (fun _ => Raise TypeError)
    {| columns := sheet_columns; rows := [blank_credits_row] |}
  = Ok {| columns := sheet_columns; rows := [blank_credits_row_cleaned] |}
  /\ ExcelProcessor.row_getitem sheet_columns blank_credits_row_cleaned
       "credits"
     = ExcelProcessor.row_getitem sheet_columns blank_credits_row "credits".
Proof.
  split; [reflexivity|].
  destruct (clean_dataframe_touches_nine (fun _ => Raise TypeError)
              {| columns := sheet_columns; rows := [blank_credits_row] |}
              {| columns := sheet_columns;
                 rows := [blank_credits_row_cleaned] |} eq_refl)
    as (_ & _ & _ & H).
  apply (H 0); [by apply column_index_None | reflexivity | reflexivity].
Defined.

(** ** excel.py: what [read_excel] answers to the header of a sheet *)

Lemma for_columns_fixed (step : string -> DataFrame -> result DataFrame)
    (cols : list string) (df : DataFrame) :
  (forall col, col ∈ cols -> step col df = Ok df) ->
  ExcelProcessor.for_columns step cols df = Ok df.
Proof.
  induction cols as [|col cols IH]; intros Hstep; [reflexivity|].
  cbn [ExcelProcessor.for_columns]. rewrite Hstep by left.
  cbn. apply IH. intros c Hc. apply Hstep. by right.
Qed.

Lemma map_column_no_rows (f : atom -> result atom) (col : string)
    (header : list string) :
  col ∈ header ->
  ExcelProcessor.map_column f col {| columns := header; rows := [] |}
  = Ok {| columns := header; rows := [] |}.
Proof.
  intros Hcol. unfold ExcelProcessor.map_column. cbn [columns rows].
  destruct (ExcelProcessor.column_index header col) eqn:Hi; [reflexivity|].
  by apply column_index_None in Hi.
Qed.

Lemma str_accessor_no_rows (col : string) (header : list string) :
  col ∈ header ->
  ExcelProcessor.str_accessor col {| columns := header; rows := [] |} = Ok tt.
Proof.
  intros Hcol. unfold ExcelProcessor.str_accessor. cbn [columns rows].
  destruct (ExcelProcessor.column_index header col) eqn:Hi; [reflexivity|].
  by apply column_index_None in Hi.
Qed.

Lemma filter_none {A} (P : A -> Prop) `{!forall x, Decision (P x)}
    (l : list A) :
  Forall (fun x => ~ P x) l -> filter P l = [].
Proof.
  induction 1 as [|x l Hx _ IH]; [done|]. by rewrite filter_cons_False.
Qed.

(** [read_excel] looks at the header first. A sheet that lacks one of
    [course_code], [course_name], [credits], [semester], [prerequisites]
    is refused with the set of the missing ones; a sheet that has these but
    lacks one of [Credits], [Lecture], [Lab], [Practice], [Seminar],
    [Individual] is refused with the [KeyError] of the ones it lacks; and a
    sheet that has all fourteen columns and no data row reads as the empty
    mapping. *)
Theorem read_excel_header_outcomes (py_int : string -> result Z)
    (df : DataFrame) :
  let missing : gset string :=
    list_to_set ExcelProcessor.REQUIRED_COLUMNS ∖ list_to_set (columns df) in
  let absent :=
    filter (fun col => ExcelProcessor.column_index (columns df) col = None)
      ExcelProcessor.numeric_columns in
  (missing <> ∅ ->
   ExcelProcessor.read_excel py_int df
   = Raise (ValidationError
              (ErrorProcessingExcel
                 (ValidationError (MissingRequiredColumns missing)))))
  /\ (missing = ∅ -> absent <> [] ->
      ExcelProcessor.read_excel py_int df
      = Raise (ValidationError
                 (ErrorProcessingExcel (KeyError (text_list absent)))))
  /\ (missing = ∅ -> rows df = [] ->
      (forall col,
          col ∈ ExcelProcessor.numeric_columns ++ ExcelProcessor.string_columns ->
          col ∈ columns df) ->
      ExcelProcessor.read_excel py_int df = Ok []).
Proof.
  intros missing absent.
  unfold ExcelProcessor.read_excel, ExcelProcessor.validate_headers.
  fold missing. split; [|split].
  - intros Hm. by destruct (decide (missing = ∅)).
  - intros Hm Ha. destruct (decide (missing = ∅)); [|done].
    cbn [mbind result_bind]. unfold ExcelProcessor.clean_dataframe,
      ExcelProcessor.select_columns. fold absent.
    by rewrite bool_decide_eq_false_2.
  - intros Hm Hrows Hcols. destruct (decide (missing = ∅)); [|done].
    cbn [mbind result_bind]. destruct df as [header body].
    cbn [rows columns] in Hrows, Hcols. subst body.
    assert (ExcelProcessor.clean_dataframe py_int
              {| columns := header; rows := [] |}
            = Ok {| columns := header; rows := [] |}) as ->.
    { unfold ExcelProcessor.clean_dataframe, ExcelProcessor.select_columns.
      cbn [columns].
      assert (filter (fun col => ExcelProcessor.column_index header col = None)
                ExcelProcessor.numeric_columns = []) as ->.
      { apply filter_none, Forall_forall. intros col Hcol.
        rewrite column_index_None. intros Hn. apply Hn, Hcols.
        apply elem_of_app. by left. }
      rewrite bool_decide_eq_true_2 by done. cbn [mbind result_bind].
      rewrite for_columns_fixed
        by (intros col Hcol; apply map_column_no_rows, Hcols, elem_of_app;
            by left).
      cbn [mbind result_bind].
      rewrite for_columns_fixed
        by (intros col Hcol; apply map_column_no_rows, Hcols, elem_of_app;
            by left).
      cbn [mbind result_bind].
      apply for_columns_fixed. intros col Hcol.
      assert (col ∈ header) by (apply Hcols, elem_of_app; by right).
      rewrite map_column_no_rows by done. cbn [mbind result_bind].
      rewrite str_accessor_no_rows by done. cbn [mbind result_bind].
      by apply map_column_no_rows. }
    reflexivity.
Qed.

Lemma read_excel_header_outcomes_witness :
  ExcelProcessor.read_excel (fun _ => Raise TypeError)
    {| columns := ExcelProcessor.REQUIRED_COLUMNS ++ ["Prerequisites"];
       rows := [] |}
  = Raise (ValidationError
             (ErrorProcessingExcel
                (KeyError (text_list ExcelProcessor.numeric_columns))))
  /\ ExcelProcessor.read_excel (fun _ => Raise TypeError)
       {| columns := sheet_columns; rows := [] |} = Ok [].
Proof.
  split.
  - destruct (read_excel_header_outcomes (fun _ => Raise TypeError)
                {| columns := ExcelProcessor.REQUIRED_COLUMNS
                              ++ ["Prerequisites"];
                   rows := [] |}) as (_ & H & _).
    apply H; [|discriminate].
    match goal with
      | |- ?P => destruct (decide P) as [He|Hn] eqn:Hd;
                   [exact He | vm_compute in Hd; discriminate]
      end.
  - destruct (read_excel_header_outcomes (fun _ => Raise TypeError)
                {| columns := sheet_columns; rows := [] |}) as (_ & _ & H).
    apply H; [|reflexivity|].
    + match goal with
      | |- ?P => destruct (decide P) as [He|Hn] eqn:Hd;
                   [exact He | vm_compute in Hd; discriminate]
      end.
    + intros col Hcol. unfold sheet_columns. cbn [columns].
      apply elem_of_app. by right.
Defined.
